(** * Reconciliation core of the RDS cluster modules

    A shallow embedding of [create_cluster] (library/rds_cluster.py) and
    [create_db_instance] (library/rds_cluster_instance.py): the values the
    modules exchange with the gateway, the diff that yields the arguments of
    the modify call, the branch taken on the gateway's error code and the
    loop that waits for the resource to become available. *)

From Stdlib Require Import ZArith Ascii.
From stdpp Require Import gmap strings list fin_maps sorting.

Local Open Scope Z_scope.

(** ** Values

    What Python passes around: the parameters of the module, the arguments
    of the API calls and the dictionaries the client returns. *)

#[local] Unset Elimination Schemes.
Inductive value : Type :=
  | VNone
  | VBool (b : bool)
  | VInt (n : Z)
  | VStr (s : string)
  | VList (l : list value)
  | VDict (d : list (string * value)).
#[local] Set Elimination Schemes.

(** A dictionary nested in a value keeps its items in a list; [d[k]] reads
    the first item stored under [k]. *)
Fixpoint dict_get (k : string) (d : list (string * value)) : option value :=
  match d with
  | [] => None
  | (k', v) :: d' => if String.eqb k k' then Some v else dict_get k d'
  end.

(** Python's [==]: numbers compare by value ([True == 1]), lists item by
    item, dictionaries by their keys whatever the order of the items. *)
Fixpoint py_eq (a b : value) {struct a} : bool :=
  match a, b with
  | VNone, VNone => true
  | VBool x, VBool y => Bool.eqb x y
  | VBool x, VInt y => Z.b2z x =? y
  | VInt x, VBool y => x =? Z.b2z y
  | VInt x, VInt y => x =? y
  | VStr x, VStr y => String.eqb x y
  | VList xs, VList ys =>
      (fix items (xs ys : list value) {struct xs} : bool :=
         match xs, ys with
         | [], [] => true
         | x :: xs', y :: ys' => py_eq x y && items xs' ys'
         | _, _ => false
         end) xs ys
  | VDict d, VDict e =>
      (length d =? length e)%nat &&
      (fix entries (d : list (string * value)) {struct d} : bool :=
         match d with
         | [] => true
         | (k, v) :: d' =>
             match dict_get k e with
             | Some w => py_eq v w && entries d'
             | None => false
             end
         end) d
  | _, _ => false
  end.

Definition py_ne (a b : value) : bool := negb (py_eq a b).

(** ** Exceptions *)

(** What [module.exit_json] and [module.fail_json] report before they leave
    the interpreter. *)
Inductive report : Type :=
  | Result (result : value)                       (* exit_json(result=result) *)
  | Failed (msg : string)                         (* fail_json(msg=...) *)
  | FailedApi (msg : string) (api_args : gmap string value)
                                                  (* fail_json(msg=..., api_args=api_args) *)
  | FailedWait (msg : string) (resource : value). (* fail_json(msg=..., cluster=... | instance=...) *)

Inductive exn : Type :=
  | ClientError (code msg : string)   (* e.response['Error']['Code'], str(e) *)
  | KeyError (key : string)
  | TypeError
  | AttributeError
  | UnboundLocalError (name : string)
  | NameError (name : string)
  | SystemExit (r : report)
  | Diverged.                         (* the fuel of a loop ran out *)

(** Computations that may raise, outside the gateway. *)
Definition res (A : Type) : Type := exn + A.

Global Instance res_bind : MBind res := λ A B f x,
  match x with inl e => inl e | inr a => f a end.

(** [d[k]] for a dictionary read from the gateway. *)
Definition getitem (d : list (string * value)) (k : string) : res value :=
  match dict_get k d with Some v => inr v | None => inl (KeyError k) end.

(** [v[k]] for an arbitrary value. *)
Definition subscript (v : value) (k : string) : res value :=
  match v with VDict d => getitem d k | _ => inl TypeError end.

(** The items a [for] or a [sorted] draws from a value. *)
Definition py_iter (v : value) : res (list value) :=
  match v with
  | VList l => inr l
  | VDict d => inr (VStr <$> d.*1)
  | VStr s => inr ((fun c => VStr (String c EmptyString)) <$> String.list_ascii_of_string s)
  | _ => inl TypeError
  end.

Fixpoint res_map {A B} (f : A → res B) (l : list A) : res (list B) :=
  match l with
  | [] => inr []
  | x :: l' => y ← f x; ys ← res_map f l'; inr (y :: ys)
  end.

(** ** [sorted] *)

Definition sorted (l : list string) : list string := merge_sort String.le l.

Fixpoint strings_of (l : list value) : option (list string) :=
  match l with
  | [] => Some []
  | VStr s :: l' => cons s <$> strings_of l'
  | _ :: _ => None
  end.

(** Takes the first item equal to [x] out of [l]. *)
Fixpoint take_out (x : value) (l : list value) : option (list value) :=
  match l with
  | [] => None
  | y :: l' => if py_eq x y then Some l' else cons y <$> take_out x l'
  end.

Fixpoint same_items (xs ys : list value) : bool :=
  match xs with
  | [] => match ys with [] => true | _ => false end
  | x :: xs' => match take_out x ys with Some ys' => same_items xs' ys' | None => false end
  end.

(** [sorted(xs) != sorted(ys)].  Identifiers are strings and are sorted as
    such.  Python 2 orders values of any type totally, so that two sorted
    lists are equal exactly when they hold the same items the same number of
    times: that is what is computed when an item is not a string. *)
Definition sorted_ne (xs ys : list value) : bool :=
  match strings_of xs, strings_of ys with
  | Some a, Some b => negb (bool_decide (sorted a = sorted b))
  | _, _ => negb (same_items xs ys)
  end.

(** [s.lower()] on a byte string. *)
Definition lower_char (c : ascii) : ascii :=
  let n := nat_of_ascii c in
  if ((65 <=? n) && (n <=? 90))%nat then ascii_of_nat (n + 32) else c.

Fixpoint lower (s : string) : string :=
  match s with
  | EmptyString => EmptyString
  | String c s' => String (lower_char c) (lower s')
  end.

(** ** The gateway

    The boto3 client.  A call either raises [ClientError] or returns the
    response dictionary; what it answers may depend on everything that
    happened before, which the client receives as the trace so far. *)

Inductive call : Type :=
  | DescribeDBClusters (DBClusterIdentifier : string)
  | ModifyDBCluster (DBClusterIdentifier : string) (modify_args : gmap string value)
  | RestoreDBClusterFromSnapshot (api_args : gmap string value)
  | CreateDBCluster (api_args : gmap string value)
  | DescribeDBInstances (DBInstanceIdentifier : string)
  | ModifyDBInstance (DBInstanceIdentifier : string) (ApplyImmediately : bool)
      (modify_args : gmap string value)
  | CreateDBInstance (api_args : gmap string value)
  | ListTagsForResource (ResourceName : value)
  | RemoveTagsFromResource (ResourceName : value) (TagKeys : list value)
  | AddTagsToResource (ResourceName : value) (Tags : value).

(** [code] and [str(e)] of a [ClientError]. *)
Record client_error : Type := Error { code : string; message : string }.

Inductive answer : Type :=
  | Resources (found : option (list (list (string * value))))
      (* a describe response: its 'DBClusters' / 'DBInstances' entry, if any *)
  | Response (v : value)
  | Tags (TagList : option value)   (* the 'TagList' entry, if any *)
  | Done.

Inductive event : Type :=
  | Called (c : call) (r : client_error + answer)
  | Slept (seconds : Z).

Module Rds.
Record client : Type := Client {
  describe_db_clusters :
    list event → string → client_error + option (list (list (string * value)));
  modify_db_cluster : list event → string → gmap string value → client_error + value;
  restore_db_cluster_from_snapshot :
    list event → gmap string value → client_error + value;
  create_db_cluster : list event → gmap string value → client_error + value;
  describe_db_instances :
    list event → string → client_error + option (list (list (string * value)));
  modify_db_instance :
    list event → string → bool → gmap string value → client_error + value;
  create_db_instance : list event → gmap string value → client_error + value;
  list_tags_for_resource : list event → value → client_error + option value;
  remove_tags_from_resource : list event → value → list value → client_error + unit;
  add_tags_to_resource : list event → value → value → client_error + unit;
  (* the time a call takes, in milliseconds *)
  latency : list event → call → N
}.
End Rds.

(** ** The interpreter state

    The clock and the trace of the calls, and the local variables that are
    assigned on one side of a [try] and read on the other. *)

Record state : Type := State {
  now : Z;                         (* time.time(), in milliseconds *)
  trace : list event;
  api_args : gmap string value;
  check : option (option (list (list (string * value))));
    (* check_cluster / check_instance: unbound, or the last describe response *)
  timeout : Z                      (* params['wait_timeout'] *)
}.

Definition M (A : Type) : Type := state → (exn + A) * state.

Global Instance M_ret : MRet M := λ A a s, (inr a, s).
Global Instance M_bind : MBind M := λ A B f m s,
  match m s with
  | (inl e, s') => (inl e, s')
  | (inr a, s') => f a s'
  end.

Definition raise {A} (e : exn) : M A := λ s, (inl e, s).
Definition lift {A} (r : res A) : M A := λ s, (r, s).

(** [try: body except ...: handler]; the handler says which exceptions it
    takes. *)
Definition try_except {A} (body : M A) (handler : exn → option (M A)) : M A := λ s,
  match body s with
  | (inl e, s') => match handler e with Some h => h s' | None => (inl e, s') end
  | (inr a, s') => (inr a, s')
  end.

Definition exit_json {A} (result : value) : M A := raise (SystemExit (Result result)).
Definition fail_json {A} (r : report) : M A := raise (SystemExit r).

Definition get_api_args : M (gmap string value) := λ s, (inr (api_args s), s).
Definition set_api_args (a : gmap string value) : M unit := λ s,
  (inr tt, State (now s) (trace s) a (check s) (timeout s)).
Definition set_check (c : option (list (list (string * value)))) : M unit := λ s,
  (inr tt, State (now s) (trace s) (api_args s) (Some c) (timeout s)).
Definition get_check : M (option (option (list (list (string * value))))) := λ s,
  (inr (check s), s).
Definition get_timeout : M Z := λ s, (inr (timeout s), s).
Definition set_timeout (t : Z) : M unit := λ s,
  (inr tt, State (now s) (trace s) (api_args s) (check s) t).

Definition time_time : M Z := λ s, (inr (now s), s).
Definition time_sleep (seconds : Z) : M unit := λ s,
  (inr tt, State (now s + 1000 * seconds) (trace s ++ [Slept seconds])
                 (api_args s) (check s) (timeout s)).

(** What the trace keeps of a reply. *)
Definition answered {A} (wrap : A → answer) (a : client_error + A) :
    client_error + answer :=
  match a with inl e => inl e | inr x => inr (wrap x) end.

Section gateway.
Context (client : Rds.client).

(** A call through the client: the clock advances by the time the call
    takes and the call is recorded with what it answered. *)
Definition invoke {A} (c : call) (wrap : A → answer)
    (r : list event → client_error + A) : M A := λ s,
  let a := r (trace s) in
  let s' := State (now s + Z.of_N (Rds.latency client (trace s) c))
                  (trace s ++ [Called c (answered wrap a)])
                  (api_args s) (check s) (timeout s) in
  match a with
  | inl e => (inl (ClientError (code e) (message e)), s')
  | inr x => (inr x, s')
  end.

Definition describe_db_clusters (id : string) :=
  invoke (DescribeDBClusters id) Resources
    (λ h, Rds.describe_db_clusters client h id).
Definition modify_db_cluster (id : string) (args : gmap string value) :=
  invoke (ModifyDBCluster id args) Response
    (λ h, Rds.modify_db_cluster client h id args).
Definition restore_db_cluster_from_snapshot (args : gmap string value) :=
  invoke (RestoreDBClusterFromSnapshot args) Response
    (λ h, Rds.restore_db_cluster_from_snapshot client h args).
Definition create_db_cluster (args : gmap string value) :=
  invoke (CreateDBCluster args) Response
    (λ h, Rds.create_db_cluster client h args).
Definition describe_db_instances (id : string) :=
  invoke (DescribeDBInstances id) Resources
    (λ h, Rds.describe_db_instances client h id).
Definition modify_db_instance (id : string) (now_ : bool) (args : gmap string value) :=
  invoke (ModifyDBInstance id now_ args) Response
    (λ h, Rds.modify_db_instance client h id now_ args).
Definition create_instance (args : gmap string value) :=
  invoke (CreateDBInstance args) Response
    (λ h, Rds.create_db_instance client h args).
Definition list_tags_for_resource (arn : value) :=
  invoke (ListTagsForResource arn) Tags
    (λ h, Rds.list_tags_for_resource client h arn).
Definition remove_tags_from_resource (arn : value) (keys : list value) :=
  invoke (RemoveTagsFromResource arn keys) (λ _, Done)
    (λ h, Rds.remove_tags_from_resource client h arn keys).
Definition add_tags_to_resource (arn : value) (tags : value) :=
  invoke (AddTagsToResource arn tags) (λ _, Done)
    (λ h, Rds.add_tags_to_resource client h arn tags).
End gateway.

(** ** Waiting for the resource

    Lines 212-233 of rds_cluster.py and 310-331 of rds_cluster_instance.py
    are the same loop up to the names of the resource. *)

Inductive kind : Type := DBCluster | DBInstance.

Definition status_key (k : kind) : string :=
  match k with DBCluster => "Status" | DBInstance => "DBInstanceStatus" end.

Definition check_name (k : kind) : string :=
  match k with DBCluster => "check_cluster" | DBInstance => "check_instance" end.

Definition timeout_msg (k : kind) : string :=
  match k with
  | DBCluster => "Timed out waiting for DB cluster to become available"
  | DBInstance => "Timed out waiting for DB instance to become available"
  end.

(** [x.lower()] *)
Definition py_lower (v : value) : res string :=
  match v with VStr s => inr (lower s) | _ => inl AttributeError end.

(** The resource of a describe response that holds exactly one:
    ['DBClusters' in check_cluster and len(check_cluster['DBClusters']) == 1]. *)
Definition the_one (r : option (list (list (string * value)))) :
    option (list (string * value)) :=
  match r with Some [c] => Some c | _ => None end.

(** What a timeout reports of the last describe response. *)
Definition snapshot (r : option (list (list (string * value)))) : value :=
  match the_one r with Some c => VDict c | None => VNone end.

Section waiting.
Context (client : Rds.client).

Definition describe (k : kind) (id : string) :
    M (option (list (list (string * value)))) :=
  match k with
  | DBCluster => describe_db_clusters client id
  | DBInstance => describe_db_instances client id
  end.

(** One round of the loop's [try]: the new value of [ready]. *)
Definition poll (k : kind) (id : string) : M bool :=
  try_except
    (r ← describe k id;
     set_check r;;
     match the_one r with
     | Some c =>
         st ← lift (getitem c (status_key k));
         s ← lift (py_lower st);
         mret (String.eqb s "available")
     | None => mret false
     end)
    (λ e, match e with ClientError _ _ => Some (mret false) | _ => None end).

(** [while not ready and wait_timeout > time.time()], entered with
    [ready = False]. *)
Fixpoint wait_loop (fuel : nat) (k : kind) (id : string) (deadline : Z) : M unit :=
  match fuel with
  | O => raise Diverged
  | S fuel' =>
      t ← time_time;
      if deadline >? t then
        ready ← poll k id;
        if ready : bool then mret tt
        else time_sleep 5;; wait_loop fuel' k id deadline
      else mret tt
  end.

(** Every round that leaves the loop running sleeps five seconds, so this
    many rounds reach the deadline. *)
Definition rounds (deadline t : Z) : nat := Z.to_nat ((deadline - t) / 5000) + 2.

(** [if params['wait']: ...] followed by [module.exit_json(result=result)]. *)
Definition wait_and_exit (k : kind) (id : string) (wait : bool) (result : value) : M unit :=
  (if wait then
     t0 ← time_time;
     seconds ← get_timeout;
     let wait_timeout := t0 + 1000 * seconds in
     wait_loop (rounds wait_timeout t0) k id wait_timeout;;
     t ← time_time;
     if wait_timeout <=? t then
       c ← get_check;
       match c with
       | None => raise (UnboundLocalError (check_name k))
       | Some r => fail_json (FailedWait (timeout_msg k) (snapshot r))
       end
     else mret tt
   else mret tt);;
  exit_json result.

End waiting.

(** ** Pieces shared by the two modules *)

(** [if params[...] is not None: api_args[k] = params[...]] *)
Definition given (k : string) (v : option value) (d : gmap string value) :
    gmap string value :=
  match v with Some x => <[k := x]> d | None => d end.

Definition strs (l : list string) : value := VList (VStr <$> l).

(** [[dict(Key=k, Value=v) for k, v in params['tags'].iteritems()]] *)
Definition tag_list (tags : list (string * string)) : value :=
  VList ((λ kv, VDict [("Key", VStr kv.1); ("Value", VStr kv.2)]) <$> tags).

(** [if modify_args:] *)
Definition nonempty (d : gmap string value) : bool :=
  match map_to_list d with [] => false | _ => true end.

Fixpoint res_fold {A B} (f : B → A → res B) (b : B) (l : list A) : res B :=
  match l with
  | [] => inr b
  | x :: l' => b' ← f b x; res_fold f b' l'
  end.

Inductive desired_state : Type := present | absent.

(** The state a module starts in: nothing called, nothing bound. *)
Definition start (t0 : Z) (wait_timeout : Z) : state := State t0 [] ∅ None wait_timeout.

(** ** rds_cluster.py *)

Module Cluster.

Record params : Type := Params {
  availability_zones : option (list string);
  cluster_id : string;                     (* required *)
  database_name : option string;
  engine : option string;
  engine_version : option string;
  master_username : option string;
  master_password : option string;
  option_group : option string;
  port : option Z;
  snapshot_arn : option string;
  subnet_group : string;                   (* required *)
  tags : option (list (string * string));
  vpc_security_group_ids : option (list string);
  wait : bool;
  wait_timeout : Z
}.

(** The parameters [AnsibleModule] hands over when the task sets the two
    required options only ([module_args] in [main]). *)
Definition defaults (cluster_id subnet_group : string) : params :=
  {| availability_zones := None; cluster_id := cluster_id; database_name := None;
     engine := Some "aurora"; engine_version := None; master_username := None;
     master_password := None; option_group := None; port := None;
     snapshot_arn := None; subnet_group := subnet_group; tags := None;
     vpc_security_group_ids := None; wait := false; wait_timeout := 0 |}.

(** Lines 137-151. *)
Definition api_args_of (p : params) : gmap string value :=
  let api_args := ∅ in
  let api_args := given "AvailabilityZones" (strs <$> availability_zones p) api_args in
  let api_args := given "EngineVersion" (VStr <$> engine_version p) api_args in
  let api_args := given "Port" (VInt <$> port p) api_args in
  let api_args := given "DatabaseName" (VStr <$> database_name p) api_args in
  let api_args := given "OptionGroupName" (VStr <$> option_group p) api_args in
  let api_args :=
    given "VpcSecurityGroupIds" (strs <$> vpc_security_group_ids p) api_args in
  given "Tags" (tag_list <$> tags p) api_args.

(** [[g['VpcSecurityGroupId'] for g in cluster['VpcSecurityGroups']]] *)
Definition attached_groups (cluster : list (string * value)) : res (list value) :=
  groups ← getitem cluster "VpcSecurityGroups";
  gs ← py_iter groups;
  res_map (λ g, subscript g "VpcSecurityGroupId") gs.

(** The body of the loop of lines 162-167. *)
Definition modify_entry (cluster : list (string * value))
    (modify_args : gmap string value) (opt : string) (val : value) :
    res (gmap string value) :=
  if String.eqb opt "VpcSecurityGroupIds" then
    attached ← attached_groups cluster;
    wanted ← py_iter val;
    inr (if sorted_ne attached wanted then <[opt := val]> modify_args else modify_args)
  else
    current ← getitem cluster opt;
    inr (if py_ne current val then <[opt := val]> modify_args else modify_args).

(** Lines 161-167: [modify_args] after the loop over [api_args.iteritems()]. *)
Definition modify_args_of (cluster : list (string * value))
    (api_args : gmap string value) : res (gmap string value) :=
  res_fold (λ m kv, modify_entry cluster m kv.1 kv.2) ∅ (map_to_list api_args).

Section run.
Context (client : Rds.client).

(** Lines 154-177, the body of the [try]. *)
Definition found (p : params) : M value :=
  check_cluster ← describe_db_clusters client (cluster_id p);
  set_check check_cluster;;
  match the_one check_cluster with
  | None => fail_json (Failed "Failed to retrieve details for existing cluster")
  | Some cluster =>
      api_args ← get_api_args;
      modify_args ← lift (modify_args_of cluster api_args);
      result ←
        (if nonempty modify_args
         then modify_db_cluster client (cluster_id p) modify_args
         else mret (VDict [("DBCluster", VDict cluster)]));
      seconds ← get_timeout;
      (if seconds =? 0 then set_timeout 600 else mret tt);;
      mret result
  end.

(** What both inner and outer handlers do with an error they do not take
    for "not found": [module.fail_json(msg=str(e), api_args=api_args)]. *)
Definition fail_with_args {A} (msg : string) : M A :=
  api_args ← get_api_args; fail_json (FailedApi msg api_args).

(** Lines 182-208, under [e.response['Error']['Code'] == 'DBClusterNotFoundFault'].
    [cluster_id] and [subnet_group] are required options: they are never
    [None]. *)
Definition not_found (p : params) : M value :=
  api_args ← get_api_args;
  let api_args := <["DBClusterIdentifier" := VStr (cluster_id p)]> api_args in
  let api_args := given "Engine" (VStr <$> engine p) api_args in
  let api_args := <["DBSubnetGroupName" := VStr (subnet_group p)]> api_args in
  set_api_args api_args;;
  try_except
    (match snapshot_arn p with
     | Some arn =>
         let api_args := <["SnapshotIdentifier" := VStr arn]> api_args in
         set_api_args api_args;;
         result ← restore_db_cluster_from_snapshot client api_args;
         seconds ← get_timeout;
         (if seconds =? 0 then set_timeout 3600 else mret tt);;
         mret result
     | None =>
         let api_args := given "MasterUsername" (VStr <$> master_username p) api_args in
         let api_args :=
           given "MasterUserPassword" (VStr <$> master_password p) api_args in
         set_api_args api_args;;
         result ← create_db_cluster client api_args;
         seconds ← get_timeout;
         (if seconds =? 0 then set_timeout 600 else mret tt);;
         mret result
     end)
    (λ e, match e with ClientError _ msg => Some (fail_with_args msg) | _ => None end).

(** Lines 153-210: the [try] and its handler. *)
Definition reconcile (p : params) : M value :=
  set_api_args (api_args_of p);;
  try_except (found p)
    (λ e, match e with
          | ClientError code msg =>
              Some (if String.eqb code "DBClusterNotFoundFault"
                    then not_found p else fail_with_args msg)
          | _ => None
          end).

Definition create_cluster (p : params) : M unit :=
  result ← reconcile p;
  wait_and_exit client DBCluster (cluster_id p) (wait p) result.

(** The names rds_cluster.py binds at module level.  [terminate_cluster] is
    not among them: [main] finds it only if one of the two star imports at
    the end of the file binds it. *)
Definition module_names : list string :=
  ["DOCUMENTATION"; "EXAMPLES"; "boto3"; "botocore"; "HAS_BOTO3";
   "create_cluster"; "main"].

(** Lines 262-274 of [main], with the client already connected;
    [imported] is what the star imports bind. *)
Definition main (imported : string → option (params → M unit))
    (HAS_BOTO3 : bool) (state : desired_state) (p : params) : M unit :=
  if negb HAS_BOTO3 then fail_json (Failed "boto3 required for this module")
  else match state with
       | present => create_cluster p
       | absent =>
           match imported "terminate_cluster" with
           | Some terminate_cluster => terminate_cluster p
           | None => raise (NameError "terminate_cluster")
           end
       end.

End run.
End Cluster.

(** ** rds_cluster_instance.py *)

Module Instance.

Record params : Type := Params {
  apply_immediately : bool;
  auto_minor_version_upgrade : option bool;
  availability_zone : option string;
  cloudwatch_logs_exports : option string;
  cluster_id : option string;
  copy_tags_to_snapshot : option bool;
  engine : option string;
  instance_id : string;                    (* required *)
  instance_type : option string;
  monitoring_interval : option Z;
  monitoring_role_arn : option string;
  multi_az : option bool;
  option_group : option string;
  parameter_group : option string;
  performance_insights : option bool;
  preferred_maintenance_window : option string;
  promotion_tier : option Z;
  publicly_accessible : option bool;
  subnet_group : option string;
  tags : option (list (string * string));
  wait : bool;
  wait_timeout : Z
}.

(** The parameters [AnsibleModule] hands over when the task sets the
    required option only ([module_args] in [main]). *)
Definition defaults (instance_id : string) : params :=
  {| apply_immediately := false; auto_minor_version_upgrade := Some true;
     availability_zone := None; cloudwatch_logs_exports := None; cluster_id := None;
     copy_tags_to_snapshot := Some true; engine := Some "aurora";
     instance_id := instance_id; instance_type := None;
     monitoring_interval := Some 0; monitoring_role_arn := None;
     multi_az := Some false; option_group := None; parameter_group := None;
     performance_insights := Some false; preferred_maintenance_window := None;
     promotion_tier := None; publicly_accessible := Some false;
     subnet_group := None; tags := Some []; wait := false; wait_timeout := 1200 |}.

(** Lines 217-246. *)
Definition api_args_of (p : params) : gmap string value :=
  let api_args := ∅ in
  let api_args := given "DBInstanceClass" (VStr <$> instance_type p) api_args in
  let api_args := given "AvailabilityZone" (VStr <$> availability_zone p) api_args in
  let api_args :=
    given "PreferredMaintenanceWindow" (VStr <$> preferred_maintenance_window p)
      api_args in
  let api_args := given "DBParameterGroupName" (VStr <$> parameter_group p) api_args in
  let api_args := given "MultiAZ" (VBool <$> multi_az p) api_args in
  let api_args :=
    given "AutoMinorVersionUpgrade" (VBool <$> auto_minor_version_upgrade p)
      api_args in
  let api_args := given "OptionGroupName" (VStr <$> option_group p) api_args in
  let api_args :=
    given "PubliclyAccessible" (VBool <$> publicly_accessible p) api_args in
  let api_args :=
    given "CopyTagsToSnapshot" (VBool <$> copy_tags_to_snapshot p) api_args in
  let api_args := given "MonitoringInterval" (VInt <$> monitoring_interval p) api_args in
  let api_args := given "MonitoringRoleArn" (VStr <$> monitoring_role_arn p) api_args in
  let api_args := given "PromotionTier" (VInt <$> promotion_tier p) api_args in
  let api_args :=
    given "EnablePerformanceInsights" (VBool <$> performance_insights p) api_args in
  given "EnableCloudwatchLogsExports" (VStr <$> cloudwatch_logs_exports p) api_args.

(** [[g['DBParameterGroupName'] for g in instance['DBParameterGroups']]] *)
Definition parameter_groups (instance : list (string * value)) : res (list value) :=
  groups ← getitem instance "DBParameterGroups";
  gs ← py_iter groups;
  res_map (λ g, subscript g "DBParameterGroupName") gs.

(** The body of the loop of lines 261-269. *)
Definition modify_entry (instance : list (string * value))
    (modify_args : gmap string value) (opt : string) (val : value) :
    res (gmap string value) :=
  if String.eqb opt "DBParameterGroupName" then
    names ← parameter_groups instance;
    inr (if py_ne (VList names) (VList [val])
         then <[opt := val]> modify_args else modify_args)
  else if String.eqb opt "EnablePerformanceInsights" then
    current ← getitem instance "PerformanceInsightsEnabled";
    inr (if py_ne current val then <[opt := val]> modify_args else modify_args)
  else
    match dict_get opt instance with
    | None => inr (<[opt := val]> modify_args)           (* opt not in instance *)
    | Some current =>
        inr (if py_ne current val then <[opt := val]> modify_args else modify_args)
    end.

(** Lines 260-269: [modify_args] after the loop over [api_args.iteritems()]. *)
Definition modify_args_of (instance : list (string * value))
    (api_args : gmap string value) : res (gmap string value) :=
  res_fold (λ m kv, modify_entry instance m kv.1 kv.2) ∅ (map_to_list api_args).

Section run.
Context (client : Rds.client).

(** Lines 278-284.  The ARN is read again for each call; the first read
    decides whether any of them raises. *)
Definition set_instance_tags (instance : list (string * value))
    (tags : option value) : M unit :=
  arn ← lift (getitem instance "DBInstanceArn");
  tags_result ← list_tags_for_resource client arn;
  match tags_result with
  | Some TagList =>
      ts ← lift (py_iter TagList);
      keys ← lift (res_map (λ t, subscript t "Key") ts);
      remove_tags_from_resource client arn keys;;
      match tags with
      | Some tags =>
          api_args ← get_api_args;
          set_api_args (<["Tags" := tags]> api_args);;
          add_tags_to_resource client arn tags
      | None => mret tt
      end
  | None => mret tt
  end.

(** Lines 253-284, the body of the [try]. *)
Definition found (p : params) : M value :=
  check_instance ← describe_db_instances client (instance_id p);
  set_check check_instance;;
  match the_one check_instance with
  | None =>
      fail_json (Failed "Failed to retrieve details for existing database instance")
  | Some instance =>
      api_args ← get_api_args;
      modify_args ← lift (modify_args_of instance api_args);
      result ←
        (if nonempty modify_args
         then modify_db_instance client (instance_id p) (apply_immediately p) modify_args
         else mret (VDict [("DBInstance", VDict instance)]));
      set_instance_tags instance (tag_list <$> tags p);;
      mret result
  end.

Definition fail_with_args {A} (msg : string) : M A :=
  api_args ← get_api_args; fail_json (FailedApi msg api_args).

(** Lines 288-302, under [e.response['Error']['Code'] == 'DBInstanceNotFound']. *)
Definition not_found (p : params) : M value :=
  api_args ← get_api_args;
  let api_args := <["DBInstanceIdentifier" := VStr (instance_id p)]> api_args in
  let api_args := given "DBClusterIdentifier" (VStr <$> cluster_id p) api_args in
  let api_args := given "Engine" (VStr <$> engine p) api_args in
  let api_args := given "DBSubnetGroupName" (VStr <$> subnet_group p) api_args in
  let api_args := given "Tags" (tag_list <$> tags p) api_args in
  set_api_args api_args;;
  try_except (create_instance client api_args)
    (λ e, match e with ClientError _ msg => Some (fail_with_args msg) | _ => None end).

(** Lines 252-308: the [try] and its handlers. *)
Definition reconcile (p : params) : M value :=
  set_api_args (api_args_of p);;
  try_except (found p)
    (λ e, match e with
          | ClientError code msg =>
              Some (if String.eqb code "DBInstanceNotFound"
                    then not_found p else fail_with_args msg)
          | _ => None
          end).

Definition create_db_instance (p : params) : M unit :=
  result ← reconcile p;
  wait_and_exit client DBInstance (instance_id p) (wait p) result.

(** The names rds_cluster_instance.py binds at module level;
    [terminate_db_instance] is not among them. *)
Definition module_names : list string :=
  ["DOCUMENTATION"; "EXAMPLES"; "boto3"; "botocore"; "HAS_BOTO3"; "time";
   "create_db_instance"; "main"].

(** Lines 369-382 of [main], with the client already connected;
    [imported] is what the star imports bind. *)
Definition main (imported : string → option (params → M unit))
    (HAS_BOTO3 : bool) (state : desired_state) (p : params) : M unit :=
  if negb HAS_BOTO3 then fail_json (Failed "boto3 required for this module")
  else match state with
       | present => create_db_instance p
       | absent =>
           match imported "terminate_db_instance" with
           | Some terminate_db_instance => terminate_db_instance p
           | None => raise (NameError "terminate_db_instance")
           end
       end.

End run.
End Instance.

(** ** rds_cluster_snapshot_facts.py *)

(** Python's truth value of a value: [if v:]. *)
Definition truthy (v : value) : bool :=
  match v with
  | VNone => false
  | VBool b => b
  | VInt n => negb (n =? 0)
  | VStr s => negb (String.eqb s EmptyString)
  | VList l => match l with [] => false | _ => true end
  | VDict d => match d with [] => false | _ => true end
  end.

(** [l[start:stop]] with the bounds Python allows: a negative bound counts
    from the end, and every bound is clamped to the list. *)
Definition slice {A} (start stop : option Z) (l : list A) : list A :=
  let n := Z.of_nat (length l) in
  let clamp i := if i <? 0 then Z.max 0 (i + n) else Z.min i n in
  let a := match start with Some i => clamp i | None => 0 end in
  let b := match stop with Some i => clamp i | None => n end in
  take (Z.to_nat (b - a)) (drop (Z.to_nat a) l).

(** [list.sort] is stable: an item goes before the first item that is not
    smaller than it, the later items being in place already. *)
Fixpoint insert_by {K A} (lt : K → K → bool) (x : K * A) (l : list (K * A)) :
    list (K * A) :=
  match l with
  | [] => [x]
  | y :: l' => if lt y.1 x.1 then y :: insert_by lt x l' else x :: y :: l'
  end.

Definition sort_by {K A} (lt : K → K → bool) (l : list (K * A)) : list (K * A) :=
  foldr (insert_by lt) [] l.

Module Snapshots.

(** What the module uses of the interpreter's library: [re.compile], which
    raises [re.error] or gives what [regex.match] finds at the start of a
    string; [int] on a string, which raises [ValueError] or gives a number;
    and [<] on the values the results are sorted by. *)
Record library : Type := Library {
  re_compile : string → option (string → bool);
  int_of_str : string → option Z;
  lt : value → value → bool
}.

(** The exceptions of this module: those of the other two, and two more. *)
Inductive error : Type :=
  | Python (e : exn)
  | ValueError
  | RegexError.

Definition out (A : Type) : Type := error + A.

#[global] Instance out_bind : MBind out := λ A B f x,
  match x with inl e => inl e | inr a => f a end.

Definition of_res {A} (r : res A) : out A :=
  match r with inl e => inl (Python e) | inr a => inr a end.

(** The parameters as [AnsibleModule] hands them over: options without a
    type are strings or [None]; [sort_start] and [sort_end] are kept as
    values, [find_snapshot_facts] having a handler for those that are no
    numbers. *)
Record params : Type := Params {
  snapshot_id : option string;
  cluster_id : option string;
  max_records : option string;
  id_regex : option string;
  snapshot_type : option string;
  status : option string;
  sort : option string;
  sort_order : option string;
  sort_start : value;
  sort_end : value
}.

(** [if x:] for an option that is a string or [None]: the string, when it
    is not empty. *)
Definition if_set (x : option string) : option string :=
  match x with
  | Some s => if String.eqb s EmptyString then None else Some s
  | None => None
  end.

(** Lines 111-119. *)
Definition api_args_of (p : params) : gmap string value :=
  let api_args := ∅ in
  let api_args :=
    given "DBClusterSnapshotIdentifier" (VStr <$> if_set (snapshot_id p)) api_args in
  let api_args := given "DBClusterIdentifier" (VStr <$> if_set (cluster_id p)) api_args in
  let api_args := given "SnapshotType" (VStr <$> if_set (snapshot_type p)) api_args in
  given "MaxRecords" (VStr <$> if_set (max_records p)) api_args.

(** The keys of [data] and the keys of the snapshot they are read from,
    lines 134-153. *)
Definition fields : list (string * string) :=
  [("availability_zones", "AvailabilityZones");
   ("snapshot_id", "DBClusterSnapshotIdentifier");
   ("cluster_id", "DBClusterIdentifier");
   ("snapshot_create_time", "SnapshotCreateTime");
   ("engine", "Engine");
   ("allocated_storage", "AllocatedStorage");
   ("status", "Status");
   ("port", "Port");
   ("vpc_id", "VpcId");
   ("cluster_create_time", "ClusterCreateTime");
   ("master_username", "MasterUsername");
   ("engine_version", "EngineVersion");
   ("license_model", "LicenseModel");
   ("snapshot_type", "SnapshotType");
   ("percent_progress", "PercentProgress");
   ("storage_encrypted", "StorageEncrypted");
   ("db_cluster_snapshot_arn", "DBClusterSnapshotArn");
   ("iam_database_authentication_enabled", "IAMDatabaseAuthenticationEnabled")].

(** [if key in snapshot: data[name] = snapshot[key]], for a [name] that
    [data] does not hold yet. *)
Definition optional (name key : string) (snapshot data : list (string * value)) :
    list (string * value) :=
  match dict_get key snapshot with
  | Some v => data ++ [(name, v)]
  | None => data
  end.

(** One item of the dictionary display: [name: snapshot[key]]. *)
Definition read (snapshot : list (string * value)) (f : string * string) :
    res (string * value) :=
  v ← getitem snapshot f.2; inr (f.1, v).

(** Lines 134-157. *)
Definition data_of (snapshot : list (string * value)) : res (list (string * value)) :=
  data ← res_map (read snapshot) fields;
  let data := optional "kms_key_id" "KmsKeyId" snapshot data in
  inr (optional "source_db_cluster_snapshot_arn" "SourceDBClusterSnapshotArn"
         snapshot data).

(** [if wanted: if data[key] != wanted: continue]: whether the loop goes
    on with this snapshot. *)
Definition has (key : string) (wanted : option string) (data : list (string * value)) :
    res bool :=
  match if_set wanted with
  | Some s => v ← getitem data key; inr (negb (py_ne v (VStr s)))
  | None => inr true
  end.

(** Lines 159-161; [regex] is bound when [id_regex] is set. *)
Definition matches (regex : option (string → bool)) (data : list (string * value)) :
    res bool :=
  match regex with
  | Some found =>
      id ← getitem data "snapshot_id";
      match id with VStr s => inr (found s) | _ => inl TypeError end
  | None => inr true
  end.

(** Lines 159-171: whether [data] is appended to [results]. *)
Definition kept (regex : option (string → bool)) (p : params)
    (data : list (string * value)) : res bool :=
  m ← matches regex data;
  if m : bool then
    t ← has "snapshot_type" (snapshot_type p) data;
    if t : bool then has "status" (status p) data else inr false
  else inr false.

(** The loop of lines 132-171. *)
Fixpoint collect (regex : option (string → bool)) (p : params)
    (snapshots : list (list (string * value))) : res (list (list (string * value))) :=
  match snapshots with
  | [] => inr []
  | snapshot :: rest =>
      data ← data_of snapshot;
      keep ← kept regex p data;
      results ← collect regex p rest;
      inr (if keep : bool then data :: results else results)
  end.

Section run.
Context (lib : library).
Context (describe_db_cluster_snapshots :
           gmap string value → client_error + option (list (list (string * value)))).

(** Lines 126-171.  The gateway's answer holds the list under
    ['DBClusterSnapshots'], or not. *)
Definition search (p : params) (snapshots : option (list (list (string * value)))) :
    out (list (list (string * value))) :=
  match snapshots with
  | Some snapshots =>
      regex ← match if_set (id_regex p) with
              | Some pattern =>
                  match re_compile lib pattern with
                  | Some found => inr (Some found)
                  | None => inl RegexError
                  end
              | None => inr None
              end;
      of_res (collect regex p snapshots)
  | None => inr []
  end.

(** Lines 173-174: the keys are computed first, then compared. *)
Definition sort_results (p : params) (results : list (list (string * value))) :
    res (list (list (string * value))) :=
  match if_set (sort p) with
  | Some key =>
      keyed ← res_map (λ e, k ← getitem e key; inr (k, e)) results;
      inr ((if bool_decide (sort_order p = Some "descending")
            then reverse (sort_by (lt lib) (reverse keyed))
            else sort_by (lt lib) keyed).*2)
  | None => inr results
  end.

(** [int(v)] *)
Definition py_int (v : value) : out Z :=
  match v with
  | VInt n => inr n
  | VBool b => inr (Z.b2z b)
  | VStr s => match int_of_str lib s with Some n => inr n | None => inl ValueError end
  | _ => inl (Python TypeError)
  end.

(** The body of the [try] of lines 176-182. *)
Definition cut (p : params) (results : list (list (string * value))) :
    out (list (list (string * value))) :=
  match if_set (sort p) with
  | Some _ =>
      if truthy (sort_start p) then
        if truthy (sort_end p) then
          a ← py_int (sort_start p); b ← py_int (sort_end p);
          inr (slice (Some a) (Some b) results)
        else a ← py_int (sort_start p); inr (slice (Some a) None results)
      else if truthy (sort_end p) then
        b ← py_int (sort_end p); inr (slice None (Some b) results)
      else inr results
  | None => inr results
  end.

(** Lines 109-186: how the interpreter leaves the function. *)
Definition find_snapshot_facts (p : params) : error :=
  let api_args := api_args_of p in
  match describe_db_cluster_snapshots api_args with
  | inl e => Python (SystemExit (FailedApi (message e) api_args))
  | inr snapshots =>
      match (results ← search p snapshots;
             results ← of_res (sort_results p results);
             match cut p results with
             | inl (Python TypeError) =>
                 inl (Python (SystemExit (Failed
                   "Please supply numeric values for sort_start and/or sort_end")))
             | r => r
             end) with
      | inl e => e
      | inr results => Python (SystemExit (Result (VList (VDict <$> results))))
      end
  end.

End run.
End Snapshots.

(** ** Vocabulary of the statements *)

(** *** Traces *)

Definition describe_call (k : kind) (name : string) : call :=
  match k with
  | DBCluster => DescribeDBClusters name
  | DBInstance => DescribeDBInstances name
  end.

(** What the gateway answers to a describe call after the trace [h]. *)
Definition ask (client : Rds.client) (k : kind) (h : list event) (name : string) :
    client_error + option (list (list (string * value))) :=
  match k with
  | DBCluster => Rds.describe_db_clusters client h name
  | DBInstance => Rds.describe_db_instances client h name
  end.

Definition is_describe (c : call) : bool :=
  match c with DescribeDBClusters _ | DescribeDBInstances _ => true | _ => false end.

Definition is_creation (c : call) : bool :=
  match c with
  | RestoreDBClusterFromSnapshot _ | CreateDBCluster _ | CreateDBInstance _ => true
  | _ => false
  end.

Definition is_restore (c : call) : bool :=
  match c with RestoreDBClusterFromSnapshot _ => true | _ => false end.

Definition is_modify (c : call) : bool :=
  match c with ModifyDBCluster _ _ | ModifyDBInstance _ _ _ => true | _ => false end.

Definition is_tag_call (c : call) : bool :=
  match c with
  | ListTagsForResource _ | RemoveTagsFromResource _ _ | AddTagsToResource _ _ => true
  | _ => false
  end.

(** Whether a call of the trace satisfies [f]. *)
Definition calls (f : call → bool) (ev : event) : bool :=
  match ev with Called c _ => f c | Slept _ => false end.

(** The events of the waiting loop: describe calls and sleeps. *)
Definition idle (ev : event) : bool :=
  match ev with Slept _ => true | Called c _ => is_describe c end.

(** A describe call, five seconds of sleep, a describe call, ... *)
Fixpoint paced (t : list event) : bool :=
  match t with
  | [] => true
  | Called c _ :: Slept n :: t' => is_describe c && (n =? 5) && paced t'
  | _ => false
  end.

(** The describe answer leaves the loop running: an error, or a response
    without exactly one resource, or a resource whose status is a string
    other than "available" in any case. *)
Definition still_waiting (k : kind)
    (a : client_error + option (list (list (string * value)))) : bool :=
  match a with
  | inl _ => true
  | inr r =>
      match the_one r with
      | None => true
      | Some c =>
          match dict_get (status_key k) c with
          | Some (VStr s) => negb (String.eqb (lower s) "available")
          | _ => false
          end
      end
  end.

(** The value of [check_cluster] / [check_instance] after the events [t],
    when it was [c] before them: the last describe response of [t]. *)
Fixpoint latest (t : list event) (c : option (option (list (list (string * value))))) :
    option (option (list (list (string * value)))) :=
  match t with
  | [] => c
  | Called _ (inr (Resources r)) :: t' => latest t' (Some r)
  | _ :: t' => latest t' c
  end.

(** The exceptions nothing handles: the interpreter stops with a traceback. *)
Definition is_crash (e : exn) : bool :=
  match e with
  | KeyError _ | TypeError | AttributeError | UnboundLocalError _ | NameError _ => true
  | ClientError _ _ | SystemExit _ | Diverged => false
  end.

(** A computation outside the gateway raises nothing but such exceptions. *)
Definition crashes {A} (r : res A) : Prop := ∀ e, r = inl e → is_crash e = true.

(** Fuel that lets the loop reach the deadline from time [t]. *)
Definition enough (fuel : nat) (deadline t : Z) : Prop :=
  (deadline ≤ t ∧ (1 ≤ fuel)%nat) ∨ (Z.to_nat ((deadline - t) / 5000) + 2 ≤ fuel)%nat.






(** The gateway did not raise. *)
Definition answered_ok (ev : event) : bool :=
  match ev with Called _ (inl _) => false | _ => true end.

(** The tag calls of an instance: the listing, then, when it holds a
    [TagList], the removal of [keys] and the addition of the desired tags. *)
Definition tag_calls (arn : value) (listing : option value) (keys : list value)
    (tags : option value) : list event :=
  Called (ListTagsForResource arn) (inr (Tags listing)) ::
  match listing with
  | None => []
  | Some _ =>
      Called (RemoveTagsFromResource arn keys) (inr Done) ::
      match tags with
      | Some tags => [Called (AddTagsToResource arn tags) (inr Done)]
      | None => []
      end
  end.

(** *** The diff, as the specification words it

    An attribute belongs to the mutation set when its desired value
    differs from the fetched one: the security groups of a cluster as
    sorted lists, the parameter group of an instance against the list of
    the names of its groups, any other attribute by [!=]; an attribute the
    fetched instance does not have differs. *)

Inductive cluster_changes (cluster : list (string * value)) : string → value → Prop :=
  | groups_change val attached wanted :
      Cluster.attached_groups cluster = inr attached →
      py_iter val = inr wanted →
      sorted_ne attached wanted = true →
      cluster_changes cluster "VpcSecurityGroupIds" val
  | attribute_changes opt val current :
      opt ≠ "VpcSecurityGroupIds" →
      dict_get opt cluster = Some current →
      py_ne current val = true →
      cluster_changes cluster opt val.

Inductive instance_changes (instance : list (string * value)) : string → value → Prop :=
  | parameter_group_changes val names :
      Instance.parameter_groups instance = inr names →
      py_ne (VList names) (VList [val]) = true →
      instance_changes instance "DBParameterGroupName" val
  | insights_change val current :
      dict_get "PerformanceInsightsEnabled" instance = Some current →
      py_ne current val = true →
      instance_changes instance "EnablePerformanceInsights" val
  | attribute_missing opt val :
      opt ≠ "DBParameterGroupName" → opt ≠ "EnablePerformanceInsights" →
      dict_get opt instance = None →
      instance_changes instance opt val
  | instance_attribute_changes opt val current :
      opt ≠ "DBParameterGroupName" → opt ≠ "EnablePerformanceInsights" →
      dict_get opt instance = Some current →
      py_ne current val = true →
      instance_changes instance opt val.

(** ** Gateways and resources of the examples *)

(** A gateway that answers describe calls by [clusters] and [instances],
    any modify, create or restore call by [change] and a tag listing by
    [listing]. *)
Definition scripted
    (clusters instances :
       list event → client_error + option (list (list (string * value))))
    (change : client_error + value) (listing : option value) : Rds.client :=
  Rds.Client (λ h _, clusters h) (λ _ _ _, change) (λ _ _, change) (λ _ _, change)
    (λ h _, instances h) (λ _ _ _ _, change) (λ _ _, change)
    (λ _ _, inr listing) (λ _ _ _, inr ()) (λ _ _ _, inr ()) (λ _ _, 20%N).

(** Nothing exists yet. *)
Definition empty_account (change : client_error + value) : Rds.client :=
  scripted (λ _, inl (Error "DBClusterNotFoundFault" "DBCluster c1 not found"))
           (λ _, inl (Error "DBInstanceNotFound" "DBInstance i1 not found"))
           change None.


(** The resource [c] exists. *)
Definition holding (c : list (string * value)) (listing : option value) : Rds.client :=
  scripted (λ _, inr (Some [c])) (λ _, inr (Some [c])) (inr (VStr "modified")) listing.

(** The resource [c] is described once; every later call is throttled. *)
Definition throttled (c : list (string * value)) : Rds.client :=
  let once h :=
    match h with
    | [] => inr (Some [c])
    | _ => inl (Error "Throttling" "Rate exceeded")
    end in
  scripted once once (inr (VStr "modified")) (Some (VList [])).

Definition group (name : string) : value :=
  VDict [("VpcSecurityGroupId", VStr name); ("Status", VStr "active")].

Definition example_cluster : list (string * value) :=
  [("DBClusterIdentifier", VStr "c1"); ("Status", VStr "creating");
   ("EngineVersion", VStr "5.6.10a"); ("Tags", VList []);
   ("VpcSecurityGroups", VList [group "sg-1"; group "sg-2"])].

Definition example_instance : list (string * value) :=
  [("DBInstanceIdentifier", VStr "i1"); ("DBInstanceStatus", VStr "creating");
   ("DBInstanceArn", VStr "arn:aws:rds:us-east-1:1234567890:db:i1");
   ("DBInstanceClass", VStr "db.t2.small"); ("MultiAZ", VBool false);
   ("AutoMinorVersionUpgrade", VBool true); ("PubliclyAccessible", VBool false);
   ("CopyTagsToSnapshot", VBool true); ("PerformanceInsightsEnabled", VBool false);
   ("DBParameterGroups",
    VList [VDict [("DBParameterGroupName", VStr "default.aurora5.6")]])].

Definition name_tag : value := VList [VDict [("Key", VStr "Name"); ("Value", VStr "old")]].

(** A cluster task that sets the security groups only. *)
Definition with_groups (groups : list string) (wait : bool) (wait_timeout : Z) :
    Cluster.params :=
  Cluster.Params None "c1" None (Some "aurora") None None None None None None "sg1"
    None (Some groups) wait wait_timeout.

(** A cluster task that sets tags only. *)
Definition with_tags (tags : list (string * string)) : Cluster.params :=
  Cluster.Params None "c1" None (Some "aurora") None None None None None None "sg1"
    (Some tags) None false 0.

(** A cluster task that restores a snapshot. *)
Definition from_snapshot (arn : string) : Cluster.params :=
  Cluster.Params None "c1" None (Some "aurora") None None None None None (Some arn) "sg1"
    None None false 0.

(** The instance task of the module's EXAMPLES, with a monitoring interval
    and a timeout. *)
Definition example_task (monitoring_interval : option Z) (wait : bool)
    (wait_timeout : Z) : Instance.params :=
  Instance.Params false (Some true) None None (Some "my-aurora-cluster") (Some true)
    (Some "aurora") "i1" (Some "db.t2.small") monitoring_interval None (Some false)
    None None (Some false) None None (Some false) (Some "my-db-subnet-group")
    (Some [("Name", "my-new-instance")]) wait wait_timeout.

(** ** Resources that need no change *)

(** The desired value [val] of [opt] is the one the fetched cluster has. *)
Definition cluster_agrees (cluster : list (string * value)) (opt : string)
    (val : value) : bool :=
  if String.eqb opt "VpcSecurityGroupIds" then
    match Cluster.attached_groups cluster, py_iter val with
    | inr attached, inr wanted => negb (sorted_ne attached wanted)
    | _, _ => false
    end
  else
    match dict_get opt cluster with
    | Some current => py_eq current val
    | None => false
    end.

Definition cluster_converged (cluster : list (string * value))
    (api_args : gmap string value) : bool :=
  forallb (λ kv, cluster_agrees cluster kv.1 kv.2) (map_to_list api_args).

(** The desired value [val] of [opt] is the one the fetched instance has. *)
Definition instance_agrees (instance : list (string * value)) (opt : string)
    (val : value) : bool :=
  if String.eqb opt "DBParameterGroupName" then
    match Instance.parameter_groups instance with
    | inr names => py_eq (VList names) (VList [val])
    | inl _ => false
    end
  else
    match dict_get (if String.eqb opt "EnablePerformanceInsights"
                    then "PerformanceInsightsEnabled" else opt) instance with
    | Some current => py_eq current val
    | None => false
    end.

Definition instance_converged (instance : list (string * value))
    (api_args : gmap string value) : bool :=
  forallb (λ kv, instance_agrees instance kv.1 kv.2) (map_to_list api_args).

(** The number of describe calls of a trace. *)
Definition polls (t : list event) : nat := length (List.filter (calls is_describe) t).

(** A gateway that takes no time: [describe] answers every describe call,
    and every change succeeds. *)
Definition instant (describe : client_error + option (list (list (string * value)))) :
    Rds.client :=
  Rds.Client (λ _ _, describe) (λ _ _ _, inr (VStr "modified"))
    (λ _ _, inr (VStr "restored")) (λ _ _, inr (VStr "created")) (λ _ _, describe)
    (λ _ _ _ _, inr (VStr "modified")) (λ _ _, inr (VStr "created")) (λ _ _, inr None)
    (λ _ _ _, inr ()) (λ _ _ _, inr ()) (λ _ _, 0%N).

(** ** Vocabulary of the snapshot search *)

(** The snapshot has every key [find_snapshot_facts] reads unguarded. *)
Definition well_formed (snapshot : list (string * value)) : bool :=
  forallb (λ f, bool_decide (is_Some (dict_get f.2 snapshot))) Snapshots.fields.

(** [data] passes the filters that are set: its identifier matches, and
    its type and status are the ones asked for. *)
Definition selected (regex : option (string → bool)) (p : Snapshots.params)
    (data : list (string * value)) : bool :=
  match regex with
  | Some found =>
      match dict_get "snapshot_id" data with Some (VStr s) => found s | _ => false end
  | None => true
  end &&
  match Snapshots.if_set (Snapshots.snapshot_type p) with
  | Some t =>
      match dict_get "snapshot_type" data with
      | Some v => py_eq v (VStr t)
      | None => false
      end
  | None => true
  end &&
  match Snapshots.if_set (Snapshots.status p) with
  | Some s =>
      match dict_get "status" data with Some v => py_eq v (VStr s) | None => false end
  | None => true
  end.

(** The value of [key] in [a] is smaller than the one in [b]. *)
Definition key_lt (lt : value → value → bool) (key : string)
    (a b : list (string * value)) : bool :=
  match dict_get key a, dict_get key b with
  | Some x, Some y => lt x y
  | _, _ => false
  end.

(** [exit_json(results=results)] *)
Definition found_results (results : list (list (string * value))) : Snapshots.error :=
  Snapshots.Python (SystemExit (Result (VList (VDict <$> results)))).

(** The results come in the order asked for: no result has a smaller key
    than an earlier one, or a greater one when the order is descending. *)
Definition in_order (lt : value → value → bool) (key : string) (descending : bool)
    (a b : list (string * value)) : Prop :=
  if descending then key_lt lt key a b = false else key_lt lt key b a = false.

(** The same search with other bounds. *)
Definition with_bounds (p : Snapshots.params) (sort_start sort_end : value) :
    Snapshots.params :=
  Snapshots.Params (Snapshots.snapshot_id p) (Snapshots.cluster_id p)
    (Snapshots.max_records p) (Snapshots.id_regex p) (Snapshots.snapshot_type p)
    (Snapshots.status p) (Snapshots.sort p) (Snapshots.sort_order p) sort_start sort_end.

(** What [AnsibleModule] hands over for an option without a type. *)
Definition is_text (v : value) : bool :=
  match v with VNone | VStr _ => true | _ => false end.

(** A library for the examples: patterns are prefixes, numbers are the
    decimal digits 0 to 2, and values are ordered as numbers. *)
Definition example_library : Snapshots.library :=
  Snapshots.Library
    (λ pattern, if String.eqb pattern "(" then None else Some (String.prefix pattern))
    (λ s, if String.eqb s "0" then Some 0 else if String.eqb s "1" then Some 1
          else if String.eqb s "2" then Some 2 else None)
    (λ a b, match a, b with
            | VInt x, VInt y => x <? y
            | VInt x, _ => x <? 0
            | _, VInt y => 0 <? y
            | _, _ => false
            end).

(** A snapshot as the gateway describes it. *)
Definition example_snapshot (id : string) (created : Z) (type status : string) :
    list (string * value) :=
  [("AvailabilityZones", strs ["us-east-1a"; "us-east-1b"]);
   ("DBClusterSnapshotIdentifier", VStr id);
   ("DBClusterIdentifier", VStr "my-rds-cluster");
   ("SnapshotCreateTime", VInt created);
   ("Engine", VStr "aurora");
   ("AllocatedStorage", VInt 1);
   ("Status", VStr status);
   ("Port", VInt 0);
   ("VpcId", VStr "vpc-1");
   ("ClusterCreateTime", VInt 1);
   ("MasterUsername", VStr "admin");
   ("EngineVersion", VStr "5.6.10a");
   ("LicenseModel", VStr "aurora");
   ("SnapshotType", VStr type);
   ("PercentProgress", VInt 100);
   ("StorageEncrypted", VBool false);
   ("DBClusterSnapshotArn", VStr ("arn:aws:rds:us-east-1:1234567890:cluster-snapshot:" +:+ id));
   ("IAMDatabaseAuthenticationEnabled", VBool false)].

(** The task of the module's EXAMPLES that finds the latest available
    automated snapshot, with the sort key as a parameter. *)
Definition latest_task (sort : option string) (sort_end : value) : Snapshots.params :=
  Snapshots.Params None (Some "my-rds-cluster") None None (Some "automated")
    (Some "available") sort (Some "descending") VNone sort_end.

Definition three_snapshots : list (list (string * value)) :=
  [example_snapshot "rds:my-rds-cluster-1" 10 "automated" "available";
   example_snapshot "before-upgrade" 20 "manual" "available";
   example_snapshot "rds:my-rds-cluster-2" 30 "automated" "available";
   example_snapshot "rds:my-rds-cluster-3" 40 "automated" "creating"].

(** [fail_json] of the handler of line 183. *)
Definition bounds_rejected : Snapshots.error :=
  Snapshots.Python
    (SystemExit (Failed "Please supply numeric values for sort_start and/or sort_end")).

(** ** The timeline of a wait *)

(** The time an event takes after the history [h]. *)
Definition duration (client : Rds.client) (h : list event) (ev : event) : Z :=
  match ev with
  | Called c _ => Z.of_N (Rds.latency client h c)
  | Slept seconds => 1000 * seconds
  end.

(** The time the events [t] take after the history [h]. *)
Fixpoint elapsed (client : Rds.client) (h : list event) (t : list event) : Z :=
  match t with
  | [] => 0
  | ev :: t' => duration client h ev + elapsed client (h ++ [ev]) t'
  end.

(** The events [t], which follow the history [h] from the time [t0] on, are
    what the loop does for the resource [name]: every call is the describe
    call of the resource, is made before the deadline and is recorded with
    the answer of the gateway, and every sleep takes five seconds. *)
Fixpoint polled (client : Rds.client) (k : kind) (name : string) (deadline : Z)
    (h : list event) (t0 : Z) (t : list event) : Prop :=
  match t with
  | [] => True
  | ev :: t' =>
      match ev with
      | Called _ _ =>
          t0 < deadline ∧
          ev = Called (describe_call k name)
                 (answered Resources (ask client k h name))
      | Slept seconds => seconds = 5
      end ∧
      polled client k name deadline (h ++ [ev]) (t0 + duration client h ev) t'
  end.

(** No answer recorded in [t] lets the loop stop. *)
Definition kept_waiting (k : kind) (t : list event) : bool :=
  forallb (λ ev, match ev with
                 | Called _ (inr (Resources found)) => still_waiting k (inr found)
                 | _ => true
                 end) t.

(** ** More gateways and tasks of the examples *)


(** A cluster task that sets every option, and restores [snapshot_arn] when
    there is one. *)
Definition full_cluster_task (snapshot_arn : option string) : Cluster.params :=
  Cluster.Params (Some ["us-east-1a"; "us-east-1b"]) "c1" (Some "app") (Some "aurora")
    (Some "5.6.10a") (Some "admin") (Some "secret") (Some "default:aurora-5-6")
    (Some 3306) snapshot_arn "sg1" (Some [("Name", "db"); ("env", "test")])
    (Some ["sg-1"; "sg-2"]) false 0.

(** An instance task that sets every option. *)
Definition full_instance_task : Instance.params :=
  Instance.Params true (Some false) (Some "us-east-1a") (Some "audit")
    (Some "my-aurora-cluster") (Some false) (Some "aurora") "i1" (Some "db.r4.large")
    (Some 60) (Some "arn:aws:iam::1234567890:role/monitor") (Some true)
    (Some "default:aurora-5-6") (Some "default.aurora5.6") (Some true)
    (Some "sun:05:00-sun:06:00") (Some 1) (Some true) (Some "my-db-subnet-group")
    (Some [("Name", "my-new-instance")]) false 1200.

(** ** The diff loop *)

Lemma res_bind_inr {A B} (x : res A) (f : A → res B) b :
  x ≫= f = inr b → ∃ a, x = inr a ∧ f a = inr b.
Proof. destruct x as [e|a]; [done|]. intros H. by exists a. Qed.

Section fold.
Context (step : gmap string value → string → value → res (gmap string value)).
Context (keep : string → value → Prop).
Hypothesis step_inv : ∀ m opt val m', step m opt val = inr m' →
  (m' = <[opt := val]> m ∧ keep opt val) ∨ (m' = m ∧ ¬ keep opt val).

(** The loop keeps what was there and adds the entries to keep, as long as
    no key comes twice. *)
Lemma res_fold_entries (l : list (string * value)) (m0 m : gmap string value) :
  NoDup l.*1 →
  (∀ k, k ∈ l.*1 → m0 !! k = None) →
  res_fold (λ m kv, step m kv.1 kv.2) m0 l = inr m →
  ∀ opt val, m !! opt = Some val ↔
    m0 !! opt = Some val ∨ ((opt, val) ∈ l ∧ keep opt val).
Proof.
  revert m0. induction l as [|[k v] l IH]; intros m0 Hnd Hfresh Hfold opt val.
  - simpl in Hfold. injection Hfold as <-. rewrite elem_of_nil. tauto.
  - simpl in Hfold. apply res_bind_inr in Hfold as (m1 & Hstep & Hfold).
    apply NoDup_cons in Hnd as [Hk Hnd]. simpl in Hk.
    assert (Hm0 : m0 !! k = None) by (apply Hfresh; simpl; left).
    assert (Hl : ∀ v', (k, v') ∉ l).
    { intros v' Hin. apply Hk. apply list_elem_of_fmap. by exists (k, v'). }
    apply step_inv in Hstep as [[-> Hkeep]|[-> Hdrop]].
    + rewrite (IH (<[k:=v]> m0) Hnd); [|intros k' Hk'|done].
      * rewrite lookup_insert. case_decide as Hopt.
        -- subst opt. rewrite Hm0, elem_of_cons. split.
           ++ intros [[= <-]|[Hin _]]; [|by apply Hl in Hin]. right. auto.
           ++ intros [|[[[= <-]|Hin] _]]; [done|by left|by apply Hl in Hin].
        -- rewrite elem_of_cons. split.
           ++ intros [?|[? ?]]; [by left|right; auto].
           ++ intros [|[[[= -> ->]|] ?]]; [by left|done|right; done].
      * rewrite lookup_insert_ne; [apply Hfresh; simpl; by right|].
        intros ->. done.
    + rewrite (IH m0 Hnd); [|intros k' Hk'; apply Hfresh; simpl; by right|done].
      rewrite elem_of_cons. split.
      * intros [?|[? ?]]; [by left|right; auto].
      * intros [|[[[= -> ->]|] ?]]; [by left|done|right; done].
Qed.

Lemma modify_args_entries (api_args m : gmap string value) :
  res_fold (λ m kv, step m kv.1 kv.2) ∅ (map_to_list api_args) = inr m →
  ∀ opt val, m !! opt = Some val ↔ api_args !! opt = Some val ∧ keep opt val.
Proof.
  intros Hfold opt val.
  rewrite (res_fold_entries _ _ _ (NoDup_fst_map_to_list _) (λ _ _, lookup_empty _) Hfold).
  rewrite lookup_empty, elem_of_map_to_list. split; [intros [|]|]; auto; done.
Qed.
End fold.

Lemma cluster_modify_entry_inv cluster m opt val m' :
  Cluster.modify_entry cluster m opt val = inr m' →
  (m' = <[opt := val]> m ∧ cluster_changes cluster opt val) ∨
  (m' = m ∧ ¬ cluster_changes cluster opt val).
Proof.
  unfold Cluster.modify_entry.
  destruct (String.eqb_spec opt "VpcSecurityGroupIds") as [->|Hopt].
  - intros (attached & Ha & H)%res_bind_inr.
    apply res_bind_inr in H as (wanted & Hw & H).
    destruct (sorted_ne attached wanted) eqn:Hne; injection H as <-.
    + left. split; [done|]. by eapply groups_change.
    + right. split; [done|]. inversion 1; simplify_eq. congruence.
  - intros (current & Hc & H)%res_bind_inr.
    unfold getitem in Hc. destruct (dict_get opt cluster) as [c|] eqn:Hget; [|done].
    injection Hc as ->.
    destruct (py_ne current val) eqn:Hne; injection H as <-.
    + left. split; [done|]. by eapply attribute_changes.
    + right. split; [done|]. inversion 1; simplify_eq. congruence.
Qed.

Lemma instance_modify_entry_inv instance m opt val m' :
  Instance.modify_entry instance m opt val = inr m' →
  (m' = <[opt := val]> m ∧ instance_changes instance opt val) ∨
  (m' = m ∧ ¬ instance_changes instance opt val).
Proof.
  unfold Instance.modify_entry.
  destruct (String.eqb_spec opt "DBParameterGroupName") as [->|Hpg].
  { intros (names & Hn & H)%res_bind_inr.
    destruct (py_ne _ _) eqn:Hne; injection H as <-.
    - left. split; [done|]. by eapply parameter_group_changes.
    - right. split; [done|]. inversion 1; simplify_eq. congruence. }
  destruct (String.eqb_spec opt "EnablePerformanceInsights") as [->|Hpi].
  { intros (current & Hc & H)%res_bind_inr.
    unfold getitem in Hc.
    destruct (dict_get "PerformanceInsightsEnabled" instance) as [c|] eqn:Hget; [|done].
    injection Hc as ->.
    destruct (py_ne current val) eqn:Hne; injection H as <-.
    - left. split; [done|]. by eapply insights_change.
    - right. split; [done|]. inversion 1; simplify_eq. congruence. }
  destruct (dict_get opt instance) as [current|] eqn:Hget.
  - destruct (py_ne current val) eqn:Hne; intros [= <-].
    + left. split; [done|]. by eapply instance_attribute_changes.
    + right. split; [done|]. inversion 1; simplify_eq. congruence.
  - intros [= <-]. left. split; [done|]. by apply attribute_missing.
Qed.

Lemma cluster_modify_args cluster api_args m :
  Cluster.modify_args_of cluster api_args = inr m →
  ∀ opt val, m !! opt = Some val ↔
    api_args !! opt = Some val ∧ cluster_changes cluster opt val.
Proof. apply (modify_args_entries _ _ (cluster_modify_entry_inv cluster)). Qed.

Lemma instance_modify_args instance api_args m :
  Instance.modify_args_of instance api_args = inr m →
  ∀ opt val, m !! opt = Some val ↔
    api_args !! opt = Some val ∧ instance_changes instance opt val.
Proof. apply (modify_args_entries _ _ (instance_modify_entry_inv instance)). Qed.

(** *** Sorted lists of identifiers *)

Lemma sorted_eq_perm (a b : list string) : sorted a = sorted b ↔ a ≡ₚ b.
Proof.
  unfold sorted. split.
  - intros H. rewrite <-(merge_sort_Permutation String.le a), H.
    apply merge_sort_Permutation.
  - intros H. apply (Sorted_unique String.le); try apply Sorted_merge_sort; try apply _.
    by rewrite !merge_sort_Permutation.
Qed.

Lemma strings_of_strs (l : list string) : strings_of (VStr <$> l) = Some l.
Proof. induction l as [|x l IH]; [done|]. rewrite fmap_cons. simpl. by rewrite IH. Qed.

Lemma sorted_ne_strings (a b : list string) :
  sorted_ne (VStr <$> a) (VStr <$> b) = true ↔ ¬ a ≡ₚ b.
Proof.
  unfold sorted_ne. rewrite !strings_of_strs, negb_true_iff, bool_decide_eq_false.
  by rewrite sorted_eq_perm.
Qed.

(** Without duplicates, lists that differ as sorted lists differ as sets. *)
Lemma perm_sets (a b : list string) :
  NoDup a → NoDup b →
  (a ≡ₚ b ↔ (list_to_set a : gset string) = list_to_set b).
Proof.
  intros Ha Hb. split.
  - intros H. apply set_eq. intros x. rewrite !elem_of_list_to_set. by rewrite H.
  - intros H. apply NoDup_Permutation; [done..|].
    intros x. rewrite <-!(elem_of_list_to_set (C := gset string)). by rewrite H.
Qed.

(** ** What the computations outside the gateway can raise *)

Lemma crashes_bind {A B} (x : res A) (f : A → res B) :
  crashes x → (∀ a, crashes (f a)) → crashes (x ≫= f).
Proof.
  intros Hx Hf. destruct x as [e|a]; [|apply Hf].
  intros e' [= <-]. by apply (Hx e).
Qed.

Lemma getitem_crashes d k : crashes (getitem d k).
Proof. unfold getitem. destruct (dict_get k d); by intros e [= <-]. Qed.

Lemma subscript_crashes v k : crashes (subscript v k).
Proof. destruct v; try (by intros e [= <-]). apply getitem_crashes. Qed.

Lemma py_iter_crashes v : crashes (py_iter v).
Proof. destruct v; by intros e [= <-]. Qed.

Lemma res_map_crashes {A B} (f : A → res B) l :
  (∀ x, crashes (f x)) → crashes (res_map f l).
Proof.
  intros Hf. induction l as [|x l IH]; [done|]. simpl.
  apply crashes_bind; [done|]. intros y. by apply crashes_bind.
Qed.

Lemma res_fold_crashes {A B} (f : B → A → res B) l :
  (∀ b x, crashes (f b x)) → ∀ b, crashes (res_fold f b l).
Proof.
  intros Hf. induction l as [|x l IH]; intros b; [done|]. simpl.
  by apply crashes_bind.
Qed.

Lemma attached_groups_crashes cluster : crashes (Cluster.attached_groups cluster).
Proof.
  unfold Cluster.attached_groups.
  apply crashes_bind; [apply getitem_crashes|]. intros groups.
  apply crashes_bind; [apply py_iter_crashes|]. intros gs.
  apply res_map_crashes. intros g. apply subscript_crashes.
Qed.

Lemma parameter_groups_crashes instance : crashes (Instance.parameter_groups instance).
Proof.
  unfold Instance.parameter_groups.
  apply crashes_bind; [apply getitem_crashes|]. intros groups.
  apply crashes_bind; [apply py_iter_crashes|]. intros gs.
  apply res_map_crashes. intros g. apply subscript_crashes.
Qed.

Lemma cluster_modify_args_crashes cluster api_args :
  crashes (Cluster.modify_args_of cluster api_args).
Proof.
  apply res_fold_crashes. intros m [opt val]. unfold Cluster.modify_entry. simpl.
  destruct (String.eqb opt "VpcSecurityGroupIds").
  - apply crashes_bind; [apply attached_groups_crashes|]. intros attached.
    apply crashes_bind; [apply py_iter_crashes|]. done.
  - apply crashes_bind; [apply getitem_crashes|]. done.
Qed.

Lemma instance_modify_args_crashes instance api_args :
  crashes (Instance.modify_args_of instance api_args).
Proof.
  apply res_fold_crashes. intros m [opt val]. unfold Instance.modify_entry. simpl.
  destruct (String.eqb opt "DBParameterGroupName").
  { apply crashes_bind; [apply parameter_groups_crashes|]. done. }
  destruct (String.eqb opt "EnablePerformanceInsights").
  { apply crashes_bind; [apply getitem_crashes|]. done. }
  by destruct (dict_get opt instance).
Qed.

Lemma tag_keys_crashes ts : crashes (res_map (λ t, subscript t "Key") ts).
Proof. apply res_map_crashes. intros t. apply subscript_crashes. Qed.

(** ** Running the interpreter *)

(** Unfolds the operations of the monad on a given state. *)
Ltac exec :=
  repeat (progress
    (unfold mbind, M_bind, mret, M_ret, try_except, lift, raise, fail_json,
       exit_json, get_api_args, set_api_args, set_check, get_check, get_timeout,
       set_timeout, time_time, time_sleep, invoke, describe_db_clusters,
       modify_db_cluster, restore_db_cluster_from_snapshot, create_db_cluster,
       describe_db_instances, modify_db_instance, create_instance,
       list_tags_for_resource, remove_tags_from_resource, add_tags_to_resource,
       Cluster.fail_with_args, Instance.fail_with_args;
     cbn [fst snd now trace api_args check timeout answered app])).

(** A computation outside the gateway that raised: it crashed. *)
Ltac crashed H :=
  lazymatch type of H with
  | ?x = inl ?e =>
      let Hc := fresh "Hcrash" in
      assert (is_crash e = true) as Hc
        by (revert H;
            first [ apply cluster_modify_args_crashes
                  | apply instance_modify_args_crashes
                  | apply getitem_crashes
                  | apply py_iter_crashes
                  | apply tag_keys_crashes ]);
      destruct e; try discriminate Hc; clear Hc
  end.

(** The next answer of the gateway, or the next test of the program, the
    run depends on. *)
Ltac branch :=
  match goal with
  | |- context [match ?x with _ => _ end] =>
      lazymatch x with
      | Rds.describe_db_clusters _ _ _ => destruct x eqn:?
      | Rds.modify_db_cluster _ _ _ _ => destruct x eqn:?
      | Rds.restore_db_cluster_from_snapshot _ _ _ => destruct x eqn:?
      | Rds.create_db_cluster _ _ _ => destruct x eqn:?
      | Rds.describe_db_instances _ _ _ => destruct x eqn:?
      | Rds.modify_db_instance _ _ _ _ _ => destruct x eqn:?
      | Rds.create_db_instance _ _ _ => destruct x eqn:?
      | Rds.list_tags_for_resource _ _ _ => destruct x eqn:?
      | Rds.remove_tags_from_resource _ _ _ _ => destruct x eqn:?
      | Rds.add_tags_to_resource _ _ _ _ => destruct x eqn:?
      | the_one _ => destruct x eqn:?
      | nonempty _ => destruct x eqn:?
      | String.eqb _ _ => destruct x eqn:?
      | Z.eqb _ _ => destruct x eqn:?
      | Cluster.snapshot_arn _ => destruct x eqn:?
      | tag_list <$> _ => destruct x eqn:?
      | Cluster.modify_args_of _ _ =>
          let H := fresh "Hdiff" in destruct x eqn:H; [crashed H|]
      | Instance.modify_args_of _ _ =>
          let H := fresh "Hdiff" in destruct x eqn:H; [crashed H|]
      | getitem _ _ => let H := fresh "Hget" in destruct x eqn:H; [crashed H|]
      | py_iter _ => let H := fresh "Hiter" in destruct x eqn:H; [crashed H|]
      | res_map _ _ => let H := fresh "Hkeys" in destruct x eqn:H; [crashed H|]
      | _ => is_var x; destruct x
      end
  end.

Ltac run := exec; repeat (branch; exec).

(** *** The waiting loop *)

Lemma describe_run client k name s :
  describe client k name s =
    (match ask client k (trace s) name with
     | inl e => inl (ClientError (code e) (message e))
     | inr r => inr r
     end,
     State (now s + Z.of_N (Rds.latency client (trace s) (describe_call k name)))
           (trace s ++ [Called (describe_call k name)
                          (answered Resources (ask client k (trace s) name))])
           (api_args s) (check s) (timeout s)).
Proof.
  destruct k; unfold describe, describe_db_clusters, describe_db_instances, invoke; simpl;
    by destruct (_ client (trace s) name).
Qed.

Lemma is_describe_call k name : is_describe (describe_call k name) = true.
Proof. by destruct k. Qed.

(** One round of the loop: a describe call, whatever it answers. *)
Lemma poll_run client k name s :
  ∃ r s', poll client k name s = (r, s') ∧
    trace s' = trace s ++ [Called (describe_call k name)
                             (answered Resources (ask client k (trace s) name))] ∧
    api_args s' = api_args s ∧ timeout s' = timeout s ∧ now s ≤ now s' ∧
    check s' = latest [Called (describe_call k name)
                         (answered Resources (ask client k (trace s) name))] (check s) ∧
    (∀ e, r = inl e → is_crash e = true) ∧
    (still_waiting k (ask client k (trace s) name) = true → r = inr false).
Proof.
  unfold poll. exec. rewrite describe_run.
  assert (∀ z : N, now s ≤ now s + Z.of_N z) as Hlat by lia.
  destruct (ask client k (trace s) name) as [e|r] eqn:Hask; exec; simpl;
    [|destruct (the_one r) as [c|]; exec;
      [unfold getitem; destruct (dict_get (status_key k) c) as [[]|]; simpl|]];
    (eexists _, _; split; [done|]; simpl; split_and!;
     try done; try (by intros ? [= <-])).
  intros H. by apply negb_true_iff in H as ->.
Qed.

(** The loop comes back, having only described and slept; when no answer
    lets it stop, it comes back at the deadline. *)
Lemma wait_loop_run client k name deadline fuel : ∀ s,
  enough fuel deadline (now s) →
  ∃ r t s', wait_loop client fuel k name deadline s = (r, s') ∧
    (∀ e, r = inl e → is_crash e = true) ∧
    trace s' = trace s ++ t ∧ forallb idle t = true ∧
    api_args s' = api_args s ∧ timeout s' = timeout s ∧ now s ≤ now s' ∧
    check s' = latest t (check s) ∧
    ((∀ h, still_waiting k (ask client k h name) = true) →
       r = inr () ∧ deadline ≤ now s' ∧ paced t = true).
Proof.
  induction fuel as [|fuel IH]; intros s Hfuel.
  { exfalso. destruct Hfuel as [[_ ?]|?]; lia. }
  simpl. exec. destruct (deadline >? now s) eqn:Hlate.
  2:{ eexists _, [], s. rewrite app_nil_r. split_and!; try done.
      intros _. split_and!; try done. lia. }
  destruct (poll_run client k name s)
    as (r & s1 & -> & Ht1 & Ha1 & Hw1 & Hn1 & Hc1 & Hr1 & Hs1).
  destruct r as [e|[]].
  - eexists _, _, s1. split; [done|]. split; [intros ? [= <-]; by apply Hr1|].
    split; [done|]. simpl. rewrite is_describe_call. do 5 (split; [done|]).
    intros H. by specialize (Hs1 (H _)).
  - eexists _, _, s1. split; [done|]. split; [done|]. split; [done|].
    simpl. rewrite is_describe_call. do 5 (split; [done|]).
    intros H. by specialize (Hs1 (H _)).
  - exec.
    set (s2 := State (now s1 + 1000 * 5) (trace s1 ++ [Slept 5]) (api_args s1)
                     (check s1) (timeout s1)).
    destruct (IH s2) as (r & t & s' & -> & Hr & Ht & Hi & Ha & Hw & Hn & Hc & Hs).
    { unfold enough in *. simpl.
      destruct (decide (deadline ≤ now s1 + 1000 * 5)) as [Hd|Hd].
      - left. split; [done|]. destruct Hfuel as [[? _]|?]; lia.
      - right. destruct Hfuel as [[? _]|Hfuel]; [lia|].
        assert ((deadline - (now s1 + 1000 * 5)) / 5000 + 1 ≤ (deadline - now s) / 5000).
        { replace (deadline - now s) with
            ((deadline - (now s1 + 1000 * 5)) + (now s1 - now s) + 1 * 5000) by lia.
          rewrite Z.div_add by lia.
          assert ((deadline - (now s1 + 1000 * 5)) / 5000 ≤
                  ((deadline - (now s1 + 1000 * 5)) + (now s1 - now s)) / 5000); [|lia].
          apply Z.div_le_mono; lia. }
        assert (0 ≤ (deadline - (now s1 + 1000 * 5)) / 5000) by (apply Z.div_pos; lia).
        lia. }
    eexists r, _, s'. split; [done|]. split; [done|].
    split; [rewrite Ht; simpl; rewrite Ht1, <-!app_assoc; reflexivity|].
    simpl. rewrite is_describe_call. simpl.
    split; [done|]. split; [simpl in *; congruence|]. split; [simpl in *; congruence|].
    split; [simpl in *; lia|].
    split; [rewrite Hc; simpl; rewrite Hc1; simpl; by destruct (ask _ _ _ _)|].
    intros H. destruct (Hs H) as (-> & ? & ->). done.
Qed.

Lemma poll_now client k name s :
  now (poll client k name s).2 =
    now s + Z.of_N (Rds.latency client (trace s) (describe_call k name)).
Proof.
  unfold poll. exec. rewrite describe_run.
  destruct (ask client k (trace s) name) as [e|r]; exec; simpl; [done|].
  destruct (the_one r) as [c|]; exec; [|done].
  unfold getitem. by destruct (dict_get (status_key k) c) as [[]|].
Qed.

Lemma kept_waiting_answer k c a :
  kept_waiting k [Called c (answered Resources a)] = still_waiting k a.
Proof. destruct a as [e|found]; simpl; [done|]. by rewrite andb_true_r. Qed.

Lemma kept_waiting_app k t1 t2 :
  kept_waiting k (t1 ++ t2) = kept_waiting k t1 && kept_waiting k t2.
Proof. apply forallb_app. Qed.

Lemma latest_app t1 t2 c : latest (t1 ++ t2) c = latest t2 (latest t1 c).
Proof.
  revert c. induction t1 as [|ev t1 IH]; intros c; [done|].
  simpl. by destruct ev as [? [?|[]]|].
Qed.

(** The loop, event by event. *)
Lemma wait_loop_timeline client k name deadline fuel : ∀ s,
  enough fuel deadline (now s) →
  ∃ r t s', wait_loop client fuel k name deadline s = (r, s') ∧
    trace s' = trace s ++ t ∧
    polled client k name deadline (trace s) (now s) t ∧
    now s' = now s + elapsed client (trace s) t ∧
    check s' = latest t (check s) ∧ timeout s' = timeout s ∧
    (kept_waiting k t = true → r = inr () ∧ deadline ≤ now s' ∧ paced t = true).
Proof.
  induction fuel as [|fuel IH]; intros s Hfuel.
  { exfalso. destruct Hfuel as [[_ ?]|?]; lia. }
  simpl. exec. destruct (deadline >? now s) eqn:Hlate.
  2:{ eexists _, [], s. rewrite app_nil_r. split_and!; try done; [simpl; lia|].
      intros _. split_and!; try done. lia. }
  pose proof (poll_now client k name s) as Hnow.
  destruct (poll_run client k name s)
    as (r & s1 & Hp & Ht1 & Ha1 & Hw1 & Hn1 & Hc1 & Hr1 & Hs1).
  rewrite Hp in Hnow |- *. simpl in Hnow.
  set (call := Called (describe_call k name)
                 (answered Resources (ask client k (trace s) name))) in *.
  assert (polled client k name deadline (trace s) (now s) [call]) as Hpolled.
  { simpl. split; [|done]. split; [lia|done]. }
  assert (latest [call] (check s) = check s1) as Hlatest by done.
  destruct r as [e|[]].
  - eexists _, [call], s1. split; [done|]. split; [done|]. split; [done|].
    split; [simpl; lia|]. split; [done|]. split; [done|].
    unfold call. rewrite kept_waiting_answer. intros H. by specialize (Hs1 H).
  - eexists _, [call], s1. split; [done|]. split; [done|]. split; [done|].
    split; [simpl; lia|]. split; [done|]. split; [done|].
    unfold call. rewrite kept_waiting_answer. intros H. by specialize (Hs1 H).
  - exec.
    set (s2 := State (now s1 + 1000 * 5) (trace s1 ++ [Slept 5]) (api_args s1)
                     (check s1) (timeout s1)).
    destruct (IH s2) as (r & t & s' & -> & Ht & Hpol & Hel & Hc & Hw & Hs).
    { unfold enough in *. simpl.
      destruct (decide (deadline ≤ now s1 + 1000 * 5)) as [Hd|Hd].
      - left. split; [done|]. destruct Hfuel as [[? _]|?]; lia.
      - right. destruct Hfuel as [[? _]|Hfuel]; [lia|].
        assert ((deadline - (now s1 + 1000 * 5)) / 5000 + 1 ≤ (deadline - now s) / 5000).
        { replace (deadline - now s) with
            ((deadline - (now s1 + 1000 * 5)) + (now s1 - now s) + 1 * 5000) by lia.
          rewrite Z.div_add by lia.
          assert ((deadline - (now s1 + 1000 * 5)) / 5000 ≤
                  ((deadline - (now s1 + 1000 * 5)) + (now s1 - now s)) / 5000); [|lia].
          apply Z.div_le_mono; lia. }
        assert (0 ≤ (deadline - (now s1 + 1000 * 5)) / 5000) by (apply Z.div_pos; lia).
        lia. }
    unfold s2 in Ht, Hpol, Hel, Hc, Hw. cbn [now trace check timeout] in Ht, Hpol, Hel, Hc, Hw.
    rewrite Ht1 in Ht, Hpol, Hel. rewrite <-?app_assoc in Ht, Hpol, Hel.
    cbn [app] in Ht, Hpol, Hel.
    eexists r, (call :: Slept 5 :: t), s'. split; [done|].
    split; [by rewrite Ht, <-?app_assoc|].
    split.
    { cbn [polled duration]. split; [split; [lia|done]|]. split; [done|].
      rewrite <-app_assoc. cbn [app].
      change (duration client (trace s) call)
        with (Z.of_N (Rds.latency client (trace s) (describe_call k name))).
      rewrite <-Hnow. exact Hpol. }
    split.
    { cbn [elapsed]. rewrite <-app_assoc. cbn [app].
      change (duration client (trace s) call)
        with (Z.of_N (Rds.latency client (trace s) (describe_call k name))).
      cbn [duration]. lia. }
    change (call :: Slept 5 :: t) with ([call] ++ Slept 5 :: t).
    split; [by rewrite latest_app, Hlatest|]. split; [congruence|].
    rewrite kept_waiting_app. unfold call at 1. rewrite kept_waiting_answer.
    intros [_ Hk]%andb_true_iff. destruct (Hs Hk) as (-> & ? & Hpaced).
    split; [done|]. split; [done|]. simpl. by rewrite is_describe_call, Hpaced.
Qed.

(** The end of both modules: what they report, and what the wait adds to
    the trace. *)
Lemma wait_and_exit_run client k name w result s :
  ∃ e t s', wait_and_exit client k name w result s = (inl e, s') ∧ e ≠ Diverged ∧
    trace s' = trace s ++ t ∧ forallb idle t = true ∧
    (∀ v, e = SystemExit (Result v) → v = result) ∧
    (w = false → e = SystemExit (Result result) ∧ t = []) ∧
    (w = true → (∀ h, still_waiting k (ask client k h name) = true) →
       paced t = true ∧
       match latest t (check s) with
       | Some r => e = SystemExit (FailedWait (timeout_msg k) (snapshot r))
       | None => e = UnboundLocalError (check_name k)
       end).
Proof.
  unfold wait_and_exit. destruct w; exec.
  2:{ eexists _, [], s. rewrite app_nil_r. repeat split; try done. by intros v [= <-]. }
  destruct (wait_loop_run client k name (now s + 1000 * timeout s)
              (rounds (now s + 1000 * timeout s) (now s)) s)
    as (r & t & s' & -> & Hr & Ht & Hi & Ha & Hw & Hn & Hc & Hs); [by right|].
  destruct r as [e|[]].
  { specialize (Hr e eq_refl).
    eexists e, t, s'. split; [done|]. split; [by intros ->|]. do 2 (split; [done|]).
    split; [by intros v ->|]. split; [done|].
    intros _ H. by destruct (Hs H). }
  destruct (now s + 1000 * timeout s <=? now s') eqn:Hlate; exec.
  2:{ eexists _, t, s'. split; [done|]. split; [done|]. do 2 (split; [done|]).
      split; [by intros v [= <-]|]. split; [done|].
      intros _ H. destruct (Hs H) as (_ & ? & _). lia. }
  rewrite Hc. destruct (latest t (check s)) as [r|] eqn:Hl; exec.
  - eexists _, t, s'. split; [done|]. split; [done|]. do 2 (split; [done|]).
    split; [done|]. split; [done|]. intros _ H. rewrite Hl.
    by destruct (Hs H) as (_ & _ & ->).
  - eexists _, t, s'. split; [done|]. split; [done|]. do 2 (split; [done|]).
    split; [done|]. split; [done|]. intros _ H. rewrite Hl.
    by destruct (Hs H) as (_ & _ & ->).
Qed.

(** Replaces the end of a run by what [wait_and_exit_run] says of it. *)
Ltac waited :=
  lazymatch goal with
  | |- context [wait_and_exit ?c ?k ?n ?w ?r ?s] =>
      let e := fresh "e" in let t := fresh "t" in let s' := fresh "s'" in
      let He := fresh "He" in let Ht := fresh "Ht" in
      let Hd := fresh "Hd" in let Hi := fresh "Hidle" in let Hv := fresh "Hv" in
      let Hn := fresh "Hnowait" in let Hw := fresh "Hwait" in
      destruct (wait_and_exit_run c k n w r s)
        as (e & t & s' & He & Hd & Ht & Hi & Hv & Hn & Hw);
      rewrite He; cbn [fst snd]; cbn [trace] in Ht; try rewrite Ht
  end.

(** *** Traces *)

Lemma forallb_idle (f : event → bool) t :
  (∀ ev, idle ev = true → f ev = true) → forallb idle t = true → forallb f t = true.
Proof.
  intros Hf. induction t as [|ev t IH]; [done|]. simpl.
  intros [Hev Ht]%andb_true_iff. by rewrite Hf, IH.
Qed.


Lemma forallb_app_idle (f : event → bool) t1 t2 :
  (∀ ev, idle ev = true → f ev = true) → forallb idle t2 = true →
  forallb f (t1 ++ t2) = forallb f t1.
Proof. intros Hf H. by rewrite forallb_app, (forallb_idle f t2), andb_true_r. Qed.


Lemma idle_no_tag_call ev : idle ev = true → negb (calls is_tag_call ev) = true.
Proof. by destruct ev as [[] ?|]. Qed.

Lemma idle_no_modify ev : idle ev = true → negb (calls is_modify ev) = true.
Proof. by destruct ev as [[] ?|]. Qed.

Lemma nonempty_lookup (m : gmap string value) k v : m !! k = Some v → nonempty m = true.
Proof.
  intros H. unfold nonempty. destruct (map_to_list m) eqn:Hl; [|done].
  apply map_to_list_empty_iff in Hl. subst m. by rewrite lookup_empty in H.
Qed.

Lemma nonempty_empty : nonempty ∅ = false.
Proof. unfold nonempty. by rewrite map_to_list_empty. Qed.

Lemma lookup_given k v (d : gmap string value) :
  given k v d !! k = match v with Some x => Some x | None => d !! k end.
Proof. destruct v; simpl; [apply lookup_insert_eq|done]. Qed.

Lemma lookup_given_ne k k' v (d : gmap string value) :
  k ≠ k' → given k v d !! k' = d !! k'.
Proof. intros H. destruct v; simpl; [by apply lookup_insert_ne|done]. Qed.

(** Unfolds a run of [create_cluster] or [create_db_instance] from the
    start. *)
Ltac cluster_run :=
  unfold Cluster.create_cluster, Cluster.reconcile, Cluster.found, Cluster.not_found,
    start.
Ltac instance_run :=
  unfold Instance.create_db_instance, Instance.reconcile, Instance.found,
    Instance.not_found, Instance.set_instance_tags, start.

(** Uses what is known of the tests met along a run. *)
Ltac known :=
  repeat match goal with
         | H : String.eqb _ _ = _ |- _ => rewrite H; clear H
         | H : nonempty _ = _ |- _ => rewrite H; clear H
         end.


(** *** The arguments of the creation calls *)

Lemma cluster_api_args_keys p k :
  k ∉ ["AvailabilityZones"; "EngineVersion"; "Port"; "DatabaseName";
       "OptionGroupName"; "VpcSecurityGroupIds"; "Tags"] →
  Cluster.api_args_of p !! k = None.
Proof.
  rewrite !not_elem_of_cons. intros (? & ? & ? & ? & ? & ? & ? & _).
  unfold Cluster.api_args_of. rewrite !lookup_given_ne by done. apply lookup_empty.
Qed.

(** What lines 137-151 put into [api_args]. *)
Lemma cluster_api_args_lookup p :
  Cluster.api_args_of p !! "AvailabilityZones" = strs <$> Cluster.availability_zones p ∧
  Cluster.api_args_of p !! "EngineVersion" = VStr <$> Cluster.engine_version p ∧
  Cluster.api_args_of p !! "Port" = VInt <$> Cluster.port p ∧
  Cluster.api_args_of p !! "DatabaseName" = VStr <$> Cluster.database_name p ∧
  Cluster.api_args_of p !! "OptionGroupName" = VStr <$> Cluster.option_group p ∧
  Cluster.api_args_of p !! "VpcSecurityGroupIds" =
    strs <$> Cluster.vpc_security_group_ids p ∧
  Cluster.api_args_of p !! "Tags" = tag_list <$> Cluster.tags p.
Proof.
  unfold Cluster.api_args_of. split_and!.
  all: rewrite ?lookup_given_ne by done; rewrite lookup_given.
  all: match goal with |- match _ <$> ?x with _ => _ end = _ => destruct x end.
  all: simpl; try done.
  all: rewrite ?lookup_given_ne by done; apply lookup_empty.
Qed.

(** What lines 217-246 put into [api_args]. *)
Lemma instance_api_args_lookup p :
  Instance.api_args_of p !! "DBInstanceClass" = VStr <$> Instance.instance_type p ∧
  Instance.api_args_of p !! "AvailabilityZone" = VStr <$> Instance.availability_zone p ∧
  Instance.api_args_of p !! "PreferredMaintenanceWindow" =
    VStr <$> Instance.preferred_maintenance_window p ∧
  Instance.api_args_of p !! "DBParameterGroupName" = VStr <$> Instance.parameter_group p ∧
  Instance.api_args_of p !! "MultiAZ" = VBool <$> Instance.multi_az p ∧
  Instance.api_args_of p !! "AutoMinorVersionUpgrade" =
    VBool <$> Instance.auto_minor_version_upgrade p ∧
  Instance.api_args_of p !! "OptionGroupName" = VStr <$> Instance.option_group p ∧
  Instance.api_args_of p !! "PubliclyAccessible" =
    VBool <$> Instance.publicly_accessible p ∧
  Instance.api_args_of p !! "CopyTagsToSnapshot" =
    VBool <$> Instance.copy_tags_to_snapshot p ∧
  Instance.api_args_of p !! "MonitoringInterval" = VInt <$> Instance.monitoring_interval p ∧
  Instance.api_args_of p !! "MonitoringRoleArn" = VStr <$> Instance.monitoring_role_arn p ∧
  Instance.api_args_of p !! "PromotionTier" = VInt <$> Instance.promotion_tier p ∧
  Instance.api_args_of p !! "EnablePerformanceInsights" =
    VBool <$> Instance.performance_insights p ∧
  Instance.api_args_of p !! "EnableCloudwatchLogsExports" =
    VStr <$> Instance.cloudwatch_logs_exports p.
Proof.
  unfold Instance.api_args_of. split_and!.
  all: rewrite ?lookup_given_ne by done; rewrite lookup_given.
  all: match goal with |- match _ <$> ?x with _ => _ end = _ => destruct x end.
  all: simpl; try done.
  all: rewrite ?lookup_given_ne by done; apply lookup_empty.
Qed.

(** What lines 182-187 add to [api_args]. *)
Lemma identified_lookup p (a : gmap string value) :
  let args := <["DBSubnetGroupName" := VStr (Cluster.subnet_group p)]>
                (given "Engine" (VStr <$> Cluster.engine p)
                   (<["DBClusterIdentifier" := VStr (Cluster.cluster_id p)]> a)) in
  a !! "Engine" = None →
  args !! "DBClusterIdentifier" = Some (VStr (Cluster.cluster_id p)) ∧
  args !! "Engine" = VStr <$> Cluster.engine p ∧
  args !! "DBSubnetGroupName" = Some (VStr (Cluster.subnet_group p)) ∧
  ∀ k, k ≠ "DBClusterIdentifier" → k ≠ "Engine" → k ≠ "DBSubnetGroupName" →
       args !! k = a !! k.
Proof.
  intros args Ha. subst args. split_and!.
  - rewrite lookup_insert_ne, lookup_given_ne by done. apply lookup_insert_eq.
  - rewrite lookup_insert_ne, lookup_given by done.
    destruct (Cluster.engine p); [done|]. by rewrite lookup_insert_ne.
  - apply lookup_insert_eq.
  - intros k ? ? ?. by rewrite lookup_insert_ne, lookup_given_ne, lookup_insert_ne.
Qed.

Lemma defaults_create_args c s :
  let p := Cluster.defaults c s in
  given "MasterUserPassword" (VStr <$> Cluster.master_password p)
    (given "MasterUsername" (VStr <$> Cluster.master_username p)
       (<["DBSubnetGroupName" := VStr (Cluster.subnet_group p)]>
          (given "Engine" (VStr <$> Cluster.engine p)
             (<["DBClusterIdentifier" := VStr (Cluster.cluster_id p)]>
                (Cluster.api_args_of p))))) =
  {[ "DBClusterIdentifier" := VStr c; "DBSubnetGroupName" := VStr s;
     "Engine" := VStr "aurora" ]}.
Proof.
  simpl. unfold Cluster.api_args_of. simpl.
  apply map_eq. intros k.
  destruct (decide (k = "DBClusterIdentifier")) as [->|?]; [done|].
  destruct (decide (k = "DBSubnetGroupName")) as [->|?]; [done|].
  destruct (decide (k = "Engine")) as [->|?]; [done|].
  rewrite !lookup_insert_ne by done. by rewrite lookup_empty, lookup_singleton_ne.
Qed.

(** *** The security groups in the diff *)

Lemma groups_entry cluster api_args m (attached wanted : list string) :
  Cluster.attached_groups cluster = inr (VStr <$> attached) →
  api_args !! "VpcSecurityGroupIds" = Some (strs wanted) →
  Cluster.modify_args_of cluster api_args = inr m →
  m !! "VpcSecurityGroupIds" =
    if decide (attached ≡ₚ wanted) then None else Some (strs wanted).
Proof.
  intros Ha Hw Hm.
  assert (cluster_changes cluster "VpcSecurityGroupIds" (strs wanted) ↔ ¬ attached ≡ₚ wanted)
    as Hc.
  { rewrite <-sorted_ne_strings. split.
    - inversion 1 as [? a w Ha' Hw' Hne|]; [|done].
      rewrite Ha in Ha'. injection Ha' as <-. simpl in Hw'. by injection Hw' as <-.
    - intros Hne. by eapply groups_change. }
  case_decide as Hp.
  - destruct (m !! "VpcSecurityGroupIds") as [v|] eqn:Hv; [|done].
    apply (cluster_modify_args _ _ _ Hm) in Hv as [Hv Hch].
    rewrite Hw in Hv. injection Hv as <-. by apply Hc in Hch.
  - apply (cluster_modify_args _ _ _ Hm). by rewrite Hc.
Qed.

Lemma groups_only_unchanged cluster (attached wanted : list string) :
  Cluster.attached_groups cluster = inr (VStr <$> attached) →
  attached ≡ₚ wanted →
  Cluster.modify_args_of cluster {[ "VpcSecurityGroupIds" := strs wanted ]} = inr ∅.
Proof.
  intros Ha Hp. unfold Cluster.modify_args_of. rewrite map_to_list_singleton. simpl.
  unfold Cluster.modify_entry. simpl. rewrite Ha. simpl.
  destruct (sorted_ne _ _) eqn:Hne; [|done].
  by apply sorted_ne_strings in Hne.
Qed.

(** ** The claims *)

(** C1, as amended.  Whenever the diff loop of either module runs to its
    end, the mutation set holds exactly the desired attributes that differ
    from the fetched resource, no other and no less: the security groups of
    a cluster differ when the sorted lists differ (duplicates count), the
    parameter group of an instance when the list of its group names is not
    the one-element list of the desired name, every other attribute when
    [!=] says so, and an attribute the fetched instance lacks differs. *)
Theorem modify_args_exact :
  (∀ cluster api_args m,
     Cluster.modify_args_of cluster api_args = inr m →
     ∀ opt val, m !! opt = Some val ↔
       api_args !! opt = Some val ∧ cluster_changes cluster opt val) ∧
  (∀ instance api_args m,
     Instance.modify_args_of instance api_args = inr m →
     ∀ opt val, m !! opt = Some val ↔
       api_args !! opt = Some val ∧ instance_changes instance opt val).
Proof. split; [apply cluster_modify_args|apply instance_modify_args]. Qed.

Lemma modify_args_exact_witness :
  Cluster.modify_args_of example_cluster
    (Cluster.api_args_of (with_groups ["sg-3"; "sg-1"] false 0)) =
    inr {[ "VpcSecurityGroupIds" := strs ["sg-3"; "sg-1"] ]} ∧
  ∀ opt val,
    ({[ "VpcSecurityGroupIds" := strs ["sg-3"; "sg-1"] ]} : gmap string value) !! opt
      = Some val ↔
    Cluster.api_args_of (with_groups ["sg-3"; "sg-1"] false 0) !! opt = Some val ∧
    cluster_changes example_cluster opt val.
Proof.
  split; [vm_compute; reflexivity|].
  apply (proj1 modify_args_exact). vm_compute. reflexivity.
Defined.

(** C1 as stated fails: the desired groups sg-1, sg-2, sg-2 and the attached
    groups sg-1, sg-2 are the same set, yet the entry is in the mutation
    set; and for a cluster without the key of a desired attribute there is
    no mutation set at all. *)
Lemma modify_args_counterexample :
  (list_to_set ["sg-1"; "sg-2"; "sg-2"] : gset string) = list_to_set ["sg-1"; "sg-2"] ∧
  Cluster.modify_args_of example_cluster
    {[ "VpcSecurityGroupIds" := strs ["sg-1"; "sg-2"; "sg-2"] ]} =
    inr {[ "VpcSecurityGroupIds" := strs ["sg-1"; "sg-2"; "sg-2"] ]} ∧
  Cluster.modify_args_of example_cluster
    {[ "OptionGroupName" := VStr "default:aurora-5-6" ]} =
    inl (KeyError "OptionGroupName").
Proof. split; [|split]; vm_compute; reflexivity. Qed.

(** C2, as amended.  The security-group entry is in the mutation set if and
    only if the desired identifiers and the attached ones differ as sorted
    lists, that is, are no permutation of one another: the order does not
    matter, the number of times an identifier occurs does.  When the groups
    are all the task sets and they are a permutation of the attached ones,
    no modify call is issued; desired sg-2, sg-1 against attached sg-1, sg-2
    gives the empty mutation set. *)
Theorem security_groups_compared_sorted :
  (∀ cluster api_args m (attached wanted : list string),
     Cluster.attached_groups cluster = inr (VStr <$> attached) →
     api_args !! "VpcSecurityGroupIds" = Some (strs wanted) →
     Cluster.modify_args_of cluster api_args = inr m →
     (is_Some (m !! "VpcSecurityGroupIds") ↔ ¬ attached ≡ₚ wanted)) ∧
  (∀ client t0 p cluster (attached wanted : list string),
     Rds.describe_db_clusters client [] (Cluster.cluster_id p) = inr (Some [cluster]) →
     Cluster.attached_groups cluster = inr (VStr <$> attached) →
     Cluster.api_args_of p = {[ "VpcSecurityGroupIds" := strs wanted ]} →
     attached ≡ₚ wanted →
     forallb (λ ev, negb (calls is_modify ev))
       (trace (Cluster.create_cluster client p (start t0 (Cluster.wait_timeout p))).2)
       = true) ∧
  Cluster.modify_args_of example_cluster
    {[ "VpcSecurityGroupIds" := strs ["sg-2"; "sg-1"] ]} = inr ∅.
Proof.
  split; [|split].
  - intros cluster api_args m attached wanted Ha Hw Hm.
    rewrite (groups_entry _ _ _ _ _ Ha Hw Hm). case_decide as Hp; split.
    + by intros [? ?].
    + done.
    + done.
    + by intros _.
  - intros client t0 p cluster attached wanted Hd Ha Hargs Hp.
    cluster_run. exec. rewrite Hd. exec. simpl. exec.
    rewrite Hargs, (groups_only_unchanged _ _ _ Ha Hp). exec.
    rewrite nonempty_empty. exec. destruct (Cluster.wait_timeout p =? 0); exec.
    all: waited; by rewrite (forallb_app_idle _ _ _ idle_no_modify).
  - vm_compute. reflexivity.
Qed.

Lemma security_groups_compared_sorted_witness :
  (Cluster.attached_groups example_cluster = inr (VStr <$> ["sg-1"; "sg-2"]) ∧
   ({[ "VpcSecurityGroupIds" := strs ["sg-2"; "sg-1"] ]} : gmap string value)
     !! "VpcSecurityGroupIds" = Some (strs ["sg-2"; "sg-1"]) ∧
   Cluster.modify_args_of example_cluster
     {[ "VpcSecurityGroupIds" := strs ["sg-2"; "sg-1"] ]} = inr ∅) ∧
  (is_Some ((∅ : gmap string value) !! "VpcSecurityGroupIds") ↔
   ¬ ["sg-1"; "sg-2"] ≡ₚ ["sg-2"; "sg-1"]).
Proof.
  assert (Cluster.attached_groups example_cluster = inr (VStr <$> ["sg-1"; "sg-2"]))
    as Ha by reflexivity.
  assert (({[ "VpcSecurityGroupIds" := strs ["sg-2"; "sg-1"] ]} : gmap string value)
     !! "VpcSecurityGroupIds" = Some (strs ["sg-2"; "sg-1"])) as Hw by reflexivity.
  assert (Cluster.modify_args_of example_cluster
     {[ "VpcSecurityGroupIds" := strs ["sg-2"; "sg-1"] ]} = inr ∅) as Hm
    by (vm_compute; reflexivity).
  split; [by split_and!|].
  exact (proj1 security_groups_compared_sorted _ _ _ _ _ Ha Hw Hm).
Defined.

(** C2 as stated fails: sg-1, sg-1, sg-2 and sg-1, sg-2 are the same set of
    identifiers, and the entry is in the mutation set. *)
Lemma security_groups_counterexample :
  (list_to_set ["sg-1"; "sg-1"; "sg-2"] : gset string) = list_to_set ["sg-1"; "sg-2"] ∧
  Cluster.attached_groups example_cluster = inr (VStr <$> ["sg-1"; "sg-2"]) ∧
  ∃ m, Cluster.modify_args_of example_cluster
         (Cluster.api_args_of (with_groups ["sg-1"; "sg-1"; "sg-2"] false 0)) = inr m ∧
       m !! "VpcSecurityGroupIds" = Some (strs ["sg-1"; "sg-1"; "sg-2"]).
Proof.
  split; [vm_compute; reflexivity|]. split; [reflexivity|].
  eexists. split; vm_compute; reflexivity.
Qed.






(** C5.  When the initial fetch of a cluster raises the not-found code, the
    next call is a restore from snapshot if a snapshot is given and a
    direct create if none is, and no other call but the describe calls of
    the wait follows.  Its arguments are the identifier, the engine and the
    subnet group, the snapshot for a restore, the master credentials that
    are set for a create, and each override the task sets, under its key
    and with its value: availability zones, engine version, port, database
    name, option group, security groups and tags (as a list of Key and
    Value pairs); nothing else.  For the task that sets nothing but the
    required options they are exactly DBClusterIdentifier, DBSubnetGroupName
    and Engine "aurora". *)
Theorem not_found_restores_or_creates client t0 p e :
  Rds.describe_db_clusters client [] (Cluster.cluster_id p) = inl e →
  code e = "DBClusterNotFoundFault" →
  let r := Cluster.create_cluster client p (start t0 (Cluster.wait_timeout p)) in
  ∃ args a t,
    trace r.2 =
      [Called (DescribeDBClusters (Cluster.cluster_id p)) (inl e);
       Called (match Cluster.snapshot_arn p with
               | Some _ => RestoreDBClusterFromSnapshot args
               | None => CreateDBCluster args
               end) a] ++ t ∧
    forallb idle t = true ∧
    args !! "DBClusterIdentifier" = Some (VStr (Cluster.cluster_id p)) ∧
    args !! "Engine" = VStr <$> Cluster.engine p ∧
    args !! "DBSubnetGroupName" = Some (VStr (Cluster.subnet_group p)) ∧
    args !! "SnapshotIdentifier" = VStr <$> Cluster.snapshot_arn p ∧
    args !! "MasterUsername" =
      match Cluster.snapshot_arn p with
      | Some _ => None
      | None => VStr <$> Cluster.master_username p
      end ∧
    args !! "MasterUserPassword" =
      match Cluster.snapshot_arn p with
      | Some _ => None
      | None => VStr <$> Cluster.master_password p
      end ∧
    args !! "AvailabilityZones" =
      (λ zones, VList (VStr <$> zones)) <$> Cluster.availability_zones p ∧
    args !! "EngineVersion" = VStr <$> Cluster.engine_version p ∧
    args !! "Port" = VInt <$> Cluster.port p ∧
    args !! "DatabaseName" = VStr <$> Cluster.database_name p ∧
    args !! "OptionGroupName" = VStr <$> Cluster.option_group p ∧
    args !! "VpcSecurityGroupIds" =
      (λ groups, VList (VStr <$> groups)) <$> Cluster.vpc_security_group_ids p ∧
    args !! "Tags" =
      (λ tags, VList ((λ kv, VDict [("Key", VStr kv.1); ("Value", VStr kv.2)]) <$> tags))
        <$> Cluster.tags p ∧
    (∀ k, k ∉ ["DBClusterIdentifier"; "Engine"; "DBSubnetGroupName"; "SnapshotIdentifier";
               "MasterUsername"; "MasterUserPassword"; "AvailabilityZones";
               "EngineVersion"; "Port"; "DatabaseName"; "OptionGroupName";
               "VpcSecurityGroupIds"; "Tags"] →
          args !! k = None) ∧
    (p = Cluster.defaults (Cluster.cluster_id p) (Cluster.subnet_group p) →
     args = {[ "DBClusterIdentifier" := VStr (Cluster.cluster_id p);
               "DBSubnetGroupName" := VStr (Cluster.subnet_group p);
               "Engine" := VStr "aurora" ]}).
Proof.
  intros Hd Hnf r. subst r.
  pose proof (cluster_api_args_keys p) as Hkeys.
  destruct (cluster_api_args_lookup p) as (Hzones & Hversion & Hport & Hname & Hoption &
                                           Hgroups & Htags).
  destruct (identified_lookup p (Cluster.api_args_of p)) as (Hid & Heng & Hsub & Hrest).
  { apply Hkeys. rewrite !not_elem_of_cons. split_and!; try done. apply not_elem_of_nil. }
  assert (∀ k, k ∉ ["AvailabilityZones"; "EngineVersion"; "Port"; "DatabaseName";
                    "OptionGroupName"; "VpcSecurityGroupIds"; "Tags"] →
               k ≠ "DBClusterIdentifier" → k ≠ "Engine" → k ≠ "DBSubnetGroupName" →
               (<["DBSubnetGroupName" := VStr (Cluster.subnet_group p)]>
                  (given "Engine" (VStr <$> Cluster.engine p)
                     (<["DBClusterIdentifier" := VStr (Cluster.cluster_id p)]>
                        (Cluster.api_args_of p)))) !! k = None) as Hnone.
  { intros k Hk ? ? ?. rewrite Hrest by done. by apply Hkeys. }
  assert (∀ k : string,
            k ∉ ["AvailabilityZones"; "EngineVersion"; "Port"; "DatabaseName";
                 "OptionGroupName"; "VpcSecurityGroupIds"; "Tags"] ↔
            (k ≠ "AvailabilityZones" ∧ k ≠ "EngineVersion" ∧ k ≠ "Port" ∧
             k ≠ "DatabaseName" ∧ k ≠ "OptionGroupName" ∧ k ≠ "VpcSecurityGroupIds" ∧
             k ≠ "Tags")) as Hnot.
  { intros k. rewrite !not_elem_of_cons. pose proof (not_elem_of_nil k). tauto. }
  cluster_run. exec. rewrite Hd. exec. rewrite Hnf. simpl. exec.
  set (base := <["DBSubnetGroupName" := VStr (Cluster.subnet_group p)]>
                 (given "Engine" (VStr <$> Cluster.engine p)
                    (<["DBClusterIdentifier" := VStr (Cluster.cluster_id p)]>
                       (Cluster.api_args_of p)))) in *.
  assert (base !! "AvailabilityZones" =
            (λ zones, VList (VStr <$> zones)) <$> Cluster.availability_zones p ∧
          base !! "EngineVersion" = VStr <$> Cluster.engine_version p ∧
          base !! "Port" = VInt <$> Cluster.port p ∧
          base !! "DatabaseName" = VStr <$> Cluster.database_name p ∧
          base !! "OptionGroupName" = VStr <$> Cluster.option_group p ∧
          base !! "VpcSecurityGroupIds" =
            (λ groups, VList (VStr <$> groups)) <$> Cluster.vpc_security_group_ids p ∧
          base !! "Tags" =
            (λ tags, VList ((λ kv, VDict [("Key", VStr kv.1); ("Value", VStr kv.2)])
                              <$> tags)) <$> Cluster.tags p) as Hover.
  { rewrite !Hrest by done. by split_and!. }
  destruct Hover as (Bzones & Bversion & Bport & Bname & Boption & Bgroups & Btags).
  destruct (Cluster.snapshot_arn p) as [arn|] eqn:Harn; exec.
  - set (args := <["SnapshotIdentifier" := VStr arn]> base).
    assert (∀ k, k ≠ "SnapshotIdentifier" → args !! k = base !! k) as Hsame.
    { intros k ?. subst args. by rewrite lookup_insert_ne. }
    assert (args !! "SnapshotIdentifier" = Some (VStr arn)) as Hsnap
      by apply lookup_insert_eq.
    assert (∀ k, k ∉ ["DBClusterIdentifier"; "Engine"; "DBSubnetGroupName";
                      "SnapshotIdentifier"; "MasterUsername"; "MasterUserPassword";
                      "AvailabilityZones"; "EngineVersion"; "Port"; "DatabaseName";
                      "OptionGroupName"; "VpcSecurityGroupIds"; "Tags"] →
                 args !! k = None) as Helse.
    { intros k. rewrite !not_elem_of_cons.
      intros (? & ? & ? & ? & ? & ? & ? & ? & ? & ? & ? & ? & ? & _).
      rewrite Hsame by done. apply Hnone; try done. by apply Hnot. }
    assert (args !! "MasterUsername" = None ∧ args !! "MasterUserPassword" = None)
      as [Huser Hpass].
    { rewrite !Hsame by done. split; (apply Hnone; [by apply Hnot|done..]). }
    assert (p = Cluster.defaults (Cluster.cluster_id p) (Cluster.subnet_group p) →
            args = {[ "DBClusterIdentifier" := VStr (Cluster.cluster_id p);
                      "DBSubnetGroupName" := VStr (Cluster.subnet_group p);
                      "Engine" := VStr "aurora" ]}) as Hdefault.
    { intros Hp. rewrite Hp in Harn. done. }
    rewrite <-!(Hsame _) in * by done.
    clearbody args base.
    destruct (Rds.restore_db_cluster_from_snapshot _ _ _) as [e'|v] eqn:Hr; exec.
    + eexists args, _, []. by split_and!.
    + destruct (Cluster.wait_timeout p =? 0); exec; waited; eexists args, _, _;
        by split_and!.
  - set (args := given "MasterUserPassword" (VStr <$> Cluster.master_password p)
                   (given "MasterUsername" (VStr <$> Cluster.master_username p) base)).
    assert (∀ k, k ≠ "MasterUsername" → k ≠ "MasterUserPassword" →
                 args !! k = base !! k) as Hsame.
    { intros k ? ?. subst args. by rewrite !lookup_given_ne. }
    assert (args !! "SnapshotIdentifier" = None) as Hsnap.
    { rewrite Hsame by done. apply Hnone; try done. by apply Hnot. }
    assert (∀ k, k ∉ ["DBClusterIdentifier"; "Engine"; "DBSubnetGroupName";
                      "SnapshotIdentifier"; "MasterUsername"; "MasterUserPassword";
                      "AvailabilityZones"; "EngineVersion"; "Port"; "DatabaseName";
                      "OptionGroupName"; "VpcSecurityGroupIds"; "Tags"] →
                 args !! k = None) as Helse.
    { intros k. rewrite !not_elem_of_cons.
      intros (? & ? & ? & ? & ? & ? & ? & ? & ? & ? & ? & ? & ? & _).
      rewrite Hsame by done. apply Hnone; try done. by apply Hnot. }
    assert (args !! "MasterUsername" = VStr <$> Cluster.master_username p ∧
            args !! "MasterUserPassword" = VStr <$> Cluster.master_password p)
      as [Huser Hpass].
    { subst args. split.
      - rewrite lookup_given_ne, lookup_given by done.
        destruct (Cluster.master_username p); [done|].
        apply Hnone; try done. by apply Hnot.
      - rewrite lookup_given. destruct (Cluster.master_password p); [done|].
        rewrite lookup_given_ne by done. apply Hnone; try done. by apply Hnot. }
    assert (p = Cluster.defaults (Cluster.cluster_id p) (Cluster.subnet_group p) →
            args = {[ "DBClusterIdentifier" := VStr (Cluster.cluster_id p);
                      "DBSubnetGroupName" := VStr (Cluster.subnet_group p);
                      "Engine" := VStr "aurora" ]}) as Hdefault.
    { intros Hp. subst args base. rewrite Hp. apply defaults_create_args. }
    rewrite <-!(Hsame _) in * by done.
    clearbody args base.
    destruct (Rds.create_db_cluster _ _ _) as [e'|v] eqn:Hr; exec.
    + eexists args, _, []. by split_and!.
    + destruct (Cluster.wait_timeout p =? 0); exec; waited; eexists args, _, _;
        by split_and!.
Qed.

Lemma not_found_restores_or_creates_witness :
  let client := empty_account (inr (VStr "created")) in
  let e := Error "DBClusterNotFoundFault" "DBCluster c1 not found" in
  let run p := Cluster.create_cluster client p (start 0 (Cluster.wait_timeout p)) in
  (Rds.describe_db_clusters client [] "c1" = inl e ∧ code e = "DBClusterNotFoundFault") ∧
  (∃ args a t,
     trace (run (Cluster.defaults "c1" "sg1")).2 =
       [Called (DescribeDBClusters "c1") (inl e); Called (CreateDBCluster args) a] ++ t ∧
     args = {[ "DBClusterIdentifier" := VStr "c1"; "DBSubnetGroupName" := VStr "sg1";
               "Engine" := VStr "aurora" ]}) ∧
  ∃ args a t,
    trace (run (full_cluster_task None)).2 =
      [Called (DescribeDBClusters "c1") (inl e); Called (CreateDBCluster args) a] ++ t ∧
    args !! "DBClusterIdentifier" = Some (VStr "c1") ∧
    args !! "Engine" = Some (VStr "aurora") ∧
    args !! "DBSubnetGroupName" = Some (VStr "sg1") ∧
    args !! "SnapshotIdentifier" = None ∧
    args !! "MasterUsername" = Some (VStr "admin") ∧
    args !! "MasterUserPassword" = Some (VStr "secret") ∧
    args !! "AvailabilityZones" = Some (VList [VStr "us-east-1a"; VStr "us-east-1b"]) ∧
    args !! "EngineVersion" = Some (VStr "5.6.10a") ∧
    args !! "Port" = Some (VInt 3306) ∧
    args !! "DatabaseName" = Some (VStr "app") ∧
    args !! "OptionGroupName" = Some (VStr "default:aurora-5-6") ∧
    args !! "VpcSecurityGroupIds" = Some (VList [VStr "sg-1"; VStr "sg-2"]) ∧
    args !! "Tags" =
      Some (VList [VDict [("Key", VStr "Name"); ("Value", VStr "db")];
                   VDict [("Key", VStr "env"); ("Value", VStr "test")]]).
Proof.
  intros client e run. split; [by split|]. split.
  - destruct (not_found_restores_or_creates client 0 (Cluster.defaults "c1" "sg1") e
                eq_refl eq_refl)
      as (args & a & t & Ht & _ & _ & _ & _ & _ & _ & _ & _ & _ & _ & _ & _ & _ & _ &
          _ & Hargs).
    exists args, a, t. split; [exact Ht|exact (Hargs eq_refl)].
  - destruct (not_found_restores_or_creates client 0 (full_cluster_task None) e
                eq_refl eq_refl)
      as (args & a & t & Ht & _ & H1 & H2 & H3 & H4 & H5 & H6 & H7 & H8 & H9 & H10 &
          H11 & H12 & H13 & _ & _).
    exists args, a, t. split; [exact Ht|].
    split; [exact H1|]. split; [exact H2|]. split; [exact H3|]. split; [exact H4|].
    split; [exact H5|]. split; [exact H6|]. split; [exact H7|]. split; [exact H8|].
    split; [exact H9|]. split; [exact H10|]. split; [exact H11|]. split; [exact H12|].
    exact H13.
Defined.

(** C6, as the code has it.  A wait is a sequence of describe calls of the
    resource, each made before the deadline and each followed by a sleep of
    five seconds while no answer lets the loop stop, and time passes only
    in these calls and sleeps.  When no answer lets it stop, the wait lasts
    until the deadline and ends in the timeout failure with the single
    resource of the last describe call that returned (none when that
    response does not hold exactly one resource); but when no describe call
    ever returned, the variable the report reads was never bound and the
    run ends in UnboundLocalError instead of a timeout failure with none. *)
Theorem timeout_reports_latest client k name result s :
  let r := wait_and_exit client k name true result s in
  let t := drop (length (trace s)) (trace r.2) in
  let deadline := now s + 1000 * timeout s in
  trace r.2 = trace s ++ t ∧
  polled client k name deadline (trace s) (now s) t ∧
  now r.2 = now s + elapsed client (trace s) t ∧
  (kept_waiting k t = true →
   paced t = true ∧ deadline ≤ now r.2 ∧
   r.1 = inl match latest t (check s) with
             | Some found => SystemExit (FailedWait (timeout_msg k) (snapshot found))
             | None => UnboundLocalError (check_name k)
             end).
Proof.
  intros r t deadline. subst r t deadline. unfold wait_and_exit. exec.
  destruct (wait_loop_timeline client k name (now s + 1000 * timeout s)
              (rounds (now s + 1000 * timeout s) (now s)) s)
    as (r & t & s1 & -> & Ht & Hpol & Hel & Hc & _ & Hs); [by right|].
  assert (drop (length (trace s)) (trace s1) = t) as Hdrop
    by (by rewrite Ht, drop_app_length).
  destruct r as [e|[]].
  { cbn [fst snd]. rewrite Hdrop. split_and!; try done.
    intros Hk. by destruct (Hs Hk). }
  exec. destruct (now s + 1000 * timeout s <=? now s1) eqn:Hlate; exec.
  - destruct (check s1) as [found|] eqn:Hcheck; exec.
    all: rewrite Hdrop; split_and!; try done.
    all: intros Hk; destruct (Hs Hk) as (_ & ? & ?); split_and!; try done.
    all: by rewrite <-Hc.
  - rewrite Hdrop. split_and!; try done.
    intros Hk. destruct (Hs Hk) as (_ & ? & ?). lia.
Qed.

Lemma timeout_reports_latest_witness :
  let client := empty_account (inr (VStr "created")) in
  let s := (Cluster.reconcile client (with_groups ["sg-1"] true 12) (start 0 12)).2 in
  let r := wait_and_exit client DBCluster "c1" true (VStr "created") s in
  let t := drop (length (trace s)) (trace r.2) in
  kept_waiting DBCluster t = true ∧
  existsb (calls is_creation) (trace s) = true ∧
  paced t = true ∧ now s + 1000 * 12 ≤ now r.2 ∧
  r.1 = inl (UnboundLocalError "check_cluster").
Proof.
  intros client s r t.
  assert (kept_waiting DBCluster t = true) as Hk by (vm_compute; reflexivity).
  split; [exact Hk|]. split; [vm_compute; reflexivity|].
  exact (proj2 (proj2 (proj2
           (timeout_reports_latest client DBCluster "c1" (VStr "created") s))) Hk).
Defined.

(** C7, as amended.  In the cluster module a [wait_timeout] of 0 is
    replaced when the [try] block ends well: by 3600 seconds after a
    restore from snapshot, by 600 after a direct create or after the found
    branch.  The instance module replaces nothing: it waits for the
    [wait_timeout] it is given, 0 included; 1200 seconds is what the
    argument specification supplies when the task gives none. *)
Theorem wait_timeout_defaults client t0 :
  (∀ p v s',
     Cluster.wait_timeout p = 0 →
     Cluster.reconcile client p (start t0 (Cluster.wait_timeout p)) = (inr v, s') →
     timeout s' = if existsb (calls is_restore) (trace s') then 3600 else 600) ∧
  (∀ p r s',
     Instance.reconcile client p (start t0 (Instance.wait_timeout p)) = (r, s') →
     timeout s' = Instance.wait_timeout p) ∧
  (∀ name, Instance.wait_timeout (Instance.defaults name) = 1200).
Proof.
  split_and!; [| |done].
  - intros p v s' Hzero. rewrite Hzero.
    unfold Cluster.reconcile, Cluster.found, Cluster.not_found, start. run.
    all: try done.
    all: intros [= <- <-]; reflexivity.
  - intros p r s'.
    unfold Instance.reconcile, Instance.found, Instance.not_found,
      Instance.set_instance_tags, start. run.
    all: by intros [= <- <-].
Qed.

Lemma wait_timeout_defaults_witness :
  let client := empty_account (inr (VStr "restored")) in
  let p := from_snapshot "arn:aws:rds:us-east-1:1234567890:cluster-snapshot:s1" in
  let r := Cluster.reconcile client p (start 0 (Cluster.wait_timeout p)) in
  (Cluster.wait_timeout p = 0 ∧ r = (inr (VStr "restored"), r.2)) ∧
  timeout r.2 = 3600.
Proof.
  intros client p r.
  assert (r = (inr (VStr "restored"), r.2)) as Hr by (vm_compute; reflexivity).
  split; [by split|].
  exact (proj1 (wait_timeout_defaults client 0) p _ _ eq_refl Hr).
Defined.

(** C7 as stated fails: an instance task with [wait_timeout] 0 waits zero
    seconds; the run times out before any poll.  And the 1200 seconds of
    the instance module are not shorter than the 600 of a cluster create. *)
Lemma instance_timeout_counterexample :
  let p := example_task None true 0 in
  let r := Instance.create_db_instance (holding example_instance (Some name_tag)) p
             (start 0 (Instance.wait_timeout p)) in
  Instance.wait_timeout p = 0 ∧
  timeout r.2 = 0 ∧
  existsb (calls is_describe) (drop 1 (trace r.2)) = false ∧
  r.1 = inl (SystemExit (FailedWait "Timed out waiting for DB instance to become available"
                           (VDict example_instance))) ∧
  ¬ Instance.wait_timeout (Instance.defaults "i1") < 600.
Proof. split_and!; [vm_compute; reflexivity..|]. simpl. lia. Qed.

(** C8, as the code has it.  Neither file binds the function its [main]
    calls for [state=absent]; unless a star import binds it, the call
    raises [NameError] and no call reaches the gateway. *)
Theorem absent_state_unbound client s :
  ("terminate_cluster" ∉ Cluster.module_names) ∧
  ("terminate_db_instance" ∉ Instance.module_names) ∧
  (∀ imported p,
     imported "terminate_cluster" = None →
     Cluster.main client imported true absent p s =
       (inl (NameError "terminate_cluster"), s)) ∧
  (∀ imported p,
     imported "terminate_db_instance" = None →
     Instance.main client imported true absent p s =
       (inl (NameError "terminate_db_instance"), s)).
Proof.
  split_and!.
  - unfold Cluster.module_names. rewrite !not_elem_of_cons. split_and!; try done.
    apply not_elem_of_nil.
  - unfold Instance.module_names. rewrite !not_elem_of_cons. split_and!; try done.
    apply not_elem_of_nil.
  - intros imported p H. unfold Cluster.main. simpl. by rewrite H.
  - intros imported p H. unfold Instance.main. simpl. by rewrite H.
Qed.

Lemma absent_state_unbound_witness :
  let imported := λ _ : string, @None (Cluster.params → M unit) in
  let p := Cluster.defaults "c1" "sg1" in
  imported "terminate_cluster" = None ∧
  Cluster.main (holding example_cluster None) imported true absent p (start 0 0) =
    (inl (NameError "terminate_cluster"), start 0 0).
Proof.
  intros imported p. split; [reflexivity|].
  exact (proj1 (proj2 (proj2 (absent_state_unbound (holding example_cluster None)
                                (start 0 0)))) imported p eq_refl).
Defined.

(** C9, as amended.  When an instance is found and every call of the [try]
    block is answered, the tags are reconciled after the modify call, if
    there is one, and whatever the mutation set: the tags are listed and,
    when the listing holds a [TagList], all its keys are removed and the
    desired tags, if the task sets any, are added, changed or not.  The
    cluster module issues no tag call at all. *)
Theorem instance_tags_replaced client t0 :
  (∀ p instance v s',
     Rds.describe_db_instances client [] (Instance.instance_id p) = inr (Some [instance]) →
     Instance.reconcile client p (start t0 (Instance.wait_timeout p)) = (inr v, s') →
     forallb answered_ok (trace s') = true →
     ∃ m arn listing keys,
       Instance.modify_args_of instance (Instance.api_args_of p) = inr m ∧
       dict_get "DBInstanceArn" instance = Some arn ∧
       (∀ TagList, listing = Some TagList →
          py_iter TagList ≫= res_map (λ t, subscript t "Key") = inr keys) ∧
       trace s' =
         Called (DescribeDBInstances (Instance.instance_id p))
           (inr (Resources (Some [instance]))) ::
         (if nonempty m
          then [Called (ModifyDBInstance (Instance.instance_id p)
                          (Instance.apply_immediately p) m) (inr (Response v))]
          else []) ++
         tag_calls arn listing keys (tag_list <$> Instance.tags p)) ∧
  (∀ p,
     forallb (λ ev, negb (calls is_tag_call ev))
       (trace (Cluster.create_cluster client p (start t0 (Cluster.wait_timeout p))).2)
       = true).
Proof.
  split.
  - intros p instance v s' Hd.
    unfold Instance.reconcile, Instance.found, Instance.not_found,
      Instance.set_instance_tags, start.
    exec. rewrite Hd. exec. simpl. run.
    all: try (by intros [= <- <-]).
    all: try discriminate.
    all: intros [= <- <-] _.
    all: unfold getitem in Hget; destruct (dict_get "DBInstanceArn" instance) eqn:Harn;
      [|done]; injection Hget as ->.
    all: lazymatch goal with
         | Hk : res_map _ _ = inr ?keys |- _ =>
             eexists _, _, (Some _), keys; split_and!; [done|done| |]
         | _ => eexists _, _, None, []; split_and!; [done|done|done|]
         end.
    all: try (intros ? [= <-]; rewrite Hiter; exact Hkeys).
    all: simpl; rewrite Heqb; reflexivity.
  - intros p. cluster_run. run. all: try waited.
    all: by rewrite ?(forallb_app_idle _ _ _ idle_no_tag_call).
Qed.

Lemma instance_tags_replaced_witness :
  let client := holding example_instance (Some name_tag) in
  let p := example_task None false 0 in
  let r := Instance.reconcile client p (start 0 (Instance.wait_timeout p)) in
  (Rds.describe_db_instances client [] (Instance.instance_id p) =
     inr (Some [example_instance]) ∧
   r = (inr (VDict [("DBInstance", VDict example_instance)]), r.2) ∧
   forallb answered_ok (trace r.2) = true) ∧
  ∃ m arn listing keys,
    Instance.modify_args_of example_instance (Instance.api_args_of p) = inr m ∧
    dict_get "DBInstanceArn" example_instance = Some arn ∧
    (∀ TagList, listing = Some TagList →
       py_iter TagList ≫= res_map (λ t, subscript t "Key") = inr keys) ∧
    trace r.2 =
      Called (DescribeDBInstances (Instance.instance_id p))
        (inr (Resources (Some [example_instance]))) ::
      (if nonempty m
       then [Called (ModifyDBInstance (Instance.instance_id p)
                       (Instance.apply_immediately p) m)
               (inr (Response (VDict [("DBInstance", VDict example_instance)])))]
       else []) ++
      tag_calls arn listing keys (tag_list <$> Instance.tags p).
Proof.
  intros client p r.
  assert (Rds.describe_db_instances client [] (Instance.instance_id p) =
            inr (Some [example_instance])) as Hd by reflexivity.
  assert (r = (inr (VDict [("DBInstance", VDict example_instance)]), r.2)) as Hr
    by (vm_compute; reflexivity).
  assert (forallb answered_ok (trace r.2) = true) as Hok by (vm_compute; reflexivity).
  split; [by split_and!|].
  exact (proj1 (instance_tags_replaced client 0) p example_instance _ _ Hd Hr Hok).
Defined.

(** C9 as stated fails for a cluster: the desired tags go through the diff
    into the modify call, and no tag is listed, removed or added. *)
Lemma cluster_tags_counterexample :
  let r := Cluster.create_cluster (holding example_cluster (Some name_tag))
             (with_tags [("Name", "c1")]) (start 0 0) in
  trace r.2 =
    [Called (DescribeDBClusters "c1") (inr (Resources (Some [example_cluster])));
     Called (ModifyDBCluster "c1" {[ "Tags" := tag_list [("Name", "c1")] ]})
       (inr (Response (VStr "modified")))].
Proof. vm_compute. reflexivity. Qed.

(** C10.  In the diff of the instance module a desired attribute, other
    than the parameter group and the performance insights, whose key the
    fetched instance does not have is in the mutation set whenever there is
    one, and the call that follows the fetch is then the modify call that
    carries it: so on every run, whatever the remote state. *)
Theorem missing_attribute_always_modified client t0 p instance m opt val :
  Rds.describe_db_instances client [] (Instance.instance_id p) = inr (Some [instance]) →
  Instance.api_args_of p !! opt = Some val →
  opt ≠ "DBParameterGroupName" → opt ≠ "EnablePerformanceInsights" →
  dict_get opt instance = None →
  Instance.modify_args_of instance (Instance.api_args_of p) = inr m →
  m !! opt = Some val ∧
  ∃ a, trace (Instance.create_db_instance client p
                (start t0 (Instance.wait_timeout p))).2 !! 1%nat =
       Some (Called (ModifyDBInstance (Instance.instance_id p)
                       (Instance.apply_immediately p) m) a).
Proof.
  intros Hd Hopt Hpg Hpi Hmiss Hm.
  assert (m !! opt = Some val) as Hin.
  { apply (instance_modify_args _ _ _ Hm). split; [done|]. by apply attribute_missing. }
  split; [done|].
  instance_run. exec. rewrite Hd. exec. simpl. exec. rewrite Hm. exec.
  rewrite (nonempty_lookup _ _ _ Hin). run.
  all: try waited; by eexists.
Qed.

Lemma missing_attribute_always_modified_witness :
  let client := holding example_instance (Some name_tag) in
  let p := example_task (Some 0) false 0 in
  let m : gmap string value := {[ "MonitoringInterval" := VInt 0 ]} in
  (Rds.describe_db_instances client [] (Instance.instance_id p) =
     inr (Some [example_instance]) ∧
   Instance.api_args_of p !! "MonitoringInterval" = Some (VInt 0) ∧
   "MonitoringInterval" ≠ "DBParameterGroupName" ∧
   "MonitoringInterval" ≠ "EnablePerformanceInsights" ∧
   dict_get "MonitoringInterval" example_instance = None ∧
   Instance.modify_args_of example_instance (Instance.api_args_of p) = inr m) ∧
  m !! "MonitoringInterval" = Some (VInt 0) ∧
  ∃ a, trace (Instance.create_db_instance client p
                (start 0 (Instance.wait_timeout p))).2 !! 1%nat =
       Some (Called (ModifyDBInstance (Instance.instance_id p)
                       (Instance.apply_immediately p) m) a).
Proof.
  intros client p m.
  assert (Rds.describe_db_instances client [] (Instance.instance_id p) =
            inr (Some [example_instance])) as Hd by reflexivity.
  assert (Instance.api_args_of p !! "MonitoringInterval" = Some (VInt 0)) as Ho
    by (vm_compute; reflexivity).
  assert ("MonitoringInterval" ≠ "DBParameterGroupName") as Hpg by discriminate.
  assert ("MonitoringInterval" ≠ "EnablePerformanceInsights") as Hpi by discriminate.
  assert (dict_get "MonitoringInterval" example_instance = None) as Hn by reflexivity.
  assert (Instance.modify_args_of example_instance (Instance.api_args_of p) = inr m) as Hm
    by (vm_compute; reflexivity).
  split; [by split_and!|].
  exact (missing_attribute_always_modified client 0 p example_instance m
           "MonitoringInterval" (VInt 0) Hd Ho Hpg Hpi Hn Hm).
Defined.

(** ** Further properties of the two modules *)

Lemma res_fold_unchanged {A B} (f : B → A → res B) (l : list A) (b : B) :
  (∀ x, x ∈ l → f b x = inr b) → res_fold f b l = inr b.
Proof.
  induction l as [|x l IH]; intros H; [done|]. simpl.
  rewrite H by (by left). simpl. apply IH. intros y Hy. apply H. by right.
Qed.

Lemma res_fold_raises {A B} (f : B → A → res B) (l : list A) (x : A) :
  x ∈ l → (∀ b, ∃ e, f b x = inl e) → ∀ b, ∃ e, res_fold f b l = inl e.
Proof.
  intros Hx Hf. induction l as [|y l IH]; intros b; [by apply elem_of_nil in Hx|].
  simpl. apply elem_of_cons in Hx as [<-|Hx].
  - destruct (Hf b) as [e ->]. by exists e.
  - destruct (f b y) as [e|b']; [by exists e|]. simpl. by apply IH.
Qed.

Lemma forallb_elem_of {A} (f : A → bool) (l : list A) x :
  forallb f l = true → x ∈ l → f x = true.
Proof.
  intros H Hx. induction Hx as [x l|x y l Hx IH]; simpl in H;
    apply andb_true_iff in H as [? ?]; auto.
Qed.

Lemma cluster_converged_diff cluster api_args :
  cluster_converged cluster api_args = true →
  Cluster.modify_args_of cluster api_args = inr ∅.
Proof.
  intros Hc. unfold Cluster.modify_args_of. apply res_fold_unchanged.
  intros [opt val] Hin. apply (forallb_elem_of _ _ _ Hc) in Hin. simpl in *.
  unfold cluster_agrees in Hin. unfold Cluster.modify_entry.
  destruct (String.eqb opt "VpcSecurityGroupIds").
  - destruct (Cluster.attached_groups cluster) as [|attached]; [done|].
    destruct (py_iter val) as [|wanted]; [done|]. simpl.
    by apply negb_true_iff in Hin as ->.
  - unfold getitem. destruct (dict_get opt cluster) as [current|]; [|done]. simpl.
    unfold py_ne. by rewrite Hin.
Qed.

Lemma instance_converged_diff instance api_args :
  instance_converged instance api_args = true →
  Instance.modify_args_of instance api_args = inr ∅.
Proof.
  intros Hc. unfold Instance.modify_args_of. apply res_fold_unchanged.
  intros [opt val] Hin. apply (forallb_elem_of _ _ _ Hc) in Hin. simpl in *.
  unfold instance_agrees in Hin. unfold Instance.modify_entry.
  destruct (String.eqb opt "DBParameterGroupName").
  { destruct (Instance.parameter_groups instance) as [|names]; [done|]. simpl.
    unfold py_ne. by rewrite Hin. }
  destruct (String.eqb opt "EnablePerformanceInsights").
  { unfold getitem. destruct (dict_get _ instance) as [current|]; [|done]. simpl.
    unfold py_ne. by rewrite Hin. }
  destruct (dict_get opt instance) as [current|]; [|done].
  unfold py_ne. by rewrite Hin.
Qed.

(** X1.  Idempotence of the cluster module: when every desired attribute
    already has its value on the fetched cluster (the security groups up to
    order), the mutation set is empty, the run makes no call but describe
    calls, and without waiting it reports the fetched cluster verbatim
    after the fetch as only call. *)
Theorem converged_cluster_untouched client t0 p cluster :
  Rds.describe_db_clusters client [] (Cluster.cluster_id p) = inr (Some [cluster]) →
  cluster_converged cluster (Cluster.api_args_of p) = true →
  let r := Cluster.create_cluster client p (start t0 (Cluster.wait_timeout p)) in
  Cluster.modify_args_of cluster (Cluster.api_args_of p) = inr ∅ ∧
  forallb idle (trace r.2) = true ∧
  (Cluster.wait p = false →
   r.1 = inl (SystemExit (Result (VDict [("DBCluster", VDict cluster)]))) ∧
   trace r.2 = [Called (DescribeDBClusters (Cluster.cluster_id p))
                  (inr (Resources (Some [cluster])))]).
Proof.
  intros Hd Hc r. subst r. pose proof (cluster_converged_diff _ _ Hc) as Hm.
  split; [done|].
  cluster_run. exec. rewrite Hd. exec. simpl. exec. rewrite Hm. exec.
  rewrite nonempty_empty. exec. destruct (Cluster.wait_timeout p =? 0); exec.
  all: waited; split.
  all: try (rewrite forallb_app; simpl; exact Hidle).
  all: intros Hw; destruct (Hnowait Hw) as [-> ->]; done.
Qed.

Lemma converged_cluster_untouched_witness :
  let client := holding example_cluster None in
  let p := with_groups ["sg-2"; "sg-1"] false 0 in
  let r := Cluster.create_cluster client p (start 0 (Cluster.wait_timeout p)) in
  Cluster.modify_args_of example_cluster (Cluster.api_args_of p) = inr ∅ ∧
  forallb idle (trace r.2) = true ∧
  (Cluster.wait p = false →
   r.1 = inl (SystemExit (Result (VDict [("DBCluster", VDict example_cluster)]))) ∧
   trace r.2 = [Called (DescribeDBClusters "c1")
                  (inr (Resources (Some [example_cluster])))]).
Proof.
  intros client p r.
  apply (converged_cluster_untouched client 0 p example_cluster);
    [reflexivity|vm_compute; reflexivity].
Defined.

(** X2.  Idempotence of the instance module: when every desired attribute
    already has its value on the fetched instance, the mutation set is
    empty and the run makes no modify call. *)
Theorem converged_instance_untouched client t0 p instance :
  Rds.describe_db_instances client [] (Instance.instance_id p) = inr (Some [instance]) →
  instance_converged instance (Instance.api_args_of p) = true →
  let r := Instance.create_db_instance client p (start t0 (Instance.wait_timeout p)) in
  Instance.modify_args_of instance (Instance.api_args_of p) = inr ∅ ∧
  forallb (λ ev, negb (calls is_modify ev)) (trace r.2) = true.
Proof.
  intros Hd Hc r. subst r. pose proof (instance_converged_diff _ _ Hc) as Hm.
  split; [done|].
  instance_run. exec. rewrite Hd. exec. simpl. exec. rewrite Hm. exec.
  rewrite nonempty_empty. run. all: try waited.
  all: rewrite ?(forallb_app_idle _ _ _ idle_no_modify) by done; simpl; known; done.
Qed.

Lemma converged_instance_untouched_witness :
  let client := holding example_instance (Some name_tag) in
  let p := example_task None false 1200 in
  let r := Instance.create_db_instance client p (start 0 (Instance.wait_timeout p)) in
  Instance.modify_args_of example_instance (Instance.api_args_of p) = inr ∅ ∧
  forallb (λ ev, negb (calls is_modify ev)) (trace r.2) = true.
Proof.
  intros client p r.
  apply (converged_instance_untouched client 0 p example_instance);
    [reflexivity|vm_compute; reflexivity].
Defined.

(** X3.  The diff loop of the cluster module reads [cluster[opt]] unguarded:
    when the fetched cluster lacks the key of a desired attribute other
    than the security groups, the run ends in an exception nothing handles,
    with the fetch as only call. *)
Theorem cluster_missing_attribute_crashes client t0 p cluster opt val :
  Rds.describe_db_clusters client [] (Cluster.cluster_id p) = inr (Some [cluster]) →
  Cluster.api_args_of p !! opt = Some val →
  opt ≠ "VpcSecurityGroupIds" →
  dict_get opt cluster = None →
  let r := Cluster.create_cluster client p (start t0 (Cluster.wait_timeout p)) in
  (∃ e, r.1 = inl e ∧ is_crash e = true) ∧
  trace r.2 = [Called (DescribeDBClusters (Cluster.cluster_id p))
                 (inr (Resources (Some [cluster])))].
Proof.
  intros Hd Hopt Hne Hget r. subst r.
  destruct (res_fold_raises (λ m kv, Cluster.modify_entry cluster m kv.1 kv.2)
              (map_to_list (Cluster.api_args_of p)) (opt, val)) with (b := (∅ : gmap string value))
    as [e He].
  { by apply elem_of_map_to_list. }
  { intros m. simpl. unfold Cluster.modify_entry.
    apply String.eqb_neq in Hne. rewrite Hne. unfold getitem. rewrite Hget.
    by eexists. }
  fold (Cluster.modify_args_of cluster (Cluster.api_args_of p)) in He.
  pose proof (cluster_modify_args_crashes _ _ _ He) as Hcrash.
  cluster_run. exec. rewrite Hd. exec. simpl. exec. rewrite He. exec.
  destruct e; try discriminate Hcrash; exec; (split; [by eexists|done]).
Qed.

Lemma cluster_missing_attribute_crashes_witness :
  let cluster := [("DBClusterIdentifier", VStr "c1"); ("Status", VStr "available")] in
  let p := with_tags [("Name", "db")] in
  let r := Cluster.create_cluster (holding cluster None) p
             (start 0 (Cluster.wait_timeout p)) in
  (∃ e, r.1 = inl e ∧ is_crash e = true) ∧
  trace r.2 = [Called (DescribeDBClusters "c1") (inr (Resources (Some [cluster])))].
Proof.
  intros cluster p r.
  apply (cluster_missing_attribute_crashes (holding cluster None) 0 p cluster "Tags"
           (tag_list [("Name", "db")])); [reflexivity|vm_compute; reflexivity|done|reflexivity].
Defined.

(** X4.  When the initial fetch returns but does not hold exactly one
    resource, the run fails with "Failed to retrieve details ..." and makes
    no other call. *)
Theorem fetch_without_single_resource client t0 :
  (∀ p found,
     Rds.describe_db_clusters client [] (Cluster.cluster_id p) = inr found →
     the_one found = None →
     let r := Cluster.create_cluster client p (start t0 (Cluster.wait_timeout p)) in
     r.1 = inl (SystemExit (Failed "Failed to retrieve details for existing cluster")) ∧
     trace r.2 = [Called (DescribeDBClusters (Cluster.cluster_id p))
                    (inr (Resources found))]) ∧
  (∀ p found,
     Rds.describe_db_instances client [] (Instance.instance_id p) = inr found →
     the_one found = None →
     let r := Instance.create_db_instance client p (start t0 (Instance.wait_timeout p)) in
     r.1 = inl (SystemExit
                  (Failed "Failed to retrieve details for existing database instance")) ∧
     trace r.2 = [Called (DescribeDBInstances (Instance.instance_id p))
                    (inr (Resources found))]).
Proof.
  split; intros p found Hd Hone r; subst r.
  - cluster_run. exec. rewrite Hd. exec. rewrite Hone. by exec.
  - instance_run. exec. rewrite Hd. exec. rewrite Hone. by exec.
Qed.

Lemma fetch_without_single_resource_witness :
  let client := instant (inr (Some [])) in
  let p := Cluster.defaults "c1" "sg1" in
  let r := Cluster.create_cluster client p (start 0 (Cluster.wait_timeout p)) in
  r.1 = inl (SystemExit (Failed "Failed to retrieve details for existing cluster")) ∧
  trace r.2 = [Called (DescribeDBClusters "c1") (inr (Resources (Some [])))].
Proof.
  intros client p r.
  apply (proj1 (fetch_without_single_resource client 0) p (Some []));
    reflexivity.
Defined.

(** X5.  The handler of the initial fetch also covers the modify call: a
    modify call that raises the not-found code is followed by a creation
    call, and one that raises any other code ends the run with the message
    of the error and the desired arguments, after the fetch and the modify
    call. *)
Theorem modify_error_decides client t0 :
  (∀ p cluster m e,
     let fetch := Called (DescribeDBClusters (Cluster.cluster_id p))
                    (inr (Resources (Some [cluster]))) in
     let change := Called (ModifyDBCluster (Cluster.cluster_id p) m) (inl e) in
     Rds.describe_db_clusters client [] (Cluster.cluster_id p) = inr (Some [cluster]) →
     Cluster.modify_args_of cluster (Cluster.api_args_of p) = inr m →
     nonempty m = true →
     Rds.modify_db_cluster client [fetch] (Cluster.cluster_id p) m = inl e →
     let r := Cluster.create_cluster client p (start t0 (Cluster.wait_timeout p)) in
     if String.eqb (code e) "DBClusterNotFoundFault" then
       ∃ c a t, trace r.2 = [fetch; change; Called c a] ++ t ∧ is_creation c = true ∧
                forallb idle t = true
     else
       r.1 = inl (SystemExit (FailedApi (message e) (Cluster.api_args_of p))) ∧
       trace r.2 = [fetch; change]) ∧
  (∀ p instance m e,
     let fetch := Called (DescribeDBInstances (Instance.instance_id p))
                    (inr (Resources (Some [instance]))) in
     let change := Called (ModifyDBInstance (Instance.instance_id p)
                             (Instance.apply_immediately p) m) (inl e) in
     Rds.describe_db_instances client [] (Instance.instance_id p) = inr (Some [instance]) →
     Instance.modify_args_of instance (Instance.api_args_of p) = inr m →
     nonempty m = true →
     Rds.modify_db_instance client [fetch] (Instance.instance_id p)
       (Instance.apply_immediately p) m = inl e →
     let r := Instance.create_db_instance client p (start t0 (Instance.wait_timeout p)) in
     if String.eqb (code e) "DBInstanceNotFound" then
       ∃ c a t, trace r.2 = [fetch; change; Called c a] ++ t ∧ is_creation c = true ∧
                forallb idle t = true
     else
       r.1 = inl (SystemExit (FailedApi (message e) (Instance.api_args_of p))) ∧
       trace r.2 = [fetch; change]).
Proof.
  split.
  - intros p cluster m e fetch change Hd Hm Hn He r. subst r fetch change.
    cluster_run. exec. rewrite Hd. exec. simpl. exec. rewrite Hm. exec. rewrite Hn. exec.
    rewrite He. exec.
    destruct (String.eqb (code e) "DBClusterNotFoundFault"); [|by exec].
    run. all: try waited. all: by eexists _, _, _.
  - intros p instance m e fetch change Hd Hm Hn He r. subst r fetch change.
    instance_run. exec. rewrite Hd. exec. simpl. exec. rewrite Hm. exec. rewrite Hn. exec.
    rewrite He. exec.
    destruct (String.eqb (code e) "DBInstanceNotFound"); [|by exec].
    run. all: try waited. all: by eexists _, _, _.
Qed.

Lemma modify_error_decides_witness :
  let e := Error "InvalidParameterCombination" "cannot modify" in
  let client := scripted (λ _, inr (Some [example_cluster]))
                  (λ _, inr (Some [example_instance])) (inl e) None in
  let p := with_groups ["sg-9"] false 0 in
  let m : gmap string value := {[ "VpcSecurityGroupIds" := strs ["sg-9"] ]} in
  let r := Cluster.create_cluster client p (start 0 (Cluster.wait_timeout p)) in
  r.1 = inl (SystemExit (FailedApi "cannot modify" (Cluster.api_args_of p))) ∧
  trace r.2 = [Called (DescribeDBClusters "c1") (inr (Resources (Some [example_cluster])));
               Called (ModifyDBCluster "c1" m) (inl e)].
Proof.
  intros e client p m r.
  apply (proj1 (modify_error_decides client 0) p example_cluster m e);
    [reflexivity|vm_compute; reflexivity|vm_compute; reflexivity|reflexivity].
Defined.

(** While every describe call raises, the loop binds nothing. *)
Lemma wait_loop_unbound client k name deadline fuel : ∀ s,
  (∀ h, ∃ e, ask client k h name = inl e) →
  check (wait_loop client fuel k name deadline s).2 = check s.
Proof.
  induction fuel as [|fuel IH]; intros s H; [done|].
  simpl. exec. destruct (deadline >? now s); [|done].
  unfold poll. exec. rewrite describe_run. destruct (H (trace s)) as [e ->]. exec.
  rewrite IH by done. done.
Qed.

Lemma failing_still_waiting client k name :
  (∀ h, ∃ e, ask client k h name = inl e) →
  ∀ h, still_waiting k (ask client k h name) = true.
Proof. intros H h. by destruct (H h) as [e ->]. Qed.

Lemma wait_and_exit_unbound client k name result s :
  check s = None →
  (∀ h, ∃ e, ask client k h name = inl e) →
  ∃ t s', wait_and_exit client k name true result s =
            (inl (UnboundLocalError (check_name k)), s') ∧
          trace s' = trace s ++ t ∧ forallb idle t = true.
Proof.
  intros Hc H. unfold wait_and_exit. exec.
  pose proof (wait_loop_unbound client k name (now s + 1000 * timeout s)
                (rounds (now s + 1000 * timeout s) (now s)) s H) as Hu.
  destruct (wait_loop_run client k name (now s + 1000 * timeout s)
              (rounds (now s + 1000 * timeout s) (now s)) s)
    as (r & t & s1 & Hrun & _ & Ht & Hi & _ & _ & _ & _ & Hs); [by right|].
  rewrite Hrun in Hu |- *. simpl in Hu.
  destruct (Hs (failing_still_waiting _ _ _ H)) as (-> & Hlate & _). exec.
  apply Z.leb_le in Hlate. rewrite Hlate. exec. rewrite Hu, Hc. exec.
  by exists t, s1.
Qed.

(** X6.  After a successful creation with [wait], when every describe call
    raises, the run does not report a timeout: the variable the report
    reads was never bound, and the run ends in UnboundLocalError. *)
Theorem created_never_described_unbound client t0 :
  (∀ p e0,
     Rds.describe_db_clusters client [] (Cluster.cluster_id p) = inl e0 →
     code e0 = "DBClusterNotFoundFault" →
     (∀ h, ∃ e, Rds.describe_db_clusters client h (Cluster.cluster_id p) = inl e) →
     (∀ h a, ∃ v, Rds.restore_db_cluster_from_snapshot client h a = inr v) →
     (∀ h a, ∃ v, Rds.create_db_cluster client h a = inr v) →
     Cluster.wait p = true →
     let r := Cluster.create_cluster client p (start t0 (Cluster.wait_timeout p)) in
     r.1 = inl (UnboundLocalError "check_cluster") ∧
     existsb (calls is_creation) (trace r.2) = true) ∧
  (∀ p e0,
     Rds.describe_db_instances client [] (Instance.instance_id p) = inl e0 →
     code e0 = "DBInstanceNotFound" →
     (∀ h, ∃ e, Rds.describe_db_instances client h (Instance.instance_id p) = inl e) →
     (∀ h a, ∃ v, Rds.create_db_instance client h a = inr v) →
     Instance.wait p = true →
     let r := Instance.create_db_instance client p (start t0 (Instance.wait_timeout p)) in
     r.1 = inl (UnboundLocalError "check_instance") ∧
     existsb (calls is_creation) (trace r.2) = true).
Proof.
  split.
  - intros p e0 Hd Hnf Hall Hrestore Hcreate Hw r. subst r.
    cluster_run. exec. rewrite Hd. exec. rewrite Hnf. simpl. exec.
    destruct (Cluster.snapshot_arn p) as [arn|]; exec.
    + match goal with
      | |- context [Rds.restore_db_cluster_from_snapshot _ ?h ?a] =>
          destruct (Hrestore h a) as [v ->]
      end.
      exec. rewrite Hw.
      destruct (Cluster.wait_timeout p =? 0); exec.
      all: match goal with
           | |- context [wait_and_exit _ ?k ?n true ?v ?s] =>
               destruct (wait_and_exit_unbound client k n v s eq_refl Hall)
                 as (t & s' & -> & Ht & _)
           end.
      all: simpl in *; by rewrite Ht.
    + match goal with
      | |- context [Rds.create_db_cluster _ ?h ?a] =>
          destruct (Hcreate h a) as [v ->]
      end.
      exec. rewrite Hw.
      destruct (Cluster.wait_timeout p =? 0); exec.
      all: match goal with
           | |- context [wait_and_exit _ ?k ?n true ?v ?s] =>
               destruct (wait_and_exit_unbound client k n v s eq_refl Hall)
                 as (t & s' & -> & Ht & _)
           end.
      all: simpl in *; by rewrite Ht.
  - intros p e0 Hd Hnf Hall Hcreate Hw r. subst r.
    instance_run. exec. rewrite Hd. exec. rewrite Hnf. simpl. exec.
    match goal with
    | |- context [Rds.create_db_instance _ ?h ?a] =>
        destruct (Hcreate h a) as [v ->]
    end.
    exec. rewrite Hw.
    match goal with
    | |- context [wait_and_exit _ ?k ?n true ?v ?s] =>
        destruct (wait_and_exit_unbound client k n v s eq_refl Hall)
          as (t & s' & -> & Ht & _)
    end.
    simpl in *; by rewrite Ht.
Qed.

Lemma created_never_described_unbound_witness :
  let client := empty_account (inr (VStr "created")) in
  let p := with_groups ["sg-1"] true 0 in
  let r := Cluster.create_cluster client p (start 0 (Cluster.wait_timeout p)) in
  r.1 = inl (UnboundLocalError "check_cluster") ∧
  existsb (calls is_creation) (trace r.2) = true.
Proof.
  intros client p r.
  apply (proj1 (created_never_described_unbound client 0) p
           (Error "DBClusterNotFoundFault" "DBCluster c1 not found")).
  - reflexivity.
  - reflexivity.
  - intros h. eexists. reflexivity.
  - intros h a. eexists. reflexivity.
  - intros h a. eexists. reflexivity.
  - reflexivity.
Defined.

(** X7.  When the first poll finds the status "available" in any case, the
    wait makes this one call and does not sleep; the run reports its result
    unless the answer came at or after the deadline, in which case it
    reports the timeout with the resource just described. *)
Theorem first_poll_available client k name result s c status :
  ask client k (trace s) name = inr (Some [c]) →
  dict_get (status_key k) c = Some (VStr status) →
  lower status = "available" →
  0 < timeout s →
  let lat := Z.of_N (Rds.latency client (trace s) (describe_call k name)) in
  let r := wait_and_exit client k name true result s in
  r.1 = inl (SystemExit (if 1000 * timeout s <=? lat
                         then FailedWait (timeout_msg k) (VDict c)
                         else Result result)) ∧
  trace r.2 = trace s ++ [Called (describe_call k name) (inr (Resources (Some [c])))].
Proof.
  intros Hask Hst Hlow Hpos lat r. subst r lat.
  unfold wait_and_exit, rounds. exec.
  rewrite Nat.add_comm. simpl. exec.
  assert ((now s + 1000 * timeout s >? now s) = true) as -> by lia.
  unfold poll. exec. rewrite describe_run, Hask. exec. simpl. exec.
  unfold getitem. rewrite Hst. simpl. exec. rewrite Hlow. simpl. exec.
  set (lat := Z.of_N _).
  destruct (Z.leb_spec (1000 * timeout s) lat);
    destruct (Z.leb_spec (now s + 1000 * timeout s) (now s + lat)); try lia; by exec.
Qed.

Lemma first_poll_available_witness :
  let c := [("Status", VStr "Available")] in
  let client := holding c None in
  let r := wait_and_exit client DBCluster "c1" true (VStr "created") (start 0 600) in
  r.1 = inl (SystemExit (Result (VStr "created"))) ∧
  trace r.2 = [Called (DescribeDBClusters "c1") (inr (Resources (Some [c])))].
Proof.
  intros c client r.
  apply (first_poll_available client DBCluster "c1" (VStr "created") (start 0 600) c
           "Available"); [reflexivity|reflexivity|vm_compute; reflexivity|simpl; lia].
Defined.

(** X8.  The loop swallows gateway errors only: a poll that returns one
    resource without a status raises KeyError, one whose status is not a
    string raises AttributeError, and the run ends there. *)
Theorem malformed_poll_crashes client k name result s c :
  ask client k (trace s) name = inr (Some [c]) →
  (∀ status, dict_get (status_key k) c ≠ Some (VStr status)) →
  0 < timeout s →
  let r := wait_and_exit client k name true result s in
  r.1 = inl (match dict_get (status_key k) c with
             | None => KeyError (status_key k)
             | Some _ => AttributeError
             end) ∧
  trace r.2 = trace s ++ [Called (describe_call k name) (inr (Resources (Some [c])))].
Proof.
  intros Hask Hst Hpos r. subst r.
  unfold wait_and_exit, rounds. exec.
  rewrite Nat.add_comm. simpl. exec.
  assert ((now s + 1000 * timeout s >? now s) = true) as -> by lia.
  unfold poll. exec. rewrite describe_run, Hask. exec. simpl. exec.
  unfold getitem.
  destruct (dict_get (status_key k) c) as [[]|]; simpl; exec; try done.
  by destruct (Hst s0).
Qed.

Lemma malformed_poll_crashes_witness :
  let c := [("DBClusterIdentifier", VStr "c1")] in
  let r := wait_and_exit (holding c None) DBCluster "c1" true (VStr "created")
             (start 0 600) in
  r.1 = inl (KeyError "Status") ∧
  trace r.2 = [Called (DescribeDBClusters "c1") (inr (Resources (Some [c])))].
Proof.
  intros c r.
  apply (malformed_poll_crashes (holding c None) DBCluster "c1" (VStr "created")
           (start 0 600) c); [reflexivity|intros status; discriminate|simpl; lia].
Defined.

(** *** How often the loop polls *)

Lemma polls_app t1 t2 : polls (t1 ++ t2) = (polls t1 + polls t2)%nat.
Proof. unfold polls. by rewrite List.filter_app, length_app. Qed.

Lemma wait_loop_polls client k name deadline fuel : ∀ s,
  ∃ t, trace (wait_loop client fuel k name deadline s).2 = trace s ++ t ∧
    Z.of_nat (polls t) ≤ Z.max 0 ((deadline - now s + 4999) / 5000) ∧
    (enough fuel deadline (now s) →
     (∀ h, still_waiting k (ask client k h name) = true) →
     (∀ h c, Rds.latency client h c = 0%N) →
     Z.of_nat (polls t) = Z.max 0 ((deadline - now s + 4999) / 5000)).
Proof.
  induction fuel as [|fuel IH]; intros s.
  { exists []. simpl. rewrite app_nil_r. change (polls []) with 0%nat.
    split_and!; [done|lia|]. intros [[_ ?]|?]; lia. }
  simpl. exec. destruct (deadline >? now s) eqn:Hlate.
  2:{ exists []. simpl. rewrite app_nil_r. change (polls []) with 0%nat.
      split; [done|].
      assert ((deadline - now s + 4999) / 5000 < 1)
        by (apply Z.div_lt_upper_bound; lia).
      split; [lia|]. intros _ _ _. lia. }
  pose proof (poll_now client k name s) as Hnow.
  destruct (poll_run client k name s)
    as (r & s1 & Hp & Ht1 & _ & _ & Hn1 & _ & _ & Hs1).
  rewrite Hp in Hnow |- *. simpl in Hnow.
  assert (1 ≤ (deadline - now s + 4999) / 5000) as Hone.
  { apply Z.div_le_lower_bound; lia. }
  destruct r as [e|[]]; simpl.
  - exists [Called (describe_call k name) (answered Resources (ask client k (trace s) name))].
    split; [done|]. unfold polls. simpl. rewrite is_describe_call. simpl.
    split; [lia|]. intros _ H _. by specialize (Hs1 (H _)).
  - exists [Called (describe_call k name) (answered Resources (ask client k (trace s) name))].
    split; [done|]. unfold polls. simpl. rewrite is_describe_call. simpl.
    split; [lia|]. intros _ H _. by specialize (Hs1 (H _)).
  - exec.
    set (s2 := State (now s1 + 1000 * 5) (trace s1 ++ [Slept 5]) (api_args s1)
                     (check s1) (timeout s1)).
    destruct (IH s2) as (t & Ht & Hle & Heq).
    exists ([Called (describe_call k name) (answered Resources (ask client k (trace s) name));
             Slept 5] ++ t).
    split; [rewrite Ht; simpl; rewrite Ht1, <-!app_assoc; reflexivity|].
    rewrite polls_app.
    assert (polls [Called (describe_call k name)
                     (answered Resources (ask client k (trace s) name)); Slept 5] = 1%nat)
      as -> by (unfold polls; simpl; by rewrite is_describe_call).
    rewrite Nat2Z.inj_add. change (Z.of_nat 1) with 1.
    unfold s2 in Hle, Heq. cbn [now] in Hle, Heq.
    assert ((deadline - (now s1 + 1000 * 5) + 4999) / 5000 + 1 ≤
            (deadline - now s + 4999) / 5000) as Hstep.
    { replace (deadline - now s + 4999) with
        ((deadline - (now s1 + 1000 * 5) + 4999) + (now s1 - now s) + 1 * 5000) by lia.
      rewrite Z.div_add by lia.
      assert ((deadline - (now s1 + 1000 * 5) + 4999) / 5000 ≤
              ((deadline - (now s1 + 1000 * 5) + 4999) + (now s1 - now s)) / 5000); [|lia].
      apply Z.div_le_mono; lia. }
    split; [lia|].
    intros Hfuel Hwait Hzero. rewrite Hzero in Hnow.
    assert (now s1 = now s) as Hsame by lia.
    rewrite Heq; [| |done|done].
    + rewrite Hsame.
      assert ((deadline - now s + 4999) / 5000 =
              (deadline - (now s + 1000 * 5) + 4999) / 5000 + 1) as Hdiv.
      { replace (deadline - now s + 4999) with
          ((deadline - (now s + 1000 * 5) + 4999) + 1 * 5000) by lia.
        by rewrite Z.div_add by lia. }
      lia.
    + unfold enough in *. rewrite Hsame.
      destruct (decide (deadline ≤ now s + 1000 * 5)) as [Hd|Hd].
      * left. split; [done|]. destruct Hfuel as [[? _]|?]; lia.
      * right. destruct Hfuel as [[? _]|Hfuel]; [lia|].
        assert ((deadline - (now s + 1000 * 5)) / 5000 + 1 = (deadline - now s) / 5000).
        { replace (deadline - now s) with
            ((deadline - (now s + 1000 * 5)) + 1 * 5000) by lia.
          by rewrite Z.div_add by lia. }
        assert (0 ≤ (deadline - (now s + 1000 * 5)) / 5000) by (apply Z.div_pos; lia).
        lia.
Qed.

Lemma seconds_rounds T : (1000 * T + 4999) / 5000 = (T + 4) / 5.
Proof.
  symmetry. apply Z.div_unique with (r := 1000 * ((T + 4) mod 5) + 999).
  - left. pose proof (Z.mod_pos_bound (T + 4) 5). lia.
  - pose proof (Z.div_mod (T + 4) 5). lia.
Qed.

(** X9.  A wait of [T] seconds makes at most the ceiling of [T / 5]
    describe calls, and exactly as many when the gateway answers at once
    and no answer lets the loop stop. *)
Theorem polls_bounded client k name result s :
  let r := wait_and_exit client k name true result s in
  ∃ t, trace r.2 = trace s ++ t ∧
    Z.of_nat (polls t) ≤ Z.max 0 ((timeout s + 4) / 5) ∧
    ((∀ h, still_waiting k (ask client k h name) = true) →
     (∀ h c, Rds.latency client h c = 0%N) →
     Z.of_nat (polls t) = Z.max 0 ((timeout s + 4) / 5)).
Proof.
  intros r. subst r. unfold wait_and_exit. exec.
  destruct (wait_loop_polls client k name (now s + 1000 * timeout s)
              (rounds (now s + 1000 * timeout s) (now s)) s) as (t & Ht & Hle & Heq).
  replace (now s + 1000 * timeout s - now s + 4999) with (1000 * timeout s + 4999)
    in Hle, Heq by lia.
  rewrite seconds_rounds in Hle, Heq.
  exists t. split; [|split; [done|]].
  - destruct (wait_loop _ _ _ _ _ s) as [[e|[]] s1]; exec; [done|].
    simpl in Ht. destruct (_ <=? _); exec; [|done]. by destruct (check s1); exec.
  - intros Hwait Hzero. apply Heq; [by right|done|done].
Qed.

Lemma polls_bounded_witness :
  let client := instant (inr (Some [example_cluster])) in
  let r := wait_and_exit client DBCluster "c1" true (VStr "created") (start 0 12) in
  ∃ t, trace r.2 = t ∧ Z.of_nat (polls t) = 3.
Proof.
  intros client r.
  destruct (polls_bounded client DBCluster "c1" (VStr "created") (start 0 12))
    as (t & Ht & _ & Heq).
  exists t. split; [exact Ht|].
  apply Heq; [intros h; reflexivity|intros h c; reflexivity].
Defined.

Lemma instance_api_args_keys p k :
  k ∉ ["DBInstanceClass"; "AvailabilityZone"; "PreferredMaintenanceWindow";
       "DBParameterGroupName"; "MultiAZ"; "AutoMinorVersionUpgrade"; "OptionGroupName";
       "PubliclyAccessible"; "CopyTagsToSnapshot"; "MonitoringInterval";
       "MonitoringRoleArn"; "PromotionTier"; "EnablePerformanceInsights";
       "EnableCloudwatchLogsExports"] →
  Instance.api_args_of p !! k = None.
Proof.
  rewrite !not_elem_of_cons.
  intros (? & ? & ? & ? & ? & ? & ? & ? & ? & ? & ? & ? & ? & ? & _).
  unfold Instance.api_args_of. rewrite !lookup_given_ne by done. apply lookup_empty.
Qed.

(** X10.  When the initial fetch of an instance raises the not-found code,
    the next call is the creation call, followed only by the describe calls
    and sleeps of the wait.  Its arguments are the identifier, the cluster,
    engine, subnet group and tags that are set (the tags as a list of Key
    and Value pairs), and each desired attribute the task sets, under its
    key and with its value; nothing else. *)
Theorem instance_not_found_creates client t0 p e :
  Rds.describe_db_instances client [] (Instance.instance_id p) = inl e →
  code e = "DBInstanceNotFound" →
  let r := Instance.create_db_instance client p (start t0 (Instance.wait_timeout p)) in
  ∃ args a t,
    trace r.2 = [Called (DescribeDBInstances (Instance.instance_id p)) (inl e);
                 Called (CreateDBInstance args) a] ++ t ∧
    forallb idle t = true ∧
    args !! "DBInstanceIdentifier" = Some (VStr (Instance.instance_id p)) ∧
    args !! "DBClusterIdentifier" = VStr <$> Instance.cluster_id p ∧
    args !! "Engine" = VStr <$> Instance.engine p ∧
    args !! "DBSubnetGroupName" = VStr <$> Instance.subnet_group p ∧
    args !! "Tags" =
      (λ tags, VList ((λ kv, VDict [("Key", VStr kv.1); ("Value", VStr kv.2)]) <$> tags))
        <$> Instance.tags p ∧
    args !! "DBInstanceClass" = VStr <$> Instance.instance_type p ∧
    args !! "AvailabilityZone" = VStr <$> Instance.availability_zone p ∧
    args !! "PreferredMaintenanceWindow" =
      VStr <$> Instance.preferred_maintenance_window p ∧
    args !! "DBParameterGroupName" = VStr <$> Instance.parameter_group p ∧
    args !! "MultiAZ" = VBool <$> Instance.multi_az p ∧
    args !! "AutoMinorVersionUpgrade" = VBool <$> Instance.auto_minor_version_upgrade p ∧
    args !! "OptionGroupName" = VStr <$> Instance.option_group p ∧
    args !! "PubliclyAccessible" = VBool <$> Instance.publicly_accessible p ∧
    args !! "CopyTagsToSnapshot" = VBool <$> Instance.copy_tags_to_snapshot p ∧
    args !! "MonitoringInterval" = VInt <$> Instance.monitoring_interval p ∧
    args !! "MonitoringRoleArn" = VStr <$> Instance.monitoring_role_arn p ∧
    args !! "PromotionTier" = VInt <$> Instance.promotion_tier p ∧
    args !! "EnablePerformanceInsights" = VBool <$> Instance.performance_insights p ∧
    args !! "EnableCloudwatchLogsExports" = VStr <$> Instance.cloudwatch_logs_exports p ∧
    (∀ k, k ∉ ["DBInstanceIdentifier"; "DBClusterIdentifier"; "Engine";
               "DBSubnetGroupName"; "Tags"; "DBInstanceClass"; "AvailabilityZone";
               "PreferredMaintenanceWindow"; "DBParameterGroupName"; "MultiAZ";
               "AutoMinorVersionUpgrade"; "OptionGroupName"; "PubliclyAccessible";
               "CopyTagsToSnapshot"; "MonitoringInterval"; "MonitoringRoleArn";
               "PromotionTier"; "EnablePerformanceInsights";
               "EnableCloudwatchLogsExports"] →
          args !! k = None).
Proof.
  intros Hd Hnf r. subst r.
  assert (∀ k, k ∈ ["DBInstanceIdentifier"; "DBClusterIdentifier"; "Engine";
                    "DBSubnetGroupName"; "Tags"] →
               Instance.api_args_of p !! k = None) as Hnone.
  { intros k Hk. apply instance_api_args_keys.
    rewrite !elem_of_cons in Hk. rewrite !not_elem_of_cons.
    destruct Hk as [->|[->|[->|[->|[->|Hk]]]]]; [..|by apply elem_of_nil in Hk];
      split_and!; try done; apply not_elem_of_nil. }
  destruct (instance_api_args_lookup p)
    as (A1 & A2 & A3 & A4 & A5 & A6 & A7 & A8 & A9 & A10 & A11 & A12 & A13 & A14).
  instance_run. exec. rewrite Hd. exec. rewrite Hnf. simpl. exec.
  set (args := given "Tags" _ _).
  assert (∀ k, k ∉ ["DBInstanceIdentifier"; "DBClusterIdentifier"; "Engine";
                    "DBSubnetGroupName"; "Tags"] →
               args !! k = Instance.api_args_of p !! k) as Hrest.
  { intros k. rewrite !not_elem_of_cons. intros (? & ? & ? & ? & ? & _).
    subst args. by rewrite !lookup_given_ne, lookup_insert_ne. }
  assert (∀ k, k ∉ ["DBInstanceIdentifier"; "DBClusterIdentifier"; "Engine";
                    "DBSubnetGroupName"; "Tags"] ↔
               (k ≠ "DBInstanceIdentifier" ∧ k ≠ "DBClusterIdentifier" ∧ k ≠ "Engine" ∧
                k ≠ "DBSubnetGroupName" ∧ k ≠ "Tags")) as Hnot.
  { intros k. rewrite !not_elem_of_cons. pose proof (not_elem_of_nil k). tauto. }
  assert (args !! "DBInstanceIdentifier" = Some (VStr (Instance.instance_id p)) ∧
          args !! "DBClusterIdentifier" = VStr <$> Instance.cluster_id p ∧
          args !! "Engine" = VStr <$> Instance.engine p ∧
          args !! "DBSubnetGroupName" = VStr <$> Instance.subnet_group p ∧
          args !! "Tags" =
            (λ tags, VList ((λ kv, VDict [("Key", VStr kv.1); ("Value", VStr kv.2)])
                              <$> tags)) <$> Instance.tags p) as (I1 & I2 & I3 & I4 & I5).
  { subst args. split_and!.
    - rewrite !lookup_given_ne by done. apply lookup_insert_eq.
    - rewrite !lookup_given_ne, lookup_given by done.
      destruct (Instance.cluster_id p); [done|].
      rewrite lookup_insert_ne by done. apply Hnone. rewrite !elem_of_cons. eauto 10.
    - rewrite !lookup_given_ne, lookup_given by done.
      destruct (Instance.engine p); [done|].
      rewrite lookup_given_ne, lookup_insert_ne by done. apply Hnone.
      rewrite !elem_of_cons. eauto 10.
    - rewrite !lookup_given_ne, lookup_given by done.
      destruct (Instance.subnet_group p); [done|].
      rewrite !lookup_given_ne, lookup_insert_ne by done. apply Hnone.
      rewrite !elem_of_cons. eauto 10.
    - rewrite lookup_given. destruct (Instance.tags p); [done|].
      rewrite !lookup_given_ne, lookup_insert_ne by done. apply Hnone.
      rewrite !elem_of_cons. eauto 10. }
  assert (∀ k, k ∉ ["DBInstanceIdentifier"; "DBClusterIdentifier"; "Engine";
                    "DBSubnetGroupName"; "Tags"; "DBInstanceClass"; "AvailabilityZone";
                    "PreferredMaintenanceWindow"; "DBParameterGroupName"; "MultiAZ";
                    "AutoMinorVersionUpgrade"; "OptionGroupName"; "PubliclyAccessible";
                    "CopyTagsToSnapshot"; "MonitoringInterval"; "MonitoringRoleArn";
                    "PromotionTier"; "EnablePerformanceInsights";
                    "EnableCloudwatchLogsExports"] →
               args !! k = None) as Helse.
  { intros k. rewrite !not_elem_of_cons.
    intros (? & ? & ? & ? & ? & ? & ? & ? & ? & ? & ? & ? & ? & ? & ? & ? & ? & ? & ? & _).
    rewrite Hrest by (by apply Hnot). apply instance_api_args_keys.
    rewrite !not_elem_of_cons. split_and!; try done. apply not_elem_of_nil. }
  rewrite <-!Hrest in A1, A2, A3, A4, A5, A6, A7, A8, A9, A10, A11, A12, A13, A14
    by (by apply Hnot).
  clearbody args.
  destruct (Rds.create_db_instance _ _ _) as [e'|v] eqn:Hr; exec.
  - eexists args, _, []. by split_and!.
  - waited. eexists args, _, _. by split_and!.
Qed.

Lemma instance_not_found_creates_witness :
  let client := empty_account (inr (VStr "created")) in
  let p := full_instance_task in
  let e := Error "DBInstanceNotFound" "DBInstance i1 not found" in
  let r := Instance.create_db_instance client p (start 0 (Instance.wait_timeout p)) in
  ∃ args a t,
    trace r.2 = [Called (DescribeDBInstances "i1") (inl e);
                 Called (CreateDBInstance args) a] ++ t ∧
    args !! "DBInstanceIdentifier" = Some (VStr "i1") ∧
    args !! "DBClusterIdentifier" = Some (VStr "my-aurora-cluster") ∧
    args !! "Engine" = Some (VStr "aurora") ∧
    args !! "DBSubnetGroupName" = Some (VStr "my-db-subnet-group") ∧
    args !! "Tags" =
      Some (VList [VDict [("Key", VStr "Name"); ("Value", VStr "my-new-instance")]]) ∧
    args !! "DBInstanceClass" = Some (VStr "db.r4.large") ∧
    args !! "AvailabilityZone" = Some (VStr "us-east-1a") ∧
    args !! "PreferredMaintenanceWindow" = Some (VStr "sun:05:00-sun:06:00") ∧
    args !! "DBParameterGroupName" = Some (VStr "default.aurora5.6") ∧
    args !! "MultiAZ" = Some (VBool true) ∧
    args !! "AutoMinorVersionUpgrade" = Some (VBool false) ∧
    args !! "OptionGroupName" = Some (VStr "default:aurora-5-6") ∧
    args !! "PubliclyAccessible" = Some (VBool true) ∧
    args !! "CopyTagsToSnapshot" = Some (VBool false) ∧
    args !! "MonitoringInterval" = Some (VInt 60) ∧
    args !! "MonitoringRoleArn" = Some (VStr "arn:aws:iam::1234567890:role/monitor") ∧
    args !! "PromotionTier" = Some (VInt 1) ∧
    args !! "EnablePerformanceInsights" = Some (VBool true) ∧
    args !! "EnableCloudwatchLogsExports" = Some (VStr "audit").
Proof.
  intros client p e r.
  destruct (instance_not_found_creates client 0 p e eq_refl eq_refl)
    as (args & a & t & Ht & _ & H1 & H2 & H3 & H4 & H5 & H6 & H7 & H8 & H9 & H10 &
        H11 & H12 & H13 & H14 & H15 & H16 & H17 & H18 & H19 & _).
  exists args, a, t. split; [exact Ht|].
  split; [exact H1|]. split; [exact H2|]. split; [exact H3|]. split; [exact H4|].
  split; [exact H5|]. split; [exact H6|]. split; [exact H7|]. split; [exact H8|].
  split; [exact H9|]. split; [exact H10|]. split; [exact H11|]. split; [exact H12|].
  split; [exact H13|]. split; [exact H14|]. split; [exact H15|]. split; [exact H16|].
  split; [exact H17|]. split; [exact H18|]. exact H19.
Defined.

(** ** Properties of the snapshot search *)

Lemma dict_get_None k (d : list (string * value)) : dict_get k d = None ↔ k ∉ d.*1.
Proof.
  induction d as [|[k' v] d IH]; simpl.
  - split; [intros _; apply not_elem_of_nil|done].
  - rewrite not_elem_of_cons. destruct (String.eqb_spec k k') as [->|Hne].
    + split; [done|]. by intros [? _].
    + rewrite IH. tauto.
Qed.

Lemma dict_get_is_Some k (d : list (string * value)) : is_Some (dict_get k d) ↔ k ∈ d.*1.
Proof.
  rewrite <-not_eq_None_Some, dict_get_None.
  destruct (decide (k ∈ d.*1)); tauto.
Qed.

Lemma dict_get_app k (d e : list (string * value)) :
  dict_get k (d ++ e) =
    match dict_get k d with Some v => Some v | None => dict_get k e end.
Proof.
  induction d as [|[k' v] d IH]; simpl; [done|]. by destruct (String.eqb k k').
Qed.

Lemma read_fields snapshot (fs : list (string * string)) :
  match res_map (Snapshots.read snapshot) fs with
  | inr data => data.*1 = fs.*1 ∧ Forall (λ f, is_Some (dict_get f.2 snapshot)) fs
  | inl e => ∃ f, f ∈ fs ∧ dict_get f.2 snapshot = None ∧ e = KeyError f.2
  end.
Proof.
  induction fs as [|f fs IH]; [done|]. cbn [res_map]. unfold mbind, res_bind.
  destruct (Snapshots.read snapshot f) as [e|y] eqn:Hread.
  - exists f. split; [by left|]. unfold Snapshots.read, getitem in Hread.
    destruct (dict_get f.2 snapshot); simplify_eq/=. done.
  - assert (y.1 = f.1 ∧ is_Some (dict_get f.2 snapshot)) as [Hy Hsome].
    { unfold Snapshots.read, getitem in Hread.
      destruct (dict_get f.2 snapshot); simplify_eq/=. by split; [|eexists]. }
    destruct (res_map (Snapshots.read snapshot) fs) as [e|data].
    + destruct IH as (f' & ? & ? & ?). exists f'. split; [by right|done].
    + destruct IH as [IH ?]. split; [by rewrite !fmap_cons, IH, Hy|by constructor].
Qed.

Lemma optional_keys name key snapshot data k :
  k ≠ name → dict_get k (Snapshots.optional name key snapshot data) = dict_get k data.
Proof.
  intros Hk. unfold Snapshots.optional. destruct (dict_get key snapshot); [|done].
  rewrite dict_get_app. destruct (dict_get k data); [done|]. simpl.
  by apply String.eqb_neq in Hk as ->.
Qed.

Lemma optional_keeps name key snapshot data k :
  is_Some (dict_get k data) →
  dict_get k (Snapshots.optional name key snapshot data) = dict_get k data.
Proof.
  intros [v Hv]. unfold Snapshots.optional. destruct (dict_get key snapshot); [|done].
  by rewrite dict_get_app, Hv.
Qed.

(** What [data] holds: the eighteen keys of the dictionary display, and
    no key but these and the two optional ones. *)
Lemma data_of_keys snapshot data :
  Snapshots.data_of snapshot = inr data →
  well_formed snapshot = true ∧
  (∀ name, name ∈ Snapshots.fields.*1 → is_Some (dict_get name data)) ∧
  (∀ k, k ∉ Snapshots.fields.*1 → k ≠ "kms_key_id" →
        k ≠ "source_db_cluster_snapshot_arn" → dict_get k data = None).
Proof.
  unfold Snapshots.data_of. pose proof (read_fields snapshot Snapshots.fields) as H.
  revert H. destruct (res_map _ Snapshots.fields) as [e|d]; simpl; intros H; [done|].
  destruct H as [Hkeys Hwf]. intros [= <-]. split_and!.
  - unfold well_formed. apply forallb_forall. intros f Hf%list_elem_of_In.
    apply bool_decide_eq_true. by apply (proj1 (Forall_forall _ _) Hwf).
  - intros name Hname. rewrite <-Hkeys in Hname. apply dict_get_is_Some in Hname.
    assert (is_Some (dict_get name
              (Snapshots.optional "kms_key_id" "KmsKeyId" snapshot d))) as Hkms
      by (by rewrite optional_keeps).
    by rewrite optional_keeps.
  - intros k Hk ? ?. rewrite !optional_keys by done. apply dict_get_None. by rewrite Hkeys.
Qed.

Lemma data_of_total snapshot :
  well_formed snapshot = true → ∃ data, Snapshots.data_of snapshot = inr data.
Proof.
  intros Hwf. unfold Snapshots.data_of.
  pose proof (read_fields snapshot Snapshots.fields) as H.
  revert H. destruct (res_map _ Snapshots.fields) as [e|d]; simpl; intros H; [|by eexists].
  destruct H as (f & Hf & Hnone & _). exfalso.
  unfold well_formed in Hwf. rewrite forallb_forall in Hwf.
  apply list_elem_of_In, Hwf, bool_decide_eq_true in Hf. rewrite Hnone in Hf.
  by destruct Hf.
Qed.

Lemma data_of_raises snapshot e :
  Snapshots.data_of snapshot = inl e → ∃ k, e = KeyError k.
Proof.
  unfold Snapshots.data_of. pose proof (read_fields snapshot Snapshots.fields) as H.
  revert H. destruct (res_map _ Snapshots.fields) as [e'|d]; simpl; intros H; [|done].
  destruct H as (f & _ & _ & ->). intros [= <-]. by eexists.
Qed.

Lemma has_of_data key wanted data :
  is_Some (dict_get key data) →
  Snapshots.has key wanted data =
    inr match Snapshots.if_set wanted with
        | Some s =>
            match dict_get key data with Some v => py_eq v (VStr s) | None => false end
        | None => true
        end.
Proof.
  intros [v Hv]. unfold Snapshots.has, getitem. rewrite Hv.
  destruct (Snapshots.if_set wanted); simpl; [|done].
  unfold py_ne. by rewrite negb_involutive.
Qed.

Lemma in_fields name : name ∈ Snapshots.fields.*1 ↔ In name Snapshots.fields.*1.
Proof. apply list_elem_of_In. Qed.

(** The filters read keys [data] always has; only the match of an
    identifier that is no string raises. *)
Lemma kept_of_data regex p snapshot data :
  Snapshots.data_of snapshot = inr data →
  match Snapshots.kept regex p data with
  | inr keep => keep = selected regex p data
  | inl e => e = TypeError ∧ regex ≠ None ∧
             ∀ s, dict_get "snapshot_id" data ≠ Some (VStr s)
  end.
Proof.
  intros (_ & Hkeys & _)%data_of_keys.
  assert (is_Some (dict_get "snapshot_id" data)) as [id Hid]
    by (apply Hkeys, in_fields; simpl; tauto).
  assert (is_Some (dict_get "snapshot_type" data)) as Htype
    by (apply Hkeys, in_fields; simpl; tauto).
  assert (is_Some (dict_get "status" data)) as Hstatus
    by (apply Hkeys, in_fields; simpl; tauto).
  unfold Snapshots.kept, selected, Snapshots.matches, getitem.
  rewrite (has_of_data _ _ _ Htype), (has_of_data _ _ _ Hstatus), Hid.
  destruct regex as [found|]; simpl.
  - destruct id; simpl; try (split; [done|]; split; [done|]; by intros s).
    destruct (found s); simpl; [|done].
    by destruct (match Snapshots.if_set (Snapshots.snapshot_type p) with
                 | Some _ => _ | None => _ end).
  - by destruct (match Snapshots.if_set (Snapshots.snapshot_type p) with
                 | Some _ => _ | None => _ end).
Qed.

Lemma collect_crashes regex p snapshots e :
  Snapshots.collect regex p snapshots = inl e → is_crash e = true.
Proof.
  induction snapshots as [|s rest IH]; simpl; [done|].
  destruct (Snapshots.data_of s) as [e'|data] eqn:Hdata; simpl.
  { intros [= <-]. by destruct (data_of_raises _ _ Hdata) as [k ->]. }
  pose proof (kept_of_data regex p s data Hdata) as Hk. revert Hk.
  destruct (Snapshots.kept regex p data) as [e'|keep]; simpl; intros Hk.
  { intros [= <-]. by destruct Hk as [-> _]. }
  destruct (Snapshots.collect regex p rest); simpl; [|done].
  intros [= <-]. by apply IH.
Qed.

(** Every result was read from a snapshot of the answer. *)
Lemma collect_from regex p snapshots results :
  Snapshots.collect regex p snapshots = inr results →
  ∀ data, data ∈ results → ∃ s, s ∈ snapshots ∧ Snapshots.data_of s = inr data.
Proof.
  revert results. induction snapshots as [|s rest IH]; simpl; intros results.
  { intros [= <-] data Hin. by apply elem_of_nil in Hin. }
  destruct (Snapshots.data_of s) as [e'|d] eqn:Hdata; simpl; [done|].
  destruct (Snapshots.kept regex p d) as [e'|keep]; simpl; [done|].
  destruct (Snapshots.collect regex p rest) as [e'|tail]; simpl; [done|].
  intros [= <-] data Hin.
  assert (data = d ∨ data ∈ tail) as [->|Htail].
  { destruct keep; [by apply elem_of_cons in Hin|by right]. }
  - exists s. split; [by left|done].
  - destruct (IH tail eq_refl data Htail) as (s' & ? & ?). exists s'. split; [by right|done].
Qed.

(** *** Sorting *)

Lemma insert_by_perm {K A} (lt : K → K → bool) (x : K * A) l :
  insert_by lt x l ≡ₚ x :: l.
Proof.
  induction l as [|y l IH]; simpl; [done|].
  destruct (lt y.1 x.1); [|done]. rewrite IH. apply Permutation_swap.
Qed.

Lemma sort_by_perm {K A} (lt : K → K → bool) (l : list (K * A)) : sort_by lt l ≡ₚ l.
Proof.
  induction l as [|x l IH]; simpl; [done|]. by rewrite insert_by_perm, IH.
Qed.

Section order.
Context {K A : Type} (lt : K → K → bool).
Hypothesis asym : ∀ x y, lt x y = true → lt y x = false.
Hypothesis trans : ∀ x y z, lt y x = false → lt z y = false → lt z x = false.

Lemma insert_by_sorted (x : K * A) l :
  StronglySorted (λ a b, lt b.1 a.1 = false) l →
  StronglySorted (λ a b, lt b.1 a.1 = false) (insert_by lt x l).
Proof.
  induction 1 as [|y l Hl IH Hy]; simpl; [repeat constructor|].
  destruct (lt y.1 x.1) eqn:Hlt.
  - constructor; [done|]. rewrite insert_by_perm. constructor; [by apply asym|done].
  - constructor; [by constructor|]. constructor; [done|].
    eapply Forall_impl; [exact Hy|]. intros z Hz. simpl in *. by eapply trans.
Qed.

Lemma sort_by_sorted (l : list (K * A)) :
  StronglySorted (λ a b, lt b.1 a.1 = false) (sort_by lt l).
Proof.
  induction l as [|x l IH]; simpl; [constructor|]. by apply insert_by_sorted.
Qed.
End order.

Lemma StronglySorted_reverse {A} (R : relation A) l :
  StronglySorted R l → StronglySorted (flip R) (reverse l).
Proof.
  induction 1 as [|x l Hl IH Hx]; [constructor|].
  rewrite reverse_cons. apply StronglySorted_app_2.
  - intros y z Hy Hz%list_elem_of_singleton. subst z. rewrite elem_of_reverse in Hy.
    unfold flip. rewrite Forall_forall in Hx. by apply Hx.
  - exact IH.
  - repeat constructor.
Qed.

(** The keys of the results, next to them. *)
Lemma keyed_results key (results : list (list (string * value))) :
  match res_map (λ e, k ← getitem e key; inr (k, e)) results with
  | inr keyed => keyed.*2 = results ∧ Forall (λ x, dict_get key x.2 = Some x.1) keyed
  | inl e => e = KeyError key ∧ ∃ data, data ∈ results ∧ dict_get key data = None
  end.
Proof.
  induction results as [|d results IH]; [done|]. cbn [res_map]. unfold mbind, res_bind.
  unfold getitem at 1. destruct (dict_get key d) as [k|] eqn:Hk.
  - destruct (res_map _ results) as [e|keyed].
    + destruct IH as [-> (data & ? & ?)]. split; [done|]. exists data. split; [by right|done].
    + destruct IH as [<- ?]. split; [done|]. by constructor.
  - split; [done|]. exists d. split; [by left|done].
Qed.

Lemma sorted_fmap {A B} (R1 : relation A) (R2 : relation B) (P : A → Prop) (f : A → B) l :
  (∀ x y, P x → P y → R1 x y → R2 (f x) (f y)) →
  Forall P l → StronglySorted R1 l → StronglySorted R2 (f <$> l).
Proof.
  intros HR HP Hs. induction Hs as [|x l Hl IH Hx]; [constructor|].
  apply Forall_cons in HP as [Hpx HP]. rewrite fmap_cons. constructor; [by apply IH|].
  rewrite Forall_fmap. rewrite Forall_forall in Hx, HP |- *.
  intros y Hy. simpl. apply HR; auto.
Qed.

(** [results.sort] on results that have the key. *)
Lemma sort_results_sorted lib p key results :
  (∀ x y, Snapshots.lt lib x y = true → Snapshots.lt lib y x = false) →
  (∀ x y z, Snapshots.lt lib y x = false → Snapshots.lt lib z y = false →
            Snapshots.lt lib z x = false) →
  Snapshots.if_set (Snapshots.sort p) = Some key →
  (∀ data, data ∈ results → is_Some (dict_get key data)) →
  ∃ sorted, Snapshots.sort_results lib p results = inr sorted ∧ sorted ≡ₚ results ∧
    StronglySorted
      (in_order (Snapshots.lt lib) key
         (bool_decide (Snapshots.sort_order p = Some "descending"))) sorted.
Proof.
  intros asym trans Hkey Hhave. unfold Snapshots.sort_results. rewrite Hkey.
  pose proof (keyed_results key results) as H. revert H.
  destruct (res_map _ results) as [e|keyed]; intros H.
  { destruct H as [_ (data & Hin & Hnone)]. apply Hhave in Hin. rewrite Hnone in Hin.
    by destruct Hin. }
  destruct H as [Hsnd Hkeys]. simpl. eexists. split; [done|].
  assert (∀ x y : value * list (string * value),
            dict_get key x.2 = Some x.1 → dict_get key y.2 = Some y.1 →
            key_lt (Snapshots.lt lib) key x.2 y.2 = Snapshots.lt lib x.1 y.1) as Hlt.
  { intros x y Hx Hy. unfold key_lt. by rewrite Hx, Hy. }
  case_bool_decide as Hd; unfold in_order.
  - split; [by rewrite reverse_Permutation, sort_by_perm, reverse_Permutation, Hsnd|].
    apply (sorted_fmap (flip (λ a b, Snapshots.lt lib b.1 a.1 = false)) _
             (λ x, dict_get key x.2 = Some x.1)).
    + intros x y Hx Hy. unfold flip. by rewrite Hlt.
    + rewrite Forall_forall in Hkeys |- *. intros x Hx. apply Hkeys.
      by rewrite elem_of_reverse, sort_by_perm, elem_of_reverse in Hx.
    + apply StronglySorted_reverse. by apply sort_by_sorted.
  - split; [by rewrite sort_by_perm, Hsnd|].
    apply (sorted_fmap (λ a b, Snapshots.lt lib b.1 a.1 = false) _
             (λ x, dict_get key x.2 = Some x.1)).
    + intros x y Hx Hy. by rewrite Hlt.
    + rewrite Forall_forall in Hkeys |- *. intros x Hx. apply Hkeys.
      by rewrite sort_by_perm in Hx.
    + by apply sort_by_sorted.
Qed.

(** *** The search *)

Lemma search_from lib p snapshots results :
  Snapshots.search lib p snapshots = inr results →
  ∀ data, data ∈ results → ∃ s, Snapshots.data_of s = inr data.
Proof.
  destruct snapshots as [snapshots|]; simpl.
  2:{ intros [= <-] data Hin. by apply elem_of_nil in Hin. }
  unfold mbind, Snapshots.out_bind.
  destruct (match Snapshots.if_set (Snapshots.id_regex p) with
            | Some _ => _ | None => _ end) as [e|regex]; [done|].
  destruct (Snapshots.collect regex p snapshots) as [e|rs] eqn:Hc; simpl; [done|].
  intros [= <-] data Hin.
  destruct (collect_from _ _ _ _ Hc data Hin) as (s & _ & Hs). by exists s.
Qed.

Lemma search_keys lib p snapshots results key :
  Snapshots.search lib p snapshots = inr results →
  key ∈ Snapshots.fields.*1 →
  ∀ data, data ∈ results → is_Some (dict_get key data).
Proof.
  intros Hs Hkey data Hin. destruct (search_from _ _ _ _ Hs data Hin) as [s Hdata].
  apply data_of_keys in Hdata as (_ & Hkeys & _). by apply Hkeys.
Qed.

(** The search raises what the interpreter does not handle, never a
    failure of the module. *)
Lemma search_raises lib p snapshots e :
  Snapshots.search lib p snapshots = inl e →
  e = Snapshots.RegexError ∨ ∃ e', e = Snapshots.Python e' ∧ is_crash e' = true.
Proof.
  destruct snapshots as [snapshots|]; simpl; [|done].
  unfold mbind, Snapshots.out_bind.
  destruct (Snapshots.if_set (Snapshots.id_regex p)) as [pattern|].
  - destruct (Snapshots.re_compile lib pattern) as [found|]; [|intros [= <-]; by left].
    destruct (Snapshots.collect _ p snapshots) as [e'|rs] eqn:Hc; simpl; [|done].
    intros [= <-]. right. exists e'. split; [done|]. by eapply collect_crashes.
  - destruct (Snapshots.collect _ p snapshots) as [e'|rs] eqn:Hc; simpl; [|done].
    intros [= <-]. right. exists e'. split; [done|]. by eapply collect_crashes.
Qed.

Lemma slice_first {A} (l : list A) : slice None (Some 1) l = take 1 l.
Proof.
  unfold slice. destruct l as [|x l]; [done|].
  assert (Z.min 1 (Z.of_nat (length (x :: l))) = 1) as Hmin by (simpl; lia).
  change (1 <? 0) with false. cbv iota. rewrite Hmin. done.
Qed.

Ltac find_run Hd Hs :=
  unfold Snapshots.find_snapshot_facts; rewrite Hd; rewrite Hs;
  unfold mbind, Snapshots.out_bind; cbv beta iota.

(** X11.  The results hold the identifier under [snapshot_id]: sorting by
    [id], a choice the module offers, raises KeyError as soon as the search
    leaves one result. *)
Theorem sort_by_id_raises lib describe p snapshots data results :
  describe (Snapshots.api_args_of p) = inr snapshots →
  Snapshots.search lib p snapshots = inr (data :: results) →
  Snapshots.sort p = Some "id" →
  Snapshots.find_snapshot_facts lib describe p = Snapshots.Python (KeyError "id").
Proof.
  intros Hd Hs Hsort. find_run Hd Hs.
  destruct (search_from _ _ _ _ Hs data) as [s Hdata]; [by left|].
  apply data_of_keys in Hdata as (_ & _ & Hnone).
  assert (dict_get "id" data = None) as Hid.
  { apply Hnone; [|done|done]. rewrite list_elem_of_In. simpl.
    intros H. repeat destruct H as [H|H]; done. }
  unfold Snapshots.sort_results. rewrite Hsort.
  change (Snapshots.if_set (Some "id")) with (Some "id"). cbv beta iota.
  pose proof (keyed_results "id" (data :: results)) as Hk. revert Hk.
  destruct (res_map _ (data :: results)) as [e|keyed]; intros Hk.
  - by destruct Hk as [-> _].
  - destruct Hk as [Hsnd Hkeys]. destruct keyed as [|x keyed]; [done|].
    apply Forall_cons in Hkeys as [Hx _]. injection Hsnd as Hx2 _.
    rewrite Hx2, Hid in Hx. done.
Qed.

Lemma sort_by_id_raises_witness :
  let describe := λ _ : gmap string value, inr (Some three_snapshots) in
  Snapshots.find_snapshot_facts example_library describe (latest_task (Some "id") VNone) =
    Snapshots.Python (KeyError "id").
Proof.
  intros describe.
  eapply (sort_by_id_raises example_library describe (latest_task (Some "id") VNone)
            (Some three_snapshots)); [reflexivity|vm_compute; reflexivity|reflexivity].
Defined.

(** X12.  Sorting by a key every result has, without bounds: the run reports
    a permutation of the results of the search, in which no result has a
    smaller key than an earlier one, or a greater one when the order is
    descending, [<] being a strict weak order on the keys. *)
Theorem results_sorted lib describe p snapshots results key :
  (∀ x y, Snapshots.lt lib x y = true → Snapshots.lt lib y x = false) →
  (∀ x y z, Snapshots.lt lib y x = false → Snapshots.lt lib z y = false →
            Snapshots.lt lib z x = false) →
  describe (Snapshots.api_args_of p) = inr snapshots →
  Snapshots.search lib p snapshots = inr results →
  Snapshots.if_set (Snapshots.sort p) = Some key →
  key ∈ Snapshots.fields.*1 →
  truthy (Snapshots.sort_start p) = false →
  truthy (Snapshots.sort_end p) = false →
  ∃ sorted,
    Snapshots.find_snapshot_facts lib describe p = found_results sorted ∧
    sorted ≡ₚ results ∧
    StronglySorted
      (in_order (Snapshots.lt lib) key
         (bool_decide (Snapshots.sort_order p = Some "descending"))) sorted.
Proof.
  intros asym trans Hd Hs Hkey Hin Hstart Hend.
  destruct (sort_results_sorted lib p key results asym trans Hkey)
    as (sorted & Hsort & Hperm & Hsorted); [by eapply search_keys|].
  exists sorted. split; [|done]. find_run Hd Hs. rewrite Hsort. simpl.
  unfold Snapshots.cut. by rewrite Hkey, Hstart, Hend.
Qed.

Lemma example_library_asym x y :
  Snapshots.lt example_library x y = true → Snapshots.lt example_library y x = false.
Proof. destruct x, y; simpl; try done; lia. Qed.

Lemma example_library_trans x y z :
  Snapshots.lt example_library y x = false → Snapshots.lt example_library z y = false →
  Snapshots.lt example_library z x = false.
Proof. destruct x, y, z; simpl; try done; lia. Qed.

Lemma results_sorted_witness :
  let describe := λ _ : gmap string value, inr (Some three_snapshots) in
  let p := latest_task (Some "snapshot_create_time") VNone in
  ∃ sorted,
    Snapshots.find_snapshot_facts example_library describe p = found_results sorted ∧
    length sorted = 2%nat.
Proof.
  intros describe p.
  destruct (results_sorted example_library describe p (Some three_snapshots) _
              "snapshot_create_time" example_library_asym example_library_trans
              eq_refl eq_refl eq_refl)
    as (sorted & Hfind & Hperm & _);
    [rewrite list_elem_of_In; simpl; tauto|reflexivity|reflexivity|].
  exists sorted. split; [exact Hfind|]. by rewrite Hperm.
Defined.

(** X13.  The example that finds the latest snapshot: in descending order
    with an end of 1 and no start, the run reports no result when the
    search leaves none, and otherwise exactly one, a result of the search
    whose key no other result exceeds. *)
Theorem latest_snapshot lib describe p snapshots results key :
  (∀ x y, Snapshots.lt lib x y = true → Snapshots.lt lib y x = false) →
  (∀ x y z, Snapshots.lt lib y x = false → Snapshots.lt lib z y = false →
            Snapshots.lt lib z x = false) →
  describe (Snapshots.api_args_of p) = inr snapshots →
  Snapshots.search lib p snapshots = inr results →
  Snapshots.if_set (Snapshots.sort p) = Some key →
  key ∈ Snapshots.fields.*1 →
  Snapshots.sort_order p = Some "descending" →
  truthy (Snapshots.sort_start p) = false →
  truthy (Snapshots.sort_end p) = true →
  Snapshots.py_int lib (Snapshots.sort_end p) = inr 1 →
  match results with
  | [] => Snapshots.find_snapshot_facts lib describe p = found_results []
  | _ =>
      ∃ data, Snapshots.find_snapshot_facts lib describe p = found_results [data] ∧
              data ∈ results ∧
              ∀ other, other ∈ results → key_lt (Snapshots.lt lib) key data other = false
  end.
Proof.
  intros asym trans Hd Hs Hkey Hin Hdesc Hstart Hend Hint.
  destruct (sort_results_sorted lib p key results asym trans Hkey)
    as (sorted & Hsort & Hperm & Hsorted); [by eapply search_keys|].
  rewrite bool_decide_eq_true_2 in Hsorted by done. unfold in_order in Hsorted.
  assert (Snapshots.find_snapshot_facts lib describe p = found_results (take 1 sorted))
    as Hfind.
  { find_run Hd Hs. rewrite Hsort. simpl. unfold Snapshots.cut.
    rewrite Hkey, Hstart, Hend, Hint. simpl. by rewrite slice_first. }
  destruct results as [|d results].
  { apply Permutation_nil_r in Hperm. by rewrite Hfind, Hperm. }
  destruct sorted as [|data sorted]; [by apply Permutation_nil_l in Hperm|].
  exists data. split; [done|]. split; [rewrite <-Hperm; by left|].
  intros other Hother. rewrite <-Hperm in Hother.
  apply StronglySorted_cons in Hsorted as [Hfirst _].
  apply elem_of_cons in Hother as [->|Hother].
  - unfold key_lt. destruct (dict_get key data) as [k|]; [|done].
    destruct (Snapshots.lt lib k k) eqn:Hk; [|done]. by rewrite (asym _ _ Hk) in Hk.
  - rewrite Forall_forall in Hfirst. by apply Hfirst.
Qed.

Lemma latest_snapshot_witness :
  let describe := λ _ : gmap string value, inr (Some three_snapshots) in
  let p := latest_task (Some "snapshot_create_time") (VStr "1") in
  ∃ data, Snapshots.find_snapshot_facts example_library describe p = found_results [data] ∧
          dict_get "snapshot_id" data = Some (VStr "rds:my-rds-cluster-2").
Proof.
  intros describe p.
  destruct (latest_snapshot example_library describe p (Some three_snapshots) _
              "snapshot_create_time" example_library_asym example_library_trans
              eq_refl eq_refl eq_refl) as (data & Hfind & _ & _);
    [rewrite list_elem_of_In; simpl; tauto|reflexivity|reflexivity|reflexivity|reflexivity|].
  exists data. split; [exact Hfind|].
  assert (found_results [data] =
          Snapshots.find_snapshot_facts example_library describe p) as Heq by (by rewrite Hfind).
  vm_compute in Heq. by injection Heq as ->.
Defined.

Lemma read_fields_values snapshot (fs : list (string * string)) data :
  res_map (Snapshots.read snapshot) fs = inr data →
  NoDup fs.*1 →
  ∀ f, f ∈ fs → dict_get f.1 data = dict_get f.2 snapshot.
Proof.
  revert data. induction fs as [|f0 fs IH]; intros data.
  { intros _ _ f Hf. by apply elem_of_nil in Hf. }
  cbn [res_map]. unfold mbind, res_bind.
  destruct (Snapshots.read snapshot f0) as [e|y] eqn:Hread; [done|].
  destruct (res_map (Snapshots.read snapshot) fs) as [e|d] eqn:Hd; [done|].
  intros [= <-] Hnodup f Hf. rewrite fmap_cons in Hnodup.
  apply NoDup_cons in Hnodup as [Hfresh Hnodup].
  unfold Snapshots.read, getitem in Hread.
  destruct (dict_get f0.2 snapshot) as [v|] eqn:Hv; simplify_eq/=.
  apply elem_of_cons in Hf as [->|Hf].
  - by rewrite String.eqb_refl.
  - destruct (String.eqb_spec f.1 f0.1) as [Heq|Hne].
    + exfalso. apply Hfresh. rewrite <-Heq. apply list_elem_of_fmap. by exists f.
    + by apply IH.
Qed.

Lemma fields_NoDup : NoDup Snapshots.fields.*1.
Proof. compute_done. Qed.

(** [data] holds under each of its names what the snapshot holds under
    the key of the name. *)
Lemma data_of_values snapshot data f :
  Snapshots.data_of snapshot = inr data → f ∈ Snapshots.fields →
  dict_get f.1 data = dict_get f.2 snapshot.
Proof.
  intros Hdata Hf. pose proof (data_of_keys _ _ Hdata) as (_ & Hkeys & _).
  revert Hdata. unfold Snapshots.data_of. unfold mbind at 1, res_bind.
  destruct (res_map _ Snapshots.fields) as [e|d] eqn:Hd; [done|]. intros [= <-].
  assert (is_Some (dict_get f.1 d)) as Hsome.
  { rewrite (read_fields_values _ _ _ Hd fields_NoDup f Hf).
    pose proof (read_fields snapshot Snapshots.fields) as H. rewrite Hd in H.
    destruct H as [_ H]. rewrite Forall_forall in H. by apply H. }
  rewrite !optional_keeps; [|done|by rewrite optional_keeps].
  by apply (read_fields_values _ _ _ Hd fields_NoDup).
Qed.

(** X14.  On snapshots that have the keys the loop reads, their identifiers
    being strings when a pattern is given, the loop raises nothing and
    leaves, in the order of the answer, exactly the data of the snapshots
    that pass every filter that is set. *)
Theorem results_are_selected regex p snapshots :
  forallb well_formed snapshots = true →
  (regex ≠ None →
   ∀ s, s ∈ snapshots → ∃ id, dict_get "DBClusterSnapshotIdentifier" s = Some (VStr id)) →
  ∃ datas, Forall2 (λ s data, Snapshots.data_of s = inr data) snapshots datas ∧
           Snapshots.collect regex p snapshots = inr (List.filter (selected regex p) datas).
Proof.
  induction snapshots as [|s rest IH]; intros Hwf Hids.
  { exists []. by split; [constructor|]. }
  simpl in Hwf. apply andb_true_iff in Hwf as [Hs Hrest].
  destruct (data_of_total s Hs) as [data Hdata].
  destruct IH as (datas & Hall & Hcollect); [done|intros ? ? ?; apply Hids; [done|by right]|].
  exists (data :: datas). split; [by constructor|].
  cbn [Snapshots.collect]. rewrite Hdata. unfold mbind, res_bind.
  pose proof (kept_of_data regex p s data Hdata) as Hkept. revert Hkept.
  destruct (Snapshots.kept regex p data) as [e|keep]; intros Hkept.
  - destruct Hkept as (_ & Hregex & Hid). exfalso.
    destruct (Hids Hregex s) as [id Hs_id]; [by left|]. apply (Hid id).
    rewrite <-Hs_id.
    apply (data_of_values s data ("snapshot_id", "DBClusterSnapshotIdentifier") Hdata).
    rewrite list_elem_of_In. simpl. tauto.
  - rewrite Hcollect. simpl. rewrite <-Hkept. by destruct keep.
Qed.

Lemma results_are_selected_witness :
  let p := latest_task None VNone in
  ∃ datas, Forall2 (λ s data, Snapshots.data_of s = inr data) three_snapshots datas ∧
    Snapshots.collect (Some (String.prefix "rds:")) p three_snapshots =
      inr (List.filter (selected (Some (String.prefix "rds:")) p) datas).
Proof.
  intros p. apply (results_are_selected (Some (String.prefix "rds:")) p three_snapshots).
  - vm_compute. reflexivity.
  - intros _ s Hs. rewrite list_elem_of_In in Hs. simpl in Hs.
    repeat destruct Hs as [<-|Hs]; try (eexists; reflexivity). destruct Hs.
Defined.

Lemma collect_malformed regex p snapshots s :
  s ∈ snapshots → well_formed s = false →
  ∃ e, Snapshots.collect regex p snapshots = inl e.
Proof.
  intros Hin Hs. induction snapshots as [|s0 rest IH]; [by apply elem_of_nil in Hin|].
  cbn [Snapshots.collect]. unfold mbind, res_bind.
  destruct (Snapshots.data_of s0) as [e|data] eqn:Hdata; [by eexists|].
  destruct (Snapshots.kept regex p data) as [e|keep]; [by eexists|].
  apply elem_of_cons in Hin as [->|Hin].
  - apply data_of_keys in Hdata as [Hwf _]. by rewrite Hwf in Hs.
  - destruct (IH Hin) as [e ->]. by eexists.
Qed.

(** X15.  The keys are read before the filters apply: one snapshot of the
    answer that lacks a key makes the whole search end in an exception
    nothing handles, whatever the filters. *)
Theorem malformed_snapshot_raises lib describe p snapshots s :
  describe (Snapshots.api_args_of p) = inr (Some snapshots) →
  s ∈ snapshots →
  well_formed s = false →
  (∀ pattern, Snapshots.if_set (Snapshots.id_regex p) = Some pattern →
              is_Some (Snapshots.re_compile lib pattern)) →
  ∃ e, Snapshots.find_snapshot_facts lib describe p = Snapshots.Python e ∧
       is_crash e = true.
Proof.
  intros Hd Hin Hs Hregex.
  assert (∃ e, Snapshots.search lib p (Some snapshots) = inl (Snapshots.Python e) ∧
               is_crash e = true) as (e & Hsearch & Hcrash).
  { simpl. unfold mbind, Snapshots.out_bind.
    destruct (Snapshots.if_set (Snapshots.id_regex p)) as [pattern|].
    - destruct (Hregex pattern eq_refl) as [found ->].
      destruct (collect_malformed (Some found) p snapshots s Hin Hs) as [e He].
      rewrite He. exists e. split; [done|]. by eapply collect_crashes.
    - destruct (collect_malformed None p snapshots s Hin Hs) as [e He].
      rewrite He. exists e. split; [done|]. by eapply collect_crashes. }
  exists e. split; [|done]. by find_run Hd Hsearch.
Qed.

Lemma malformed_snapshot_raises_witness :
  let broken := [("DBClusterSnapshotIdentifier", VStr "manual-1"); ("Status", VStr "failed")] in
  let describe := λ _ : gmap string value, inr (Some (three_snapshots ++ [broken])) in
  ∃ e, Snapshots.find_snapshot_facts example_library describe (latest_task None VNone) =
         Snapshots.Python e ∧ is_crash e = true.
Proof.
  intros broken describe.
  apply (malformed_snapshot_raises example_library describe (latest_task None VNone)
           (three_snapshots ++ [broken]) broken).
  - reflexivity.
  - rewrite list_elem_of_In. simpl. tauto.
  - vm_compute. reflexivity.
  - intros pattern Hp. discriminate Hp.
Defined.

Lemma collect_bounds regex p a b snapshots :
  Snapshots.collect regex (with_bounds p a b) snapshots = Snapshots.collect regex p snapshots.
Proof.
  induction snapshots as [|s rest IH]; [done|]. cbn [Snapshots.collect]. by rewrite IH.
Qed.

(** X16.  Without [sort], [sort_start] and [sort_end] are not read: the run
    ends the same way whatever they are, numbers or not. *)
Theorem bounds_ignored_without_sort lib describe p a b :
  Snapshots.if_set (Snapshots.sort p) = None →
  Snapshots.find_snapshot_facts lib describe (with_bounds p a b) =
    Snapshots.find_snapshot_facts lib describe p.
Proof.
  intros Hsort. unfold Snapshots.find_snapshot_facts.
  change (Snapshots.api_args_of (with_bounds p a b)) with (Snapshots.api_args_of p).
  destruct (describe (Snapshots.api_args_of p)) as [e|snapshots]; [done|].
  assert (Snapshots.search lib (with_bounds p a b) snapshots =
          Snapshots.search lib p snapshots) as ->.
  { destruct snapshots as [snapshots|]; [|done]. simpl.
    destruct (match Snapshots.if_set (Snapshots.id_regex p) with
              | Some _ => _ | None => _ end); [done|].
    simpl. by rewrite collect_bounds. }
  unfold mbind, Snapshots.out_bind.
  destruct (Snapshots.search lib p snapshots) as [e|results]; [done|].
  unfold Snapshots.sort_results, Snapshots.cut.
  change (Snapshots.sort (with_bounds p a b)) with (Snapshots.sort p).
  by rewrite Hsort.
Qed.

Lemma bounds_ignored_without_sort_witness :
  let describe := λ _ : gmap string value, inr (Some three_snapshots) in
  Snapshots.find_snapshot_facts example_library describe
    (with_bounds (latest_task None VNone) (VStr "first") (VList [VInt 2])) =
  Snapshots.find_snapshot_facts example_library describe (latest_task None VNone).
Proof.
  intros describe.
  apply (bounds_ignored_without_sort example_library describe (latest_task None VNone)).
  reflexivity.
Defined.

Lemma sort_results_raises lib p results e :
  Snapshots.sort_results lib p results = inl e → ∃ k, e = KeyError k.
Proof.
  unfold Snapshots.sort_results. destruct (Snapshots.if_set (Snapshots.sort p)) as [key|]; [|done].
  pose proof (keyed_results key results) as H. revert H. unfold mbind, res_bind.
  destruct (res_map _ results) as [e'|keyed]; intros H; [|done].
  destruct H as [-> _]. intros [= <-]. by eexists.
Qed.

Lemma sort_results_total lib p key results :
  Snapshots.if_set (Snapshots.sort p) = Some key →
  (∀ data, data ∈ results → is_Some (dict_get key data)) →
  ∃ sorted, Snapshots.sort_results lib p results = inr sorted.
Proof.
  intros Hkey Hhave. unfold Snapshots.sort_results. rewrite Hkey.
  pose proof (keyed_results key results) as H. revert H. unfold mbind, res_bind.
  destruct (res_map _ results) as [e|keyed]; intros H; [|by eexists].
  destruct H as [_ (data & Hin & Hnone)]. apply Hhave in Hin. rewrite Hnone in Hin.
  by destruct Hin.
Qed.

Lemma py_int_text lib v :
  is_text v = true → truthy v = true →
  Snapshots.py_int lib v = inl Snapshots.ValueError ∨ ∃ n, Snapshots.py_int lib v = inr n.
Proof.
  destruct v; try done. intros _ _. simpl.
  destruct (Snapshots.int_of_str lib s); [right; by eexists|by left].
Qed.

Lemma cut_text lib p results :
  is_text (Snapshots.sort_start p) = true → is_text (Snapshots.sort_end p) = true →
  Snapshots.cut lib p results = inl Snapshots.ValueError ∨
  ∃ r, Snapshots.cut lib p results = inr r.
Proof.
  intros Hstart Hend. unfold Snapshots.cut.
  destruct (Snapshots.if_set (Snapshots.sort p)); [|right; by eexists].
  unfold mbind, Snapshots.out_bind.
  destruct (truthy (Snapshots.sort_start p)) eqn:Ts;
    destruct (truthy (Snapshots.sort_end p)) eqn:Te.
  - destruct (py_int_text lib _ Hstart Ts) as [->|[a ->]]; [by left|].
    destruct (py_int_text lib _ Hend Te) as [->|[b ->]]; [by left|right; by eexists].
  - destruct (py_int_text lib _ Hstart Ts) as [->|[a ->]]; [by left|right; by eexists].
  - destruct (py_int_text lib _ Hend Te) as [->|[b ->]]; [by left|right; by eexists].
  - right; by eexists.
Qed.

(** X17.  With bounds that are strings or None, as options without a type
    are, the run never fails with "Please supply numeric values ...": a
    start that is no number raises ValueError, which the handler does not
    take. *)
Theorem text_bounds_never_rejected lib describe p :
  is_text (Snapshots.sort_start p) = true →
  is_text (Snapshots.sort_end p) = true →
  Snapshots.find_snapshot_facts lib describe p ≠ bounds_rejected ∧
  ∀ snapshots results key s,
    describe (Snapshots.api_args_of p) = inr snapshots →
    Snapshots.search lib p snapshots = inr results →
    Snapshots.if_set (Snapshots.sort p) = Some key →
    key ∈ Snapshots.fields.*1 →
    Snapshots.sort_start p = VStr s →
    s ≠ EmptyString →
    Snapshots.int_of_str lib s = None →
    Snapshots.find_snapshot_facts lib describe p = Snapshots.ValueError.
Proof.
  intros Hstart Hend. split.
  - unfold Snapshots.find_snapshot_facts, bounds_rejected.
    destruct (describe (Snapshots.api_args_of p)) as [e|snapshots]; [done|].
    unfold mbind, Snapshots.out_bind.
    destruct (Snapshots.search lib p snapshots) as [e|results] eqn:Hs.
    { apply search_raises in Hs as [->|(e' & -> & Hcrash)]; [done|].
      intros [= ->]. done. }
    destruct (Snapshots.sort_results lib p results) as [e|sorted] eqn:Hsort; simpl.
    { by apply sort_results_raises in Hsort as [k ->]. }
    by destruct (cut_text lib p sorted Hstart Hend) as [->|[r ->]].
  - intros snapshots results key s Hd Hs Hkey Hin Hs_start Hne Hint. find_run Hd Hs.
    destruct (sort_results_total lib p key results Hkey) as [sorted ->];
      [by eapply search_keys|].
    simpl. unfold Snapshots.cut. rewrite Hkey, Hs_start. simpl.
    apply String.eqb_neq in Hne. rewrite Hne, Hint. simpl.
    by destruct (truthy (Snapshots.sort_end p)).
Qed.

Lemma text_bounds_never_rejected_witness :
  let describe := λ _ : gmap string value, inr (Some three_snapshots) in
  let p := with_bounds (latest_task (Some "snapshot_create_time") VNone)
             (VStr "first") VNone in
  Snapshots.find_snapshot_facts example_library describe p = Snapshots.ValueError.
Proof.
  intros describe p.
  eapply (proj2 (text_bounds_never_rejected example_library describe p eq_refl eq_refl)
            (Some three_snapshots) _ "snapshot_create_time" "first");
    [reflexivity|vm_compute; reflexivity|reflexivity| |reflexivity|done|reflexivity].
  rewrite list_elem_of_In. simpl. tauto.
Defined.

(** X18.  A start that is set and on which [int] raises TypeError, a list
    say, makes a sorted search fail with "Please supply numeric values for
    sort_start and/or sort_end". *)
Theorem other_bounds_rejected lib describe p snapshots results key :
  describe (Snapshots.api_args_of p) = inr snapshots →
  Snapshots.search lib p snapshots = inr results →
  Snapshots.if_set (Snapshots.sort p) = Some key →
  key ∈ Snapshots.fields.*1 →
  truthy (Snapshots.sort_start p) = true →
  Snapshots.py_int lib (Snapshots.sort_start p) = inl (Snapshots.Python TypeError) →
  Snapshots.find_snapshot_facts lib describe p = bounds_rejected.
Proof.
  intros Hd Hs Hkey Hin Hstart Hint. find_run Hd Hs.
  destruct (sort_results_total lib p key results Hkey) as [sorted ->];
    [by eapply search_keys|].
  simpl. unfold Snapshots.cut. rewrite Hkey, Hstart.
  unfold mbind, Snapshots.out_bind. rewrite Hint.
  by destruct (truthy (Snapshots.sort_end p)).
Qed.

Lemma other_bounds_rejected_witness :
  let describe := λ _ : gmap string value, inr (Some three_snapshots) in
  let p := with_bounds (latest_task (Some "snapshot_create_time") VNone)
             (VList [VInt 1]) VNone in
  Snapshots.find_snapshot_facts example_library describe p = bounds_rejected.
Proof.
  intros describe p.
  eapply (other_bounds_rejected example_library describe p (Some three_snapshots) _
            "snapshot_create_time");
    [reflexivity|vm_compute; reflexivity|reflexivity| |reflexivity|reflexivity].
  rewrite list_elem_of_In. simpl. tauto.
Defined.

(** X19.  When the gateway raises, the run fails with the message of the
    error and the arguments of the call; when its answer holds no list of
    snapshots, the run reports no result without bounds, the pattern not
    being compiled and the sort key not being read. *)
Theorem gateway_answers_without_list lib describe p :
  (∀ e, describe (Snapshots.api_args_of p) = inl e →
        Snapshots.find_snapshot_facts lib describe p =
          Snapshots.Python (SystemExit (FailedApi (message e) (Snapshots.api_args_of p)))) ∧
  (describe (Snapshots.api_args_of p) = inr None →
   truthy (Snapshots.sort_start p) = false →
   truthy (Snapshots.sort_end p) = false →
   Snapshots.find_snapshot_facts lib describe p = found_results []).
Proof.
  split.
  - intros e Hd. unfold Snapshots.find_snapshot_facts. by rewrite Hd.
  - intros Hd Hstart Hend. unfold Snapshots.find_snapshot_facts. rewrite Hd. simpl.
    unfold Snapshots.sort_results, Snapshots.cut.
    destruct (Snapshots.if_set (Snapshots.sort p)); simpl; [|done].
    rewrite Hstart, Hend. by case_bool_decide.
Qed.

Lemma gateway_answers_without_list_witness :
  let describe := λ _ : gmap string value, inr None in
  let p := Snapshots.Params None (Some "my-rds-cluster") None (Some "(") None None
             (Some "id") None VNone VNone in
  Snapshots.find_snapshot_facts example_library describe p = found_results [].
Proof.
  intros describe p.
  apply (proj2 (gateway_answers_without_list example_library describe p));
    reflexivity.
Defined.
